(** * A model of Delve's DAP server (service/dap/server.go)

    The server translates Debug Adapter Protocol requests into calls on the
    debugger and translates the debugger's answers into DAP responses and
    events.  This development embeds the request handlers of server.go as
    functions over an explicit [Server] state and proves properties of the
    handle registries, of the conversion of variables, of the launch and
    configuration handlers and of the teardown paths.

    Conventions.
    - Go [int], [int64] and [uintptr] values are [Z]; no handler computes
      near the word bounds.
    - A method that mutates the server is a function in the monad [M]: it
      takes the server and returns the server together with a result or a
      panic.  Every call that leaves server.go (a message written to the
      client, a call on the debugger, a build, a closed channel, a registry
      reset) is appended to the [trace] of the server, in program order.
    - The Go standard library, the packages [proc], [api], [debugger] and
      [gobuild] are collaborators of server.go: their functions are fields of
      the class [External]. *)

From stdpp Require Import base option list gmap strings pretty.
From Stdlib Require Import ZArith HexadecimalString.

Open Scope Z_scope.
Set Warnings "-register-all".

(** ** Go values *)

Module reflect.
(** reflect.Kind, in the order of the Go declaration. *)
Inductive Kind :=
| Invalid | Bool | Int | Int8 | Int16 | Int32 | Int64
| Uint | Uint8 | Uint16 | Uint32 | Uint64 | Uintptr
| Float32 | Float64 | Complex64 | Complex128
| Array | Chan | Func | Interface | Map | Ptr | Slice
| String | Struct | UnsafePointer.

#[global] Instance Kind_eq_dec : EqDecision Kind.
Proof. solve_decision. Defined.
End reflect.

(** A value of type [interface{}] as encoding/json decodes it: the launch
    arguments are a [map[string]interface{}]. *)
Inductive jsonValue (float64 : Type) :=
| jnil
| jbool (b : bool)
| jfloat64 (f : float64)
| jstring (s : string)
| jslice (l : list (jsonValue float64))
| jmap (m : list (string * jsonValue float64)).
Arguments jnil {float64}.
Arguments jbool {float64} b.
Arguments jfloat64 {float64} f.
Arguments jstring {float64} s.
Arguments jslice {float64} l.
Arguments jmap {float64} m.

(** A Go [error]: the dynamic type as far as server.go inspects it (the
    type assertion of doCommand is on the value type proc.ErrProcessExited,
    the type switch of onThreadsRequest on the pointer type), and the text
    of [Error()]. *)
Inductive errorType := ErrProcessExited | PtrErrProcessExited | OtherError.

Record error := mkError { errType : errorType; Error : string }.

#[global] Instance errorType_eq_dec : EqDecision errorType.
Proof. solve_decision. Defined.

(** Go channels of [struct{}] that are only ever closed. *)
Inductive chanState := ChanOpen | ChanClosed.

Module proc.
(** proc.Variable (here [Variable_]: the name is reserved), the fields server.go reads or writes.  [Value] is a
    go/constant value, [DwarfType] the name of the DWARF type when there
    is one, [Unreadable] the error of a failed load. *)
Inductive Variable_ (constantValue : Type) := mkVariable {
  Addr : Z;
  Name : string;
  DwarfType : option string;
  Kind : reflect.Kind;
  Value : constantValue;
  Len : Z;
  Cap : Z;
  Base : Z;
  Unreadable : option string;
  Children : list (Variable_ constantValue)
}.
Arguments mkVariable {constantValue}.
Arguments Addr {constantValue}.
Arguments Name {constantValue}.
Arguments DwarfType {constantValue}.
Arguments Kind {constantValue}.
Arguments Value {constantValue}.
Arguments Len {constantValue}.
Arguments Cap {constantValue}.
Arguments Base {constantValue}.
Arguments Unreadable {constantValue}.
Arguments Children {constantValue}.

(** proc.Function, api.Location / proc.Location and proc.Stackframe. *)
Record Function := mkFunction { fn_Name : string }.
Record Location := mkLocation {
  loc_File : string; loc_Line : Z; loc_Fn : option Function }.
Record Stackframe := mkStackframe { Call : Location }.

(** proc.G with the location UserCurrent() computes. *)
Record G := mkG { g_ID : Z; UserCurrent : Location }.
End proc.

Module api.
(** api.DebuggerState: [SelectedGoroutine] and [CurrentThread] are
    pointers and may be nil. *)
Record Goroutine := mkGoroutine { ID : Z }.
Record Thread := mkThread { GoroutineID : Z }.
Record DebuggerState := mkDebuggerState {
  Exited : bool;
  SelectedGoroutine : option Goroutine;
  CurrentThread : option Thread
}.
Record Breakpoint := mkBreakpoint {
  bp_ID : Z; bp_File : string; bp_Line : Z; bp_Cond : string }.

(** Command names. *)
Definition Continue : string := "continue".
Definition Step : string := "step".
Definition StepOut : string := "stepOut".
Definition Next : string := "next".
Definition Halt : string := "halt".
End api.

(** ** DAP messages (github.com/google/go-dap) *)

(** Modelled from the spec: the error identifiers are constants declared
    outside server.go; the spec lists them and requires them to be stable
    and distinct from each other. *)
Inductive ErrorId :=
| UnsupportedCommand | InternalError | NotYetImplemented
| FailedToLaunch | UnableToSetBreakpoints | UnableToDisplayThreads
| UnableToProduceStackTrace | UnableToListLocals | UnableToListArgs
| UnableToListGlobals | UnableToLookupVariable.

#[global] Instance ErrorId_eq_dec : EqDecision ErrorId.
Proof. solve_decision. Defined.

Module dap.
Record Request := mkRequest {
  req_Seq : Z; req_Type : string; req_Command : string }.

Record Response := mkResponse {
  resp_Seq : Z; resp_Type : string; resp_Command : string;
  RequestSeq : Z; Success : bool; resp_Message : string }.

Record Event := mkEvent {
  ev_Seq : Z; ev_Type : string; ev_Event : string }.

Record Capabilities := mkCapabilities {
  SupportsConfigurationDoneRequest : bool;
  SupportsConditionalBreakpoints : bool;
  SupportsSetVariable : bool;
  SupportsTerminateRequest : bool;
  SupportsRestartRequest : bool;
  SupportsFunctionBreakpoints : bool;
  SupportsStepBack : bool;
  SupportsSetExpression : bool;
  SupportsLoadedSourcesRequest : bool;
  SupportsReadMemoryRequest : bool;
  SupportsDisassembleRequest : bool;
  SupportsCancelRequest : bool }.

Record StoppedEventBody := mkStoppedEventBody {
  Reason : string; ThreadId : Z; Text : string; AllThreadsStopped : bool }.

Record Source := mkSource { src_Name : string; src_Path : string }.

Record StackFrame := mkStackFrame {
  sf_Id : Z; sf_Name : string; sf_Source : Source;
  sf_Line : Z; sf_Column : Z }.

Record Thread := mkThread { th_Id : Z; th_Name : string }.

Record Scope := mkScope { sc_Name : string; sc_VariablesReference : Z }.

Record Variable_ := mkVariable {
  Name : string; Value : string; VariablesReference : Z }.

Record Breakpoint := mkBreakpoint {
  Verified : bool; bp_Message : string; bp_Line : Z }.

Record SourceBreakpoint := mkSourceBreakpoint {
  sb_Line : Z; sb_Condition : string }.

(** The messages the server writes. *)
Inductive Message :=
| InitializeResponse (r : Response) (body : Capabilities)
| LaunchResponse (r : Response)
| DisconnectResponse (r : Response)
| SetBreakpointsResponse (r : Response) (bps : list Breakpoint)
| SetExceptionBreakpointsResponse (r : Response)
| ConfigurationDoneResponse (r : Response)
| ContinueResponse (r : Response) (allThreadsContinued : bool)
| ThreadsResponse (r : Response) (threads : list Thread)
| NextResponse (r : Response)
| StepInResponse (r : Response)
| StepOutResponse (r : Response)
| StackTraceResponse (r : Response) (stackFrames : list StackFrame)
                     (totalFrames : Z)
| ScopesResponse (r : Response) (scopes : list Scope)
| VariablesResponse (r : Response) (variables : list Variable_)
| ErrorResponse (r : Response) (id : ErrorId) (format : string)
| InitializedEvent (e : Event)
| StoppedEvent (e : Event) (body : StoppedEventBody)
| TerminatedEvent (e : Event)
| OutputEvent (e : Event) (output : string) (category : string).

(** The zero values Go gives to fields that are not set. *)
Definition noSource : Source := mkSource "" "".
End dap.

(** ** Handle registries *)

Module handles.
(** Modelled from the spec: handlesMap and variablesHandlesMap, with
    newHandlesMap, create, get and reset, are declared outside server.go.
    [create] allocates a fresh positive integer, stores the payload under
    it and returns it; [get] is a pure lookup; [reset] discards all
    entries and resets the allocation counter.  Zero is never allocated. *)
Record handlesMap (V : Type) := mkHandlesMap {
  nextHandle : positive;
  handleToVal : gmap positive V
}.
Arguments mkHandlesMap {V}.
Arguments nextHandle {V}.
Arguments handleToVal {V}.

Definition startHandle : positive := 1%positive.

Definition newHandlesMap {V} : handlesMap V := mkHandlesMap startHandle ∅.

Definition reset {V} (hs : handlesMap V) : handlesMap V := newHandlesMap.

Definition create {V} (value : V) (hs : handlesMap V) : Z * handlesMap V :=
  (Z.pos (nextHandle hs),
   mkHandlesMap (Pos.succ (nextHandle hs))
                (<[nextHandle hs := value]> (handleToVal hs))).

Definition get {V} (handle : Z) (hs : handlesMap V) : option V :=
  match handle with
  | Z.pos p => handleToVal hs !! p
  | _ => None
  end.

(** Every stored handle was issued by the counter. *)
Definition wf {V} (hs : handlesMap V) : Prop :=
  ∀ p, is_Some (handleToVal hs !! p) → (p < nextHandle hs)%positive.
End handles.

(** stackFrame represents the index of a frame within the context of a
    stack of a specific goroutine. *)
Record stackFrame := mkStackFrameRef { goroutineID : Z; frameIndex : Z }.

(** launchAttachArgs captures arguments from launch/attach request that
    impact handling of subsequent requests. *)
Record launchAttachArgs := mkLaunchAttachArgs {
  stopOnEntry : bool;
  stackTraceDepth : Z;
  showGlobalVariables : bool
}.

Definition defaultArgs : launchAttachArgs :=
  {| stopOnEntry := false; stackTraceDepth := 50; showGlobalVariables := false |}.

(** proc.LoadConfig and debugger.Config (the fields server.go sets). *)
Record LoadConfig := mkLoadConfig {
  FollowPointers : bool; MaxVariableRecurse : Z; MaxStringLen : Z;
  MaxArrayValues : Z; MaxStructFields : Z }.

Record DebuggerConfig := mkDebuggerConfig { WorkingDir : string; AttachPid : Z }.

Inductive chanName := StopChan | DisconnectChan.

#[global] Instance chanName_eq_dec : EqDecision chanName.
Proof. solve_decision. Defined.

Inductive handlesName := StackFrameHandles | VariableHandles.

(** ** The collaborators of server.go *)

(** What server.go calls and does not define.  Types that server.go only
    passes along are abstract: [float64] (JSON numbers), [constantValue]
    (go/constant.Value) and [Debugger] (the state of the debugger).  A call
    on the debugger returns its result and the debugger after the call.  A
    Go function returning [(T, error)] returns [T + error]: a nil error
    comes with a result. *)
Class External := {
  float64 : Type;
  float64_positive : float64 → bool;          (* depth > 0 *)
  float64_int : float64 → Z;                  (* int(depth) *)
  constantValue : Type;
  constant_nil : constantValue;               (* the zero value of the field *)
  constant_StringVal : constantValue → string;
  constant_Real : constantValue → constantValue;
  constant_Imag : constantValue → constantValue;
  (* fmt on values whose printing is not modelled here *)
  fmt_v : jsonValue float64 → string;         (* %v of an interface{} *)
  fmt_q : jsonValue float64 → string;         (* %q of an interface{} *)
  strconv_Quote : string → string;            (* %q of a string *)
  (* path/filepath *)
  filepath_Abs : string → string + error;
  filepath_Dir : string → string;
  filepath_Base : string → string;
  (* service/api *)
  PrettyTypeName : option string → string;
  VariableValueAsString : proc.Variable_ constantValue → string;
  TypeString : proc.Variable_ constantValue → string;
  (* pkg/gobuild *)
  GoBuild : string → list string → string → option error;
  GoTestBuild : string → list string → string → option error;
  (* service/debugger *)
  Debugger : Type;
  debugger_New : DebuggerConfig → list string → Debugger + error;
  debugger_Command : Debugger → string → (api.DebuggerState + error) * Debugger;
  debugger_State : Debugger → bool → (api.DebuggerState + error) * Debugger;
  debugger_Detach : Debugger → bool → option error * Debugger;
  debugger_Stacktrace :
    Debugger → Z → Z → Z → (list proc.Stackframe + error) * Debugger;
  debugger_FunctionArguments :
    Debugger → Z → Z → Z → LoadConfig →
    (list (proc.Variable_ constantValue) + error) * Debugger;
  debugger_LocalVariables :
    Debugger → Z → Z → Z → LoadConfig →
    (list (proc.Variable_ constantValue) + error) * Debugger;
  debugger_CurrentPackage : Debugger → (string + error) * Debugger;
  debugger_PackageVariables :
    Debugger → string → LoadConfig →
    (list (proc.Variable_ constantValue) + error) * Debugger;
  debugger_Breakpoints : Debugger → list api.Breakpoint * Debugger;
  debugger_ClearBreakpoint :
    Debugger → api.Breakpoint → (api.Breakpoint + error) * Debugger;
  debugger_CreateBreakpoint :
    Debugger → api.Breakpoint → (api.Breakpoint + error) * Debugger;
  debugger_Goroutines : Debugger → Z → Z → (list proc.G + error) * Debugger
}.

(** Calls on the debugger, as recorded in the trace. *)
Inductive DebuggerCall :=
| CallCommand (name : string)
| CallState (nowait : bool)
| CallDetach (kill : bool)
| CallStacktrace (goroutineID depth opts : Z)
| CallFunctionArguments (goid frame : Z)
| CallLocalVariables (goid frame : Z)
| CallCurrentPackage
| CallPackageVariables (filter : string)
| CallBreakpoints
| CallClearBreakpoint (bp : api.Breakpoint)
| CallCreateBreakpoint (bp : api.Breakpoint)
| CallGoroutines.

(** What leaves server.go, in program order. *)
Inductive Effect :=
| Send (m : dap.Message)
| NewDebugger (config : DebuggerConfig) (processArgs : list string)
| OnDebugger (c : DebuggerCall)
| Build (test : bool) (debugname : string) (pkgs : list string)
        (buildFlags : string)
| RemoveBinary (path : string)
| CloseListener
| CloseConn
| CloseChan (c : chanName)
| ResetHandles (h : handlesName).

(** ** Formatting *)

(** fmt's %d and %#x on integers. *)
Definition fmt_d (z : Z) : string := pretty z.

Definition fmt_x (z : Z) : string :=
  "0x" +:+ HexadecimalString.NilZero.string_of_uint (N.to_hex_uint (Z.to_N z)).

Fixpoint strings_Contains (s substr : string) : bool :=
  if String.prefix substr s then true
  else match s with
       | EmptyString => false
       | String _ s' => strings_Contains s' substr
       end.

Fixpoint string_drop (n : nat) (s : string) : string :=
  match n, s with
  | S n', String _ s' => string_drop n' s'
  | _, _ => s
  end.

Definition strings_TrimPrefix (s prefix : string) : string :=
  if String.prefix prefix s then string_drop (String.length prefix) s else s.

(** Modelled from the spec: [min] on ints is declared outside server.go;
    the pagination of stackTrace slices the fetched frames with it. *)
Definition min (a b : Z) : Z := if a <? b then a else b.

(** A handler returns or panics, and leaves a server behind in both cases
    (handleRequest recovers the panic and goes on with that server). *)
Inductive Res (A : Type) := Ok (a : A) | Panic (v : string).
Arguments Ok {A} a.
Arguments Panic {A} v.

Section Server.
Context `{Ext : External}.

(** ** Requests *)

Record StackTraceArguments := mkStackTraceArguments {
  st_ThreadId : Z; StartFrame : Z; Levels : Z }.

Record SetBreakpointsArguments := mkSetBreakpointsArguments {
  sba_SourcePath : string; sba_Breakpoints : list dap.SourceBreakpoint }.

(** The messages handleRequest switches on.  [OtherMessage] is any other
    decoded message, with its sequence number and its %#v rendering. *)
Inductive RequestMessage :=
| InitializeRequest (r : dap.Request)
| LaunchRequest (r : dap.Request) (Arguments : gmap string (jsonValue float64))
| AttachRequest (r : dap.Request)
| DisconnectRequest (r : dap.Request)
| TerminateRequest (r : dap.Request)
| RestartRequest (r : dap.Request)
| SetBreakpointsRequest (r : dap.Request) (Arguments : SetBreakpointsArguments)
| SetFunctionBreakpointsRequest (r : dap.Request)
| SetExceptionBreakpointsRequest (r : dap.Request)
| ConfigurationDoneRequest (r : dap.Request)
| ContinueRequest (r : dap.Request)
| NextRequest (r : dap.Request)
| StepInRequest (r : dap.Request)
| StepOutRequest (r : dap.Request)
| StepBackRequest (r : dap.Request)
| ReverseContinueRequest (r : dap.Request)
| RestartFrameRequest (r : dap.Request)
| GotoRequest (r : dap.Request)
| PauseRequest (r : dap.Request)
| StackTraceRequest (r : dap.Request) (Arguments : StackTraceArguments)
| ScopesRequest (r : dap.Request) (FrameId : Z)
| VariablesRequest (r : dap.Request) (VariablesReference : Z)
| SetVariableRequest (r : dap.Request)
| SetExpressionRequest (r : dap.Request)
| SourceRequest (r : dap.Request)
| ThreadsRequest (r : dap.Request)
| TerminateThreadsRequest (r : dap.Request)
| EvaluateRequest (r : dap.Request)
| StepInTargetsRequest (r : dap.Request)
| GotoTargetsRequest (r : dap.Request)
| CompletionsRequest (r : dap.Request)
| ExceptionInfoRequest (r : dap.Request)
| LoadedSourcesRequest (r : dap.Request)
| DataBreakpointInfoRequest (r : dap.Request)
| SetDataBreakpointsRequest (r : dap.Request)
| ReadMemoryRequest (r : dap.Request)
| DisassembleRequest (r : dap.Request)
| CancelRequest (r : dap.Request)
| BreakpointLocationsRequest (r : dap.Request)
| ModulesRequest (r : dap.Request)
| OtherMessage (seq : Z) (goSyntax : string).

(** ** The server *)

(** The fields of Server and of its config that the handlers read or
    write.  [conn] tells whether a client connection was accepted;
    [stopChan] and [disconnectChan] are the states of the two channels,
    [config_DisconnectChan] is the field that points to the second one
    until signalDisconnect sets it to nil. *)
Record Server := mkServer {
  config_ProcessArgs : list string;
  config_Debugger : DebuggerConfig;
  config_DisconnectChan : option chanName;
  stopChan : chanState;
  disconnectChan : chanState;
  conn : bool;
  debugger : option Debugger;
  binaryToRemove : string;
  stackFrameHandles : handles.handlesMap stackFrame;
  variableHandles : handles.handlesMap (proc.Variable_ constantValue);
  args : launchAttachArgs;
  trace : list Effect
}.

Definition set_config_ProcessArgs (x : list string) (s : Server) : Server :=
  mkServer x (config_Debugger s) (config_DisconnectChan s) (stopChan s)
    (disconnectChan s) (conn s) (debugger s) (binaryToRemove s)
    (stackFrameHandles s) (variableHandles s) (args s) (trace s).

Definition set_config_Debugger (x : DebuggerConfig) (s : Server) : Server :=
  mkServer (config_ProcessArgs s) x (config_DisconnectChan s) (stopChan s)
    (disconnectChan s) (conn s) (debugger s) (binaryToRemove s)
    (stackFrameHandles s) (variableHandles s) (args s) (trace s).

Definition set_config_DisconnectChan (x : option chanName) (s : Server) : Server :=
  mkServer (config_ProcessArgs s) (config_Debugger s) x (stopChan s)
    (disconnectChan s) (conn s) (debugger s) (binaryToRemove s)
    (stackFrameHandles s) (variableHandles s) (args s) (trace s).

Definition set_chan (c : chanName) (x : chanState) (s : Server) : Server :=
  match c with
  | StopChan =>
    mkServer (config_ProcessArgs s) (config_Debugger s) (config_DisconnectChan s)
      x (disconnectChan s) (conn s) (debugger s) (binaryToRemove s)
      (stackFrameHandles s) (variableHandles s) (args s) (trace s)
  | DisconnectChan =>
    mkServer (config_ProcessArgs s) (config_Debugger s) (config_DisconnectChan s)
      (stopChan s) x (conn s) (debugger s) (binaryToRemove s)
      (stackFrameHandles s) (variableHandles s) (args s) (trace s)
  end.

Definition chan (c : chanName) (s : Server) : chanState :=
  match c with StopChan => stopChan s | DisconnectChan => disconnectChan s end.

Definition set_conn (x : bool) (s : Server) : Server :=
  mkServer (config_ProcessArgs s) (config_Debugger s) (config_DisconnectChan s)
    (stopChan s) (disconnectChan s) x (debugger s) (binaryToRemove s)
    (stackFrameHandles s) (variableHandles s) (args s) (trace s).

Definition set_debugger (x : option Debugger) (s : Server) : Server :=
  mkServer (config_ProcessArgs s) (config_Debugger s) (config_DisconnectChan s)
    (stopChan s) (disconnectChan s) (conn s) x (binaryToRemove s)
    (stackFrameHandles s) (variableHandles s) (args s) (trace s).

Definition set_binaryToRemove (x : string) (s : Server) : Server :=
  mkServer (config_ProcessArgs s) (config_Debugger s) (config_DisconnectChan s)
    (stopChan s) (disconnectChan s) (conn s) (debugger s) x
    (stackFrameHandles s) (variableHandles s) (args s) (trace s).

Definition set_stackFrameHandles (x : handles.handlesMap stackFrame)
    (s : Server) : Server :=
  mkServer (config_ProcessArgs s) (config_Debugger s) (config_DisconnectChan s)
    (stopChan s) (disconnectChan s) (conn s) (debugger s) (binaryToRemove s)
    x (variableHandles s) (args s) (trace s).

Definition set_variableHandles
    (x : handles.handlesMap (proc.Variable_ constantValue)) (s : Server) : Server :=
  mkServer (config_ProcessArgs s) (config_Debugger s) (config_DisconnectChan s)
    (stopChan s) (disconnectChan s) (conn s) (debugger s) (binaryToRemove s)
    (stackFrameHandles s) x (args s) (trace s).

Definition set_args (x : launchAttachArgs) (s : Server) : Server :=
  mkServer (config_ProcessArgs s) (config_Debugger s) (config_DisconnectChan s)
    (stopChan s) (disconnectChan s) (conn s) (debugger s) (binaryToRemove s)
    (stackFrameHandles s) (variableHandles s) x (trace s).

Definition set_trace (x : list Effect) (s : Server) : Server :=
  mkServer (config_ProcessArgs s) (config_Debugger s) (config_DisconnectChan s)
    (stopChan s) (disconnectChan s) (conn s) (debugger s) (binaryToRemove s)
    (stackFrameHandles s) (variableHandles s) (args s) x.

(** NewServer: the server before a client connects.  The caller provides
    the config with an open disconnect channel. *)
Definition NewServer (processArgs : list string) (cfg : DebuggerConfig) : Server :=
  {| config_ProcessArgs := processArgs;
     config_Debugger := cfg;
     config_DisconnectChan := Some DisconnectChan;
     stopChan := ChanOpen;
     disconnectChan := ChanOpen;
     conn := false;
     debugger := None;
     binaryToRemove := "";
     stackFrameHandles := handles.newHandlesMap;
     variableHandles := handles.newHandlesMap;
     args := defaultArgs;
     trace := [] |}.

(** ** The monad of the handlers *)

Definition M (A : Type) : Type := Server → Res A * Server.

#[global] Instance M_ret : MRet M := λ A a s, (Ok a, s).

#[global] Instance M_bind : MBind M := λ A B f m s,
  match m s with
  | (Ok a, s') => f a s'
  | (Panic v, s') => (Panic v, s')
  end.

Definition gets {A} (f : Server → A) : M A := λ s, (Ok (f s), s).
Definition modify (f : Server → Server) : M unit := λ s, (Ok (), f s).
Definition panic {A} (v : string) : M A := λ s, (Panic v, s).
Definition emit (e : Effect) : M unit :=
  modify (λ s, set_trace (trace s ++ [e]) s).
Definition skip : M unit := mret ().
Definition when (b : bool) (m : M unit) : M unit := if b then m else skip.

(** The server a computation leaves, and the messages a server has sent. *)
Definition exec {A} (m : M A) (s : Server) : Server := (m s).2.

Definition sent_of (e : Effect) : option dap.Message :=
  match e with Send m => Some m | _ => None end.

Definition sent (s : Server) : list dap.Message := omap sent_of (trace s).

Definition nilDereference : string :=
  "runtime error: invalid memory address or nil pointer dereference".

(** close(c): closing a closed channel panics. *)
Definition close (c : chanName) : M unit :=
  st ← gets (chan c);
  match st with
  | ChanClosed => panic "close of closed channel"
  | ChanOpen => modify (set_chan c ChanClosed);; emit (CloseChan c)
  end.

(** A call on s.debugger: a nil debugger panics, otherwise the call is
    recorded and the debugger replaced by the one after the call. *)
Definition onDebugger {A} (c : DebuggerCall) (f : Debugger → A * Debugger) : M A :=
  d ← gets debugger;
  match d with
  | None => panic nilDereference
  | Some d =>
    emit (OnDebugger c);;
    modify (set_debugger (Some (f d).2));;
    mret (f d).1
  end.

(** ** Sending *)

Definition send (message : dap.Message) : M unit := emit (Send message).

Definition newResponse (request : dap.Request) : dap.Response :=
  {| dap.resp_Seq := 0;
     dap.resp_Type := "response";
     dap.resp_Command := dap.req_Command request;
     dap.RequestSeq := dap.req_Seq request;
     dap.Success := true;
     dap.resp_Message := "" |}.

Definition newEvent (event : string) : dap.Event :=
  {| dap.ev_Seq := 0; dap.ev_Type := "event"; dap.ev_Event := event |}.

(** The dap.ErrorResponse that sendErrorResponse fills in. *)
Definition errorResponse (request : dap.Request) (id : ErrorId)
    (summary details : string) : dap.Message :=
  dap.ErrorResponse
    {| dap.resp_Seq := 0;
       dap.resp_Type := "response";
       dap.resp_Command := dap.req_Command request;
       dap.RequestSeq := dap.req_Seq request;
       dap.Success := false;
       dap.resp_Message := summary |}
    id (summary +:+ ": " +:+ details).

Definition sendErrorResponse (request : dap.Request) (id : ErrorId)
    (summary details : string) : M unit :=
  send (errorResponse request id summary details).

(** The dap.ErrorResponse that sendInternalErrorResponse fills in: it
    only takes a seq and leaves the command empty. *)
Definition internalErrorResponse (seq : Z) (details : string) : dap.Message :=
  dap.ErrorResponse
    {| dap.resp_Seq := 0;
       dap.resp_Type := "response";
       dap.resp_Command := "";
       dap.RequestSeq := seq;
       dap.Success := false;
       dap.resp_Message := "Internal Error" |}
    InternalError ("Internal Error" +:+ ": " +:+ details).

Definition sendInternalErrorResponse (seq : Z) (details : string) : M unit :=
  send (internalErrorResponse seq details).

Definition sendUnsupportedErrorResponse (request : dap.Request) : M unit :=
  sendErrorResponse request UnsupportedCommand "Unsupported command"
    ("cannot process '" +:+ dap.req_Command request +:+ "' request").

Definition sendNotYetImplementedErrorResponse (request : dap.Request) : M unit :=
  sendErrorResponse request NotYetImplemented "Not yet implemented"
    ("cannot process '" +:+ dap.req_Command request +:+ "' request").

(** ** Variables *)

(** s.variableHandles.create(v) and s.stackFrameHandles.create(f). *)
Definition createVariableHandle (v : proc.Variable_ constantValue) : M Z :=
  λ s, let r := handles.create v (variableHandles s) in
       (Ok r.1, set_variableHandles r.2 s).

Definition createStackFrameHandle (f : stackFrame) : M Z :=
  λ s, let r := handles.create f (stackFrameHandles s) in
       (Ok r.1, set_stackFrameHandles r.2 s).

(** The zero value of proc.Variable, and the two children convertVariable
    gives to a complex number. *)
Definition zeroVariable : proc.Variable_ constantValue :=
  proc.mkVariable 0 "" None reflect.Invalid constant_nil 0 0 0 None [].

Definition complexChild (name : string) (value : constantValue)
    (kind : reflect.Kind) : proc.Variable_ constantValue :=
  proc.mkVariable 0 name None kind value 0 0 0 None [].

Definition withChildren (v : proc.Variable_ constantValue)
    (children : list (proc.Variable_ constantValue)) : proc.Variable_ constantValue :=
  proc.mkVariable (proc.Addr v) (proc.Name v) (proc.DwarfType v) (proc.Kind v)
    (proc.Value v) (proc.Len v) (proc.Cap v) (proc.Base v) (proc.Unreadable v)
    children.

Definition withName (v : proc.Variable_ constantValue) (name : string)
  : proc.Variable_ constantValue :=
  proc.mkVariable (proc.Addr v) name (proc.DwarfType v) (proc.Kind v)
    (proc.Value v) (proc.Len v) (proc.Cap v) (proc.Base v) (proc.Unreadable v)
    (proc.Children v).

(** The default case of convertVariable: struct, complex, scalar. *)
Definition convertDefault (v : proc.Variable_ constantValue) (typeName : string)
  : M (string * Z) :=
  let vvalue := VariableValueAsString v in
  let value := if bool_decide (vvalue ≠ "") then vvalue
               else "<" +:+ typeName +:+ ">" in
  match proc.Children v with
  | [] => mret (value, 0)
  | _ :: _ => ref ← createVariableHandle v; mret (value, ref)
  end.

(** convertVariable converts a proc.Variable to a dap.Variable value and
    reference.  The registry stores the variable as it is when the handle
    is created: the only write of server.go to a registered variable is the
    synthesis of the children of a complex number, which happens before the
    handle is created and gives the same children every time. *)
Definition convertVariable (v : proc.Variable_ constantValue) : M (string * Z) :=
  match proc.Unreadable v with
  | Some err => mret ("unreadable <" +:+ err +:+ ">", 0)
  | None =>
    let typeName := PrettyTypeName (proc.DwarfType v) in
    match proc.Kind v with
    | reflect.UnsafePointer =>
      match proc.Children v with
      | [] => mret ("unsafe.Pointer(nil)", 0)
      | c0 :: _ => mret ("unsafe.Pointer(" +:+ fmt_x (proc.Addr c0) +:+ ")", 0)
      end
    | reflect.Ptr =>
      match proc.DwarfType v, proc.Children v with
      | None, _ | _, [] => mret ("nil", 0)
      | Some _, c0 :: _ =>
        if bool_decide (proc.Addr c0 = 0) then
          mret ("nil <" +:+ typeName +:+ ">", 0)
        else if bool_decide (proc.Kind c0 = reflect.Invalid) then
          mret ("void", 0)
        else
          ref ← createVariableHandle v;
          mret ("<" +:+ typeName +:+ ">(" +:+ fmt_x (proc.Addr c0) +:+ ")", ref)
      end
    | reflect.Array =>
      let value := "<" +:+ typeName +:+ ">" in
      match proc.Children v with
      | [] => mret (value, 0)
      | _ :: _ => ref ← createVariableHandle v; mret (value, ref)
      end
    | reflect.Slice =>
      if bool_decide (proc.Base v = 0) then
        mret ("nil <" +:+ typeName +:+ ">", 0)
      else
        let value := "<" +:+ typeName +:+ "> (length: " +:+ fmt_d (proc.Len v)
                     +:+ ", cap: " +:+ fmt_d (proc.Cap v) +:+ ")" in
        match proc.Children v with
        | [] => mret (value, 0)
        | _ :: _ => ref ← createVariableHandle v; mret (value, ref)
        end
    | reflect.Map =>
      if bool_decide (proc.Base v = 0) then
        mret ("nil <" +:+ typeName +:+ ">", 0)
      else
        let value := "<" +:+ typeName +:+ "> (length: " +:+ fmt_d (proc.Len v)
                     +:+ ")" in
        match proc.Children v with
        | [] => mret (value, 0)
        | _ :: _ => ref ← createVariableHandle v; mret (value, ref)
        end
    | reflect.String =>
      let vvalue := constant_StringVal (proc.Value v) in
      let lenNotLoaded := proc.Len v - Z.of_nat (String.length vvalue) in
      let vvalue := if bool_decide (lenNotLoaded > 0)
                    then vvalue +:+ "...+" +:+ fmt_d lenNotLoaded +:+ " more"
                    else vvalue in
      mret (strconv_Quote vvalue, 0)
    | reflect.Chan =>
      match proc.Children v with
      | [] => mret ("nil <" +:+ typeName +:+ ">", 0)
      | _ :: _ =>
        ref ← createVariableHandle v; mret ("<" +:+ typeName +:+ ">", ref)
      end
    | reflect.Interface =>
      if bool_decide (proc.Addr v = 0) then mret ("nil", 0)
      else match proc.Children v with
           | [] => mret ("nil <" +:+ typeName +:+ ">", 0)
           | c0 :: _ =>
             if bool_decide (proc.Kind c0 = reflect.Invalid)
                && bool_decide (proc.Addr c0 = 0)
             then mret ("nil <" +:+ typeName +:+ ">", 0)
             else
               ref ← createVariableHandle v;
               mret ("<" +:+ typeName +:+ "(" +:+ TypeString c0 +:+ ")" +:+ ">", ref)
           end
    | reflect.Complex64 =>
      convertDefault
        (withChildren v
           [complexChild "real" (constant_Real (proc.Value v)) reflect.Float32;
            complexChild "imaginary" (constant_Imag (proc.Value v)) reflect.Float32])
        typeName
    | reflect.Complex128 =>
      convertDefault
        (withChildren v
           [complexChild "real" (constant_Real (proc.Value v)) reflect.Float64;
            complexChild "imaginary" (constant_Imag (proc.Value v)) reflect.Float64])
        typeName
    | _ => convertDefault v typeName
    end
  end.

(** The loop of onVariablesRequest over the children of a map: even
    indices are keys, odd indices are values; [children] is the slice
    built so far and [len] the length of v.Children (for the panic of
    v.Children[i+1] on an odd number of children). *)
Fixpoint mapChildren (len : Z) (kvIndex : Z)
    (cs : list (proc.Variable_ constantValue))
    (children : list dap.Variable_) : M (list dap.Variable_) :=
  match cs with
  | [] => mret children
  | k :: rest =>
    '(key, keyref) ← convertVariable k;
    match rest with
    | [] => panic ("runtime error: index out of range [" +:+ fmt_d len
                   +:+ "] with length " +:+ fmt_d len)
    | c :: rest' =>
      '(val, valref) ← convertVariable c;
      if bool_decide (keyref > 0) && bool_decide (valref > 0) then
        mapChildren len (kvIndex + 1) rest'
          (children ++
             [dap.mkVariable ("[key " +:+ fmt_d kvIndex +:+ "]") key keyref;
              dap.mkVariable ("[val " +:+ fmt_d kvIndex +:+ "]") val valref])
      else
        let kvvar :=
          if bool_decide (keyref ≠ 0) then
            dap.mkVariable (key +:+ "[" +:+ fmt_d kvIndex +:+ "]") val keyref
          else if bool_decide (valref ≠ 0) then
            dap.mkVariable key val valref
          else dap.mkVariable key val 0 in
        mapChildren len (kvIndex + 1) rest' (children ++ [kvvar])
    end
  end.

(** The loops over the children of a slice or array ([indexed]) and of
    any other variable (children keep their name). *)
Fixpoint listChildren (indexed : bool) (i : Z)
    (cs : list (proc.Variable_ constantValue)) : M (list dap.Variable_) :=
  match cs with
  | [] => mret []
  | c :: rest =>
    '(value, varref) ← convertVariable c;
    tl ← listChildren indexed (i + 1) rest;
    mret (dap.mkVariable
            (if indexed then "[" +:+ fmt_d i +:+ "]" else proc.Name c)
            value varref :: tl)
  end.

Definition getVariableHandle (handle : Z)
  : M (option (proc.Variable_ constantValue)) :=
  gets (λ s, handles.get handle (variableHandles s)).

(** onVariablesRequest handles 'variables' requests. *)
Definition onVariablesRequest (request : dap.Request) (VariablesReference : Z)
  : M unit :=
  ov ← getVariableHandle VariablesReference;
  match ov with
  | None =>
    sendErrorResponse request UnableToLookupVariable "Unable to lookup variable"
      ("unknown reference " +:+ fmt_d VariablesReference)
  | Some v =>
    children ←
      match proc.Kind v with
      | reflect.Map =>
        mapChildren (Z.of_nat (length (proc.Children v))) 0 (proc.Children v) []
      | reflect.Slice | reflect.Array => listChildren true 0 (proc.Children v)
      | _ => listChildren false 0 (proc.Children v)
      end;
    send (dap.VariablesResponse (newResponse request) children)
  end.

(** ** Launch *)

(** Output path for the compiled binary in debug or test modes. *)
Definition debugBinary : string := "./__debug_bin".

(** The type assertions [x.(string)] and [x.(bool)] and [x.(float64)] on
    the value of a map lookup; a missing key gives the nil interface, on
    which every assertion fails. *)
Definition assertString (x : option (jsonValue float64)) : option string :=
  match x with Some (jstring s) => Some s | _ => None end.

Definition assertBool (x : option (jsonValue float64)) : option bool :=
  match x with Some (jbool b) => Some b | _ => None end.

Definition assertFloat64 (x : option (jsonValue float64)) : option float64 :=
  match x with Some (jfloat64 f) => Some f | _ => None end.

(** [x == str] for an interface value x and a string constant. *)
Definition ifaceEqString (x : jsonValue float64) (str : string) : bool :=
  match x with jstring s => bool_decide (s = str) | _ => false end.

(** The loop over the elements of 'args': the strings, or the first
    element that is not a string. *)
Fixpoint parseArgs (argsParsed : list (jsonValue float64))
  : list string + jsonValue float64 :=
  match argsParsed with
  | [] => inl []
  | jstring argParsed :: rest =>
    match parseArgs rest with
    | inl targetArgs => inl (argParsed :: targetArgs)
    | inr arg => inr arg
    end
  | arg :: _ => inr arg
  end.

(** onLaunchRequest from "If user-specified, overwrite the defaults for
    optional args" to the end, for the program to run. *)
Definition launchProgram (request : dap.Request)
    (Arguments : gmap string (jsonValue float64)) (program : string) : M unit :=
  match assertBool (Arguments !! "stopOnEntry") with
  | Some stop =>
    modify (λ s, set_args (mkLaunchAttachArgs stop (stackTraceDepth (args s))
                             (showGlobalVariables (args s))) s)
  | None => skip
  end;;
  match assertFloat64 (Arguments !! "stackTraceDepth") with
  | Some depth =>
    if float64_positive depth then
      modify (λ s, set_args (mkLaunchAttachArgs (stopOnEntry (args s))
                               (float64_int depth)
                               (showGlobalVariables (args s))) s)
    else skip
  | None => skip
  end;;
  match assertBool (Arguments !! "showGlobalVariables") with
  | Some globals =>
    modify (λ s, set_args (mkLaunchAttachArgs (stopOnEntry (args s))
                             (stackTraceDepth (args s)) globals) s)
  | None => skip
  end;;
  let parsed :=
    match Arguments !! "args" with
    | None => inl []
    | Some (jslice argsParsed) =>
      match parseArgs argsParsed with
      | inl targetArgs => inl targetArgs
      | inr arg =>
        inr ("value '" +:+ fmt_v arg
             +:+ "' in 'args' attribute in debug configuration is not a string.")
      end
    | Some args =>
      inr ("'args' attribute '" +:+ fmt_v args
           +:+ "' in debug configuration is not an array.")
    end in
  match parsed with
  | inr details =>
    sendErrorResponse request FailedToLaunch "Failed to launch" details
  | inl targetArgs =>
    modify (set_config_ProcessArgs (program :: targetArgs));;
    modify (λ s, set_config_Debugger
                   (mkDebuggerConfig (filepath_Dir program)
                                     (AttachPid (config_Debugger s))) s);;
    cfg ← gets config_Debugger;
    processArgs ← gets config_ProcessArgs;
    emit (NewDebugger cfg processArgs);;
    match debugger_New cfg processArgs with
    | inr err =>
      modify (set_debugger None);;
      sendErrorResponse request FailedToLaunch "Failed to launch" (Error err)
    | inl d =>
      modify (set_debugger (Some d));;
      send (dap.InitializedEvent (newEvent "initialized"));;
      send (dap.LaunchResponse (newResponse request))
    end
  end.

(** The mode of a launch: "debug" when the key is absent or empty. *)
Definition launchMode (Arguments : gmap string (jsonValue float64))
  : jsonValue float64 :=
  match Arguments !! "mode" with
  | None => jstring "debug"
  | Some mode => if ifaceEqString mode "" then jstring "debug" else mode
  end.

(** The output path of the build: debugBinary when the key is absent, not
    a string or empty. *)
Definition launchOutput (Arguments : gmap string (jsonValue float64)) : string :=
  match assertString (Arguments !! "output") with
  | None | Some "" => debugBinary
  | Some output => output
  end.

Definition onLaunchRequest (request : dap.Request)
    (Arguments : gmap string (jsonValue float64)) : M unit :=
  match assertString (Arguments !! "program") with
  | None | Some "" =>
    sendErrorResponse request FailedToLaunch "Failed to launch"
      "The program attribute is missing in debug configuration."
  | Some program =>
    let mode := launchMode Arguments in
    if ifaceEqString mode "debug" || ifaceEqString mode "test" then
      match filepath_Abs (launchOutput Arguments) with
      | inr err => sendInternalErrorResponse (dap.req_Seq request) (Error err)
      | inl debugname =>
        let buildFlags :=
          match Arguments !! "buildFlags" with
          | None => inl ""
          | Some (jstring buildFlags) => inl buildFlags
          | Some buildFlagsArg => inr buildFlagsArg
          end in
        match buildFlags with
        | inr buildFlagsArg =>
          sendErrorResponse request FailedToLaunch "Failed to launch"
            ("'buildFlags' attribute '" +:+ fmt_v buildFlagsArg
             +:+ "' in debug configuration is not a string.")
        | inl buildFlags =>
          let test := ifaceEqString mode "test" in
          emit (Build test debugname [program] buildFlags);;
          match (if test then GoTestBuild else GoBuild)
                  debugname [program] buildFlags with
          | Some err =>
            sendErrorResponse request FailedToLaunch "Failed to launch"
              ("Build error: " +:+ Error err)
          | None =>
            modify (set_binaryToRemove debugname);;
            launchProgram request Arguments debugname
          end
        end
      end
    else if negb (ifaceEqString mode "exec") then
      sendErrorResponse request FailedToLaunch "Failed to launch"
        ("Unsupported 'mode' value " +:+ fmt_q mode
         +:+ " in debug configuration.")
    else launchProgram request Arguments program
  end.

(** ** Running the debuggee *)

Definition BetterBadAccessError : string :=
  "invalid memory address or nil pointer dereference [signal SIGSEGV: segmentation violation]
Unable to propogate EXC_BAD_ACCESS signal to target process and panic (see https://github.com/go-delve/delve/issues/852)".

(** The test of doCommand for the end of the process:
    [isexited || err == nil && state.Exited]. *)
Definition processExited (r : api.DebuggerState + error) : bool :=
  match r with
  | inr err => bool_decide (errType err = ErrProcessExited)
  | inl state => api.Exited state
  end.

Definition resetHandles : M unit :=
  modify (λ s, set_stackFrameHandles (handles.reset (stackFrameHandles s)) s);;
  emit (ResetHandles StackFrameHandles);;
  modify (λ s, set_variableHandles (handles.reset (variableHandles s)) s);;
  emit (ResetHandles VariableHandles).

Definition stoppedEvent (reason : string) (threadId : Z) (text : string)
  : dap.Message :=
  dap.StoppedEvent (newEvent "stopped")
    (dap.mkStoppedEventBody reason threadId text true).

(** doCommand runs a debugger command until it stops on termination,
    error, breakpoint, etc, when an appropriate event needs to be sent to
    the client. *)
Definition doCommand (command : string) : M unit :=
  d ← gets debugger;
  match d with
  | None => skip
  | Some _ =>
    r ← onDebugger (CallCommand command) (λ d, debugger_Command d command);
    if processExited r then
      send (dap.TerminatedEvent (newEvent "terminated"))
    else
      resetHandles;;
      match r with
      | inl state =>
        match api.SelectedGoroutine state with
        | None => panic nilDereference
        | Some g =>
          send (stoppedEvent
                  (if bool_decide (command = api.Next)
                      || bool_decide (command = api.Step)
                      || bool_decide (command = api.StepOut)
                   then "step" else "breakpoint")
                  (api.ID g) "")
        end
      | inr err =>
        let text := if bool_decide (Error err = "bad access")
                    then BetterBadAccessError else Error err in
        r' ← onDebugger (CallState true) (λ d, debugger_State d true);
        threadId ←
          match r' with
          | inl state =>
            match api.CurrentThread state with
            | None => panic nilDereference
            | Some t => mret (api.GoroutineID t)
            end
          | inr _ => mret 0
          end;
        send (stoppedEvent "runtime error" threadId text);;
        send (dap.OutputEvent (newEvent "output")
                ("ERROR: " +:+ text +:+ "
") "stderr")
      end
  end.

Definition onConfigurationDoneRequest (request : dap.Request) : M unit :=
  stop ← gets (λ s, stopOnEntry (args s));
  when stop (send (stoppedEvent "entry" 1 ""));;
  send (dap.ConfigurationDoneResponse (newResponse request));;
  stop ← gets (λ s, stopOnEntry (args s));
  when (negb stop) (doCommand api.Continue).

Definition onContinueRequest (request : dap.Request) : M unit :=
  send (dap.ContinueResponse (newResponse request) true);;
  doCommand api.Continue.

(** onNextRequest handles 'next' request. *)
Definition onNextRequest (request : dap.Request) : M unit :=
  send (dap.NextResponse (newResponse request));;
  doCommand api.Next.

(** onStepInRequest handles 'stepIn' request. *)
Definition onStepInRequest (request : dap.Request) : M unit :=
  send (dap.StepInResponse (newResponse request));;
  doCommand api.Step.

(** onStepOutRequest handles 'stepOut' request. *)
Definition onStepOutRequest (request : dap.Request) : M unit :=
  send (dap.StepOutResponse (newResponse request));;
  doCommand api.StepOut.

(** ** Initialize, breakpoints, threads *)

Definition onInitializeRequest (request : dap.Request) : M unit :=
  send (dap.InitializeResponse (newResponse request)
          {| dap.SupportsConfigurationDoneRequest := true;
             dap.SupportsConditionalBreakpoints := true;
             dap.SupportsSetVariable := false;
             dap.SupportsTerminateRequest := false;
             dap.SupportsRestartRequest := false;
             dap.SupportsFunctionBreakpoints := false;
             dap.SupportsStepBack := false;
             dap.SupportsSetExpression := false;
             dap.SupportsLoadedSourcesRequest := false;
             dap.SupportsReadMemoryRequest := false;
             dap.SupportsDisassembleRequest := false;
             dap.SupportsCancelRequest := false |}).

(** The first loop of onSetBreakpointsRequest: clear the breakpoints of
    the file; the result is the error of the first clear that fails. *)
Fixpoint clearBreakpoints (path : string) (existing : list api.Breakpoint)
  : M (option error) :=
  match existing with
  | [] => mret None
  | bp :: rest =>
    if bool_decide (api.bp_ID bp < 0) then clearBreakpoints path rest
    else if bool_decide (api.bp_File bp ≠ path) then clearBreakpoints path rest
    else
      r ← onDebugger (CallClearBreakpoint bp) (λ d, debugger_ClearBreakpoint d bp);
      match r with
      | inr err => mret (Some err)
      | inl _ => clearBreakpoints path rest
      end
  end.

(** The second loop: set the requested breakpoints. *)
Fixpoint createBreakpoints (path : string) (wanted : list dap.SourceBreakpoint)
  : M (list dap.Breakpoint) :=
  match wanted with
  | [] => mret []
  | want :: rest =>
    let bp := api.mkBreakpoint 0 path (dap.sb_Line want) (dap.sb_Condition want) in
    r ← onDebugger (CallCreateBreakpoint bp) (λ d, debugger_CreateBreakpoint d bp);
    tl ← createBreakpoints path rest;
    mret (match r with
          | inr err => dap.mkBreakpoint false (Error err) (dap.sb_Line want)
          | inl got => dap.mkBreakpoint true "" (api.bp_Line got)
          end :: tl)
  end.

Definition onSetBreakpointsRequest (request : dap.Request)
    (Arguments : SetBreakpointsArguments) : M unit :=
  if bool_decide (sba_SourcePath Arguments = "") then
    sendErrorResponse request UnableToSetBreakpoints
      "Unable to set or clear breakpoints" "empty file path"
  else
    existing ← onDebugger CallBreakpoints debugger_Breakpoints;
    cleared ← clearBreakpoints (sba_SourcePath Arguments) existing;
    match cleared with
    | Some err =>
      sendErrorResponse request UnableToSetBreakpoints
        "Unable to set or clear breakpoints" (Error err)
    | None =>
      bps ← createBreakpoints (sba_SourcePath Arguments) (sba_Breakpoints Arguments);
      send (dap.SetBreakpointsResponse (newResponse request) bps)
    end.

Definition onSetExceptionBreakpointsRequest (request : dap.Request) : M unit :=
  send (dap.SetExceptionBreakpointsResponse (newResponse request)).

(** The name of a goroutine or of a location without a function. *)
Definition threadName (loc : proc.Location) : string :=
  match proc.loc_Fn loc with
  | Some fn => proc.fn_Name fn
  | None => proc.loc_File loc +:+ "@" +:+ fmt_d (proc.loc_Line loc)
  end.

Definition onThreadsRequest (request : dap.Request) : M unit :=
  d ← gets debugger;
  match d with
  | None =>
    sendErrorResponse request UnableToDisplayThreads "Unable to display threads"
      "debugger is nil"
  | Some _ =>
    r ← onDebugger CallGoroutines (λ d, debugger_Goroutines d 0 0);
    match r with
    | inr err =>
      if bool_decide (errType err = PtrErrProcessExited) then
        send (dap.ThreadsResponse (newResponse request) [])
      else
        sendErrorResponse request UnableToDisplayThreads
          "Unable to display threads" (Error err)
    | inl [] =>
      send (dap.ThreadsResponse (newResponse request) [dap.mkThread 1 "Dummy"])
    | inl gs =>
      send (dap.ThreadsResponse (newResponse request)
              ((λ g, dap.mkThread (proc.g_ID g) (threadName (proc.UserCurrent g)))
                 <$> gs))
    end
  end.

(** ** Stack traces and scopes *)

(** The loop of onStackTraceRequest: one handle and one dap.StackFrame per
    frame. *)
Fixpoint stackFramesLoop (goroutineID : Z) (i : Z) (frames : list proc.Stackframe)
  : M (list dap.StackFrame) :=
  match frames with
  | [] => mret []
  | frame :: rest =>
    let loc := proc.Call frame in
    uniqueStackFrameID ← createStackFrameHandle (mkStackFrameRef goroutineID i);
    tl ← stackFramesLoop goroutineID (i + 1) rest;
    mret (dap.mkStackFrame uniqueStackFrameID
            (match proc.loc_Fn loc with
             | None => "???"
             | Some fn => proc.fn_Name fn
             end)
            (if bool_decide (proc.loc_File loc ≠ "<autogenerated>")
             then dap.mkSource (filepath_Base (proc.loc_File loc)) (proc.loc_File loc)
             else dap.noSource)
            (proc.loc_Line loc) 0 :: tl)
  end.

(** The two slice expressions of the pagination. *)
Definition paginate {A} (StartFrame Levels : Z) (stackFrames : list A) : list A :=
  let stackFrames :=
    if bool_decide (StartFrame > 0)
    then drop (Z.to_nat (min StartFrame (Z.of_nat (length stackFrames)))) stackFrames
    else stackFrames in
  if bool_decide (Levels > 0)
  then take (Z.to_nat (min Levels (Z.of_nat (length stackFrames)))) stackFrames
  else stackFrames.

(** onStackTraceRequest handles 'stackTrace' requests. *)
Definition onStackTraceRequest (request : dap.Request)
    (Arguments : StackTraceArguments) : M unit :=
  let goroutineID := st_ThreadId Arguments in
  depth ← gets (λ s, stackTraceDepth (args s));
  r ← onDebugger (CallStacktrace goroutineID depth 0)
        (λ d, debugger_Stacktrace d goroutineID depth 0);
  match r with
  | inr err =>
    sendErrorResponse request UnableToProduceStackTrace
      "Unable to produce stack trace" (Error err)
  | inl frames =>
    stackFrames ← stackFramesLoop goroutineID 0 frames;
    send (dap.StackTraceResponse (newResponse request)
            (paginate (StartFrame Arguments) (Levels Arguments) stackFrames)
            (Z.of_nat (length frames)))
  end.

Definition scopeVariable (name : string)
    (children : list (proc.Variable_ constantValue)) : proc.Variable_ constantValue :=
  proc.mkVariable 0 name None reflect.Invalid constant_nil 0 0 0 None children.

(** onScopesRequest from the list of the two scopes on: the globals when
    they are shown, and the response. *)
Definition scopesResponse (request : dap.Request) (cfg : LoadConfig)
    (scopes : list dap.Scope) : M unit :=
  showGlobals ← gets (λ s, showGlobalVariables (args s));
  match showGlobals with
  | false => send (dap.ScopesResponse (newResponse request) scopes)
  | true =>
    p ← onDebugger CallCurrentPackage debugger_CurrentPackage;
    match p with
    | inr err =>
      sendErrorResponse request UnableToListGlobals "Unable to list globals"
        (Error err)
    | inl currPkg =>
      let currPkgFilter := "^" +:+ currPkg +:+ "\." in
      g ← onDebugger (CallPackageVariables currPkgFilter)
            (λ d, debugger_PackageVariables d currPkgFilter cfg);
      match g with
      | inr err =>
        sendErrorResponse request UnableToListGlobals "Unable to list globals"
          (Error err)
      | inl globals =>
        let globals :=
          (λ g, withName g (strings_TrimPrefix (proc.Name g) (currPkg +:+ ".")))
            <$> globals in
        let globScope :=
          scopeVariable ("Globals (package " +:+ currPkg +:+ ")") globals in
        ref ← createVariableHandle globScope;
        send (dap.ScopesResponse (newResponse request)
                (scopes ++ [dap.mkScope (proc.Name globScope) ref]))
      end
    end
  end.

(** onScopesRequest handles 'scopes' requests. *)
Definition onScopesRequest (request : dap.Request) (FrameId : Z) : M unit :=
  sf ← gets (λ s, handles.get FrameId (stackFrameHandles s));
  match sf with
  | None =>
    sendErrorResponse request UnableToListLocals "Unable to list locals"
      ("unknown frame id " +:+ fmt_d FrameId)
  | Some sf =>
    let goid := goroutineID sf in
    let frame := frameIndex sf in
    let cfg := mkLoadConfig true 1 64 64 (-1) in
    a ← onDebugger (CallFunctionArguments goid frame)
          (λ d, debugger_FunctionArguments d goid frame 0 cfg);
    match a with
    | inr err =>
      sendErrorResponse request UnableToListArgs "Unable to list args" (Error err)
    | inl args =>
      let argScope := scopeVariable "Arguments" args in
      l ← onDebugger (CallLocalVariables goid frame)
            (λ d, debugger_LocalVariables d goid frame 0 cfg);
      match l with
      | inr err =>
        sendErrorResponse request UnableToListLocals "Unable to list locals"
          (Error err)
      | inl locals =>
        let locScope := scopeVariable "Locals" locals in
        argRef ← createVariableHandle argScope;
        locRef ← createVariableHandle locScope;
        scopesResponse request cfg
          [dap.mkScope (proc.Name argScope) argRef;
           dap.mkScope (proc.Name locScope) locRef]
      end
    end
  end.

(** ** Teardown *)

(** signalDisconnect closes config.DisconnectChan if not nil.  The function
    safeguards against closing the channel more than once and can be
    called multiple times. *)
Definition signalDisconnect : M unit :=
  c ← gets config_DisconnectChan;
  match c with
  | Some c => close c;; modify (set_config_DisconnectChan None)
  | None => skip
  end;;
  binary ← gets binaryToRemove;
  when (bool_decide (binary ≠ "")) (emit (RemoveBinary binary)).

Definition detach : M unit :=
  d ← gets debugger;
  match d with
  | None => skip
  | Some _ =>
    kill ← gets (λ s, bool_decide (AttachPid (config_Debugger s) = 0));
    onDebugger (CallDetach kill) (λ d, debugger_Detach d kill);;
    skip
  end.

(** Stop stops the DAP debugger service, closes the listener and the
    client connection.  This method mustn't be called more than once. *)
Definition Stop : M unit :=
  emit CloseListener;;
  close StopChan;;
  c ← gets conn;
  when c (emit CloseConn);;
  detach.

(** onDisconnectRequest handles the DisconnectRequest. *)
Definition onDisconnectRequest (request : dap.Request) : M unit :=
  send (dap.DisconnectResponse (newResponse request));;
  d ← gets debugger;
  match d with
  | None => skip
  | Some _ =>
    onDebugger (CallCommand api.Halt) (λ d, debugger_Command d api.Halt);;
    detach
  end;;
  signalDisconnect.

(** ** Dispatch *)

Definition GetSeq (request : RequestMessage) : Z :=
  match request with
  | OtherMessage seq _ => seq
  | InitializeRequest r | LaunchRequest r _ | AttachRequest r
  | DisconnectRequest r | TerminateRequest r | RestartRequest r
  | SetBreakpointsRequest r _ | SetFunctionBreakpointsRequest r
  | SetExceptionBreakpointsRequest r | ConfigurationDoneRequest r
  | ContinueRequest r | NextRequest r | StepInRequest r | StepOutRequest r
  | StepBackRequest r | ReverseContinueRequest r | RestartFrameRequest r
  | GotoRequest r | PauseRequest r | StackTraceRequest r _ | ScopesRequest r _
  | VariablesRequest r _ | SetVariableRequest r | SetExpressionRequest r
  | SourceRequest r | ThreadsRequest r | TerminateThreadsRequest r
  | EvaluateRequest r | StepInTargetsRequest r | GotoTargetsRequest r
  | CompletionsRequest r | ExceptionInfoRequest r | LoadedSourcesRequest r
  | DataBreakpointInfoRequest r | SetDataBreakpointsRequest r
  | ReadMemoryRequest r | DisassembleRequest r | CancelRequest r
  | BreakpointLocationsRequest r | ModulesRequest r => dap.req_Seq r
  end.

(** The switch of handleRequest. *)
Definition dispatch (request : RequestMessage) : M unit :=
  match request with
  | InitializeRequest r => onInitializeRequest r
  | LaunchRequest r Arguments => onLaunchRequest r Arguments
  | AttachRequest r => sendNotYetImplementedErrorResponse r
  | DisconnectRequest r => onDisconnectRequest r
  | TerminateRequest r => sendNotYetImplementedErrorResponse r
  | RestartRequest r => sendNotYetImplementedErrorResponse r
  | SetBreakpointsRequest r Arguments => onSetBreakpointsRequest r Arguments
  | SetFunctionBreakpointsRequest r => sendNotYetImplementedErrorResponse r
  | SetExceptionBreakpointsRequest r => onSetExceptionBreakpointsRequest r
  | ConfigurationDoneRequest r => onConfigurationDoneRequest r
  | ContinueRequest r => onContinueRequest r
  | NextRequest r => onNextRequest r
  | StepInRequest r => onStepInRequest r
  | StepOutRequest r => onStepOutRequest r
  | StepBackRequest r => sendNotYetImplementedErrorResponse r
  | ReverseContinueRequest r => sendNotYetImplementedErrorResponse r
  | RestartFrameRequest r => sendUnsupportedErrorResponse r
  | GotoRequest r => sendUnsupportedErrorResponse r
  | PauseRequest r => sendNotYetImplementedErrorResponse r
  | StackTraceRequest r Arguments => onStackTraceRequest r Arguments
  | ScopesRequest r FrameId => onScopesRequest r FrameId
  | VariablesRequest r VariablesReference => onVariablesRequest r VariablesReference
  | SetVariableRequest r => sendNotYetImplementedErrorResponse r
  | SetExpressionRequest r => sendNotYetImplementedErrorResponse r
  | SourceRequest r => sendUnsupportedErrorResponse r
  | ThreadsRequest r => onThreadsRequest r
  | TerminateThreadsRequest r => sendUnsupportedErrorResponse r
  | EvaluateRequest r => sendNotYetImplementedErrorResponse r
  | StepInTargetsRequest r => sendUnsupportedErrorResponse r
  | GotoTargetsRequest r => sendUnsupportedErrorResponse r
  | CompletionsRequest r => sendUnsupportedErrorResponse r
  | ExceptionInfoRequest r => sendUnsupportedErrorResponse r
  | LoadedSourcesRequest r => sendNotYetImplementedErrorResponse r
  | DataBreakpointInfoRequest r => sendUnsupportedErrorResponse r
  | SetDataBreakpointsRequest r => sendUnsupportedErrorResponse r
  | ReadMemoryRequest r => sendNotYetImplementedErrorResponse r
  | DisassembleRequest r => sendNotYetImplementedErrorResponse r
  | CancelRequest r => sendNotYetImplementedErrorResponse r
  | BreakpointLocationsRequest r => sendUnsupportedErrorResponse r
  | ModulesRequest r => sendUnsupportedErrorResponse r
  | OtherMessage seq goSyntax =>
    sendInternalErrorResponse seq ("Unable to process " +:+ goSyntax +:+ "
")
  end.

(** handleRequest: in case a handler panics, the panic is caught and an
    error response sent back to the client. *)
Definition handleRequest (request : RequestMessage) : M unit := λ s,
  match dispatch request s with
  | (Panic ierr, s') => sendInternalErrorResponse (GetSeq request) ierr s'
  | r => r
  end.

(** serveDAPCodec on the requests read before the read that fails: it
    handles them in turn and signals the disconnect when it returns. *)
Fixpoint serveRequests (requests : list RequestMessage) : M unit :=
  match requests with
  | [] => skip
  | request :: rest => handleRequest request;; serveRequests rest
  end.

Definition serveDAPCodec (requests : list RequestMessage) : M unit :=
  serveRequests requests;; signalDisconnect.

(** The goroutine of Run: [accepted] is None when Accept fails, and the
    requests of the client otherwise. *)
Definition Run (accepted : option (list RequestMessage)) : M unit :=
  match accepted with
  | None => signalDisconnect
  | Some requests => modify (set_conn true);; serveDAPCodec requests
  end.

End Server.

(** ** A scripted debugger *)

(** An instance of the collaborators for closed examples: JSON numbers are
    integers, a constant is its text, and the debugger is the list of the
    results of the commands to come. *)
Definition quoteChar : string := String (Ascii.ascii_of_nat 34) EmptyString.

Definition scripted_fmt_v (x : jsonValue Z) : string :=
  match x with
  | jnil => "<nil>"
  | jbool b => if b then "true" else "false"
  | jfloat64 f => pretty f
  | jstring s => s
  | jslice _ => "[...]"
  | jmap _ => "map[...]"
  end.

Definition scripted_Command (d : list (api.DebuggerState + error)) (name : string)
  : (api.DebuggerState + error) * list (api.DebuggerState + error) :=
  match d with
  | r :: rest => (r, rest)
  | [] => (inl (api.mkDebuggerState true None None), [])
  end.

Definition scripted (newResult : list (api.DebuggerState + error) + error)
    (frames : list proc.Stackframe) : External :=
  {| float64 := Z;
     float64_positive := λ f, bool_decide (0 < f);
     float64_int := λ f, f;
     constantValue := string;
     constant_nil := "";
     constant_StringVal := λ v, v;
     constant_Real := λ v, v;
     constant_Imag := λ v, "0";
     fmt_v := scripted_fmt_v;
     fmt_q := λ x, quoteChar +:+ scripted_fmt_v x +:+ quoteChar;
     strconv_Quote := λ s, quoteChar +:+ s +:+ quoteChar;
     filepath_Abs := λ p, inl ("/work/" +:+ p);
     filepath_Dir := λ p, "/work";
     filepath_Base := λ p, strings_TrimPrefix p "/work/";
     PrettyTypeName := λ t, default "" t;
     VariableValueAsString := λ v, proc.Value v;
     TypeString := λ v, default "" (proc.DwarfType v);
     GoBuild := λ _ _ _, None;
     GoTestBuild := λ _ _ _, None;
     Debugger := list (api.DebuggerState + error);
     debugger_New := λ _ _, newResult;
     debugger_Command := scripted_Command;
     debugger_State := λ d _, (inr (mkError OtherError "no state"), d);
     debugger_Detach := λ d _, (None, d);
     debugger_Stacktrace := λ d _ _ _, (inl frames, d);
     debugger_FunctionArguments := λ d _ _ _ _, (inl [], d);
     debugger_LocalVariables := λ d _ _ _ _, (inl [], d);
     debugger_CurrentPackage := λ d, (inl "main", d);
     debugger_PackageVariables := λ d _ _, (inl [], d);
     debugger_Breakpoints := λ d, ([], d);
     debugger_ClearBreakpoint := λ d bp, (inl bp, d);
     debugger_CreateBreakpoint := λ d bp, (inl bp, d);
     debugger_Goroutines := λ d _ _, (inl [], d) |}.

(** ** Notions used in the statements *)

Section Notions.
Context `{Ext : External}.

(** The value convertVariable renders for a variable (the conversion
    never panics). *)
Definition rendered (v : proc.Variable_ constantValue) (s : Server) : string :=
  match convertVariable v s with
  | (Ok (value, _), _) => value
  | (Panic _, _) => ""
  end.

(** The reference convertVariable returns. *)
Definition reference (v : proc.Variable_ constantValue) (s : Server) : Z :=
  match convertVariable v s with
  | (Ok (_, ref), _) => ref
  | (Panic _, _) => 0
  end.

(** A nil-valued slice, map, channel or pointer, by the tests of
    convertVariable: base address zero for a slice or a map, no children
    for a channel; for a pointer no type or no children (untyped nil) or a
    first child at address zero (typed nil). *)
Definition nilValued (v : proc.Variable_ constantValue) : bool :=
  match proc.Kind v with
  | reflect.Slice | reflect.Map => bool_decide (proc.Base v = 0)
  | reflect.Chan => bool_decide (proc.Children v = [])
  | reflect.Ptr =>
    match proc.DwarfType v, proc.Children v with
    | None, _ | _, [] => true
    | Some _, c0 :: _ => bool_decide (proc.Addr c0 = 0)
    end
  | _ => false
  end.

Definition isComplex (k : reflect.Kind) : bool :=
  match k with
  | reflect.Complex64 | reflect.Complex128 => true
  | _ => false
  end.

(** Both registries only hold handles their counters have issued. *)
Definition wfHandles (s : Server) : Prop :=
  handles.wf (stackFrameHandles s) ∧ handles.wf (variableHandles s).

(** No handle of either registry resolves. *)
Definition noHandles (s : Server) : Prop :=
  (∀ h, handles.get h (stackFrameHandles s) = None) ∧
  (∀ h, handles.get h (variableHandles s) = None).

(** Every handle that resolves in [s] resolves to the same payload in [s']. *)
Definition keepsHandles (s s' : Server) : Prop :=
  (∀ h p, handles.get h (stackFrameHandles s) = Some p →
          handles.get h (stackFrameHandles s') = Some p) ∧
  (∀ h p, handles.get h (variableHandles s) = Some p →
          handles.get h (variableHandles s') = Some p).

(** The command a request passes to doCommand in server [s], if any. *)
Definition commandOf (request : RequestMessage) (s : Server) : option string :=
  match request with
  | ConfigurationDoneRequest _ =>
    if stopOnEntry (args s) then None else Some api.Continue
  | ContinueRequest _ => Some api.Continue
  | NextRequest _ => Some api.Next
  | StepInRequest _ => Some api.Step
  | StepOutRequest _ => Some api.StepOut
  | _ => None
  end.

(** The request runs a command on the debugger through doCommand and the
    command does not end in the exit of the process. *)
Definition runsToStop (request : RequestMessage) (s : Server) : bool :=
  match commandOf request s, debugger s with
  | Some command, Some d => negb (processExited (debugger_Command d command).1)
  | _, _ => false
  end.

(** None of the requests, handled in turn from [s], runs to a stop. *)
Fixpoint noStop (requests : list RequestMessage) (s : Server) : bool :=
  match requests with
  | [] => true
  | request :: rest =>
    negb (runsToStop request s) && noStop rest (exec (handleRequest request) s)
  end.

(** The teardown paths: Stop from the owner of the server, and from the
    serve flow signalDisconnect, the disconnect request that calls it, or
    serveDAPCodec, which handles the requests it reads and calls it when it
    returns. *)
Inductive Teardown :=
| TeardownStop
| TeardownSignalDisconnect
| TeardownDisconnectRequest (request : dap.Request)
| TeardownServe (requests : list RequestMessage).

Definition teardown (t : Teardown) : M unit :=
  match t with
  | TeardownStop => Stop
  | TeardownSignalDisconnect => signalDisconnect
  | TeardownDisconnectRequest request => onDisconnectRequest request
  | TeardownServe requests => serveDAPCodec requests
  end.

Fixpoint teardowns (ts : list Teardown) : M unit :=
  match ts with
  | [] => skip
  | t :: rest => teardown t;; teardowns rest
  end.

Definition isStop (t : Teardown) : bool :=
  match t with TeardownStop => true | _ => false end.

(** How often a channel was closed. *)
Definition isClose (c : chanName) (e : Effect) : bool :=
  match e with CloseChan c' => bool_decide (c' = c) | _ => false end.

Definition closes (c : chanName) (tr : list Effect) : nat :=
  length (filter (λ e, isClose c e = true) tr).

(** The disconnect channel can still be signalled: the config does not
    point to it any more, or it is open. *)
Definition disconnectReady (s : Server) : Prop :=
  config_DisconnectChan s = None ∨
  (config_DisconnectChan s = Some DisconnectChan ∧ disconnectChan s = ChanOpen).

(** The channels of a server on which Stop was not called. *)
Definition channelsReady (s : Server) : Prop :=
  stopChan s = ChanOpen ∧ disconnectReady s.

(** One when the config still points to the disconnect channel. *)
Definition pending (s : Server) : nat :=
  match config_DisconnectChan s with Some _ => 1%nat | None => 0%nat end.

(** How many of the teardown calls are calls of Stop. *)
Definition stops (ts : list Teardown) : nat :=
  length (filter (λ t, isStop t = true) ts).

(** A computation respects a relation on servers when the server it
    leaves is related to the server it starts from. *)
Definition respects {A} (R : relation Server) (m : M A) : Prop :=
  ∀ s, R s (m s).2.

(** [grows s s']: if the registries of [s] are well formed, so are those of
    [s'], and every handle of [s] resolves in [s'] to the same payload. *)
Definition grows (s s' : Server) : Prop :=
  wfHandles s → wfHandles s' ∧ keepsHandles s s'.

(** [settles s s']: from a server whose disconnect channel is ready, the
    channel stays ready, the stop channel is as it was, and the closes of
    the disconnect channel so far plus the one still pending are as many
    as before. *)
Definition settles (s s' : Server) : Prop :=
  disconnectReady s →
  disconnectReady s' ∧ stopChan s' = stopChan s ∧
  (closes DisconnectChan (trace s') + pending s' =
   closes DisconnectChan (trace s) + pending s)%nat.

(** The program argument of a launch is absent, empty, or not a string. *)
Definition programMissing (Arguments : gmap string (jsonValue float64)) : Prop :=
  Arguments !! "program" = None ∨
  Arguments !! "program" = Some (jstring "") ∨
  ∃ x, Arguments !! "program" = Some x ∧ ∀ program, x ≠ jstring program.

(** 'args' is present and is not an array of strings. *)
Definition argsIllTyped (Arguments : gmap string (jsonValue float64)) : Prop :=
  ∃ x, Arguments !! "args" = Some x ∧
       ∀ argsParsed, x = jslice argsParsed → ∃ arg, parseArgs argsParsed = inr arg.

(** One of the three keys that onLaunchRequest reads with a type assertion
    and an [if ok], and a value of the key that fails the assertion (the
    key is absent or of another type). *)
Definition lenientKey (key : string)
    (Arguments : gmap string (jsonValue float64)) : Prop :=
  (key = "stopOnEntry" ∧ assertBool (Arguments !! key) = None) ∨
  (key = "showGlobalVariables" ∧ assertBool (Arguments !! key) = None) ∨
  (key = "stackTraceDepth" ∧ assertFloat64 (Arguments !! key) = None).

(** The launch builds the program: the mode is "debug" or "test". *)
Definition buildMode (Arguments : gmap string (jsonValue float64)) : bool :=
  ifaceEqString (launchMode Arguments) "debug"
  || ifaceEqString (launchMode Arguments) "test".

(** What the loop of onStackTraceRequest makes of one frame. *)
Definition describes (frame : proc.Stackframe) (sf : dap.StackFrame) : Prop :=
  dap.sf_Name sf =
    match proc.loc_Fn (proc.Call frame) with
    | Some fn => proc.fn_Name fn
    | None => "???"
    end ∧
  dap.sf_Source sf =
    (if bool_decide (proc.loc_File (proc.Call frame) = "<autogenerated>")
     then dap.noSource
     else dap.mkSource (filepath_Base (proc.loc_File (proc.Call frame)))
                       (proc.loc_File (proc.Call frame))) ∧
  dap.sf_Line sf = proc.loc_Line (proc.Call frame) ∧
  dap.sf_Column sf = 0.

(** The entry of the variables response for a key and a value that are
    both scalars. *)
Definition scalarEntry (s : Server)
    (kv : proc.Variable_ constantValue * proc.Variable_ constantValue) : dap.Variable_ :=
  dap.mkVariable (rendered kv.1 s) (rendered kv.2 s) 0.

(** A step of launchProgram that only writes s.args. *)
Definition onlyArgs (m : M unit) : Prop :=
  ∀ s, ∃ s1, m s = (Ok (), s1) ∧ trace s1 = trace s ∧ debugger s1 = debugger s.

End Notions.

(** ** Closed examples *)

(** A debugger whose first command stops at a breakpoint on goroutine 1,
    and a stack of three frames: one in main.main, one without a resolved
    function, one at the location of compiler-generated code. *)
Definition stoppedState : api.DebuggerState :=
  api.mkDebuggerState false (Some (api.mkGoroutine 1)) (Some (api.mkThread 1)).

Definition demoFrames : list proc.Stackframe :=
  [proc.mkStackframe
     (proc.mkLocation "/work/main.go" 12 (Some (proc.mkFunction "main.main")));
   proc.mkStackframe (proc.mkLocation "/work/asm.s" 10 None);
   proc.mkStackframe
     (proc.mkLocation "<autogenerated>" 1 (Some (proc.mkFunction "main.init")))].

Definition demoExternal : External := scripted (inl [inl stoppedState]) demoFrames.

Definition demoServer : @Server demoExternal :=
  NewServer [] (mkDebuggerConfig "" 0).

(** The server after a launch in exec mode. *)
Definition launchedServer : @Server demoExternal :=
  set_debugger (Ext := demoExternal) (Some [inl stoppedState]) demoServer.

Definition demoRequest (seq : Z) (command : string) : dap.Request :=
  dap.mkRequest seq "request" command.

(** launch{program: "x", mode: "exec", stopOnEntry: "yes"}: the value of
    stopOnEntry is a string. *)
Definition launchStopOnEntryString
  : gmap string (jsonValue (@float64 demoExternal)) :=
  <["program" := jstring "x"]>
    (<["mode" := jstring "exec"]> (<["stopOnEntry" := jstring "yes"]> ∅)).

(** launch{program: "x", args: "yes"} and
    launch{program: "x", buildFlags: true}, in the default mode. *)
Definition launchArgsString : gmap string (jsonValue (@float64 demoExternal)) :=
  <["program" := jstring "x"]> (<["args" := jstring "yes"]> ∅).

Definition launchBuildFlagsBool
  : gmap string (jsonValue (@float64 demoExternal)) :=
  <["program" := jstring "x"]> (<["buildFlags" := jbool true]> ∅).

(** Variables of the scripted debugger. *)
Abbreviation demoVariable := (proc.Variable_ (@constantValue demoExternal)).

Definition scalar (name type value : string) (kind : reflect.Kind)
  : demoVariable :=
  proc.mkVariable 824634 name (Some type) kind value 0 0 0 None [].

(** A complex number as the debugger loads it: no children. *)
Definition complexLeaf : demoVariable :=
  scalar "c" "complex128" "(1 + 2i)" reflect.Complex128.

(** A struct without fields. *)
Definition emptyStruct : demoVariable :=
  scalar "e" "struct {}" "" reflect.Struct.

(** A channel that could not be read: no children, and the error. *)
Definition unreadableChan : demoVariable :=
  proc.mkVariable 824634 "ch" (Some "chan int") reflect.Chan "" 0 0 0
    (Some "input/output error") [].

(** A nil slice. *)
Definition nilSlice : demoVariable :=
  proc.mkVariable 824634 "xs" (Some "[]int") reflect.Slice "" 0 0 0 None [].

(** A string of 100 bytes of which 5 are loaded, with a child. *)
Definition longString : demoVariable :=
  proc.mkVariable 824634 "msg" (Some "string") reflect.String "hello" 100 0 0
    None [scalar "" "uint8" "104" reflect.Uint8].

(** A map with two pairs of scalars, and a server that has registered
    it. *)
Definition scalarPairs : list (demoVariable * demoVariable) :=
  [(scalar "" "string" "one" reflect.String, scalar "" "int" "1" reflect.Int);
   (scalar "" "string" "two" reflect.String, scalar "" "int" "2" reflect.Int)].

Definition scalarMap : demoVariable :=
  proc.mkVariable 824634 "m" (Some "map[string]int") reflect.Map "" 2 0 4096 None
    (scalarPairs ≫= λ kv, [kv.1; kv.2]).

Definition serverWithMap : @Server demoExternal :=
  exec (createVariableHandle (Ext := demoExternal) scalarMap) demoServer.

(** The server after the stack trace of goroutine 1, and the requests
    that follow it before the debuggee is resumed. *)
Definition firstRequests : list (@RequestMessage demoExternal) :=
  [StackTraceRequest (demoRequest 3 "stackTrace") (mkStackTraceArguments 1 0 0)].

Definition tracedServer : @Server demoExternal :=
  exec (serveRequests firstRequests) launchedServer.

Definition laterRequests : list (@RequestMessage demoExternal) :=
  [ScopesRequest (demoRequest 4 "scopes") 1;
   VariablesRequest (demoRequest 5 "variables") 1;
   ThreadsRequest (demoRequest 6 "threads");
   StackTraceRequest (demoRequest 7 "stackTrace") (mkStackTraceArguments 1 1 1)].

(** The names of the frames of a stack trace response. *)
Definition frameNames (m : dap.Message) : list string :=
  match m with
  | dap.StackTraceResponse _ stackFrames _ => dap.sf_Name <$> stackFrames
  | _ => []
  end.

(** A disconnect request, the end of the connection, and Stop. *)
Definition demoTeardown : list (@Teardown demoExternal) :=
  [TeardownServe [DisconnectRequest (demoRequest 9 "disconnect")];
   TeardownStop;
   TeardownSignalDisconnect].

(** ** Further notions *)

Section MoreNotions.
Context `{Ext : External}.

(** The dap.Response embedded in a message, when it is a response. *)
Definition responseOf (m : dap.Message) : option dap.Response :=
  match m with
  | dap.InitializeResponse r _ | dap.LaunchResponse r | dap.DisconnectResponse r
  | dap.SetBreakpointsResponse r _ | dap.SetExceptionBreakpointsResponse r
  | dap.ConfigurationDoneResponse r | dap.ContinueResponse r _
  | dap.ThreadsResponse r _ | dap.NextResponse r | dap.StepInResponse r
  | dap.StepOutResponse r | dap.StackTraceResponse r _ _
  | dap.ScopesResponse r _ | dap.VariablesResponse r _
  | dap.ErrorResponse r _ _ => Some r
  | dap.InitializedEvent _ | dap.StoppedEvent _ _ | dap.TerminatedEvent _
  | dap.OutputEvent _ _ _ => None
  end.

(** The message is a response to the request with sequence number [seq]. *)
Definition isResponseTo (seq : Z) (m : dap.Message) : bool :=
  match responseOf m with
  | Some r => bool_decide (dap.RequestSeq r = seq)
  | None => false
  end.

(** The trace of [s'] is the trace of [s] with more effects after it. *)
Definition extendsTrace (s s' : Server) : Prop :=
  ∃ suffix, trace s' = trace s ++ suffix.

(** Between [s] and [s'] a response to [seq] was sent. *)
Definition answered (seq : Z) (s s' : Server) : Prop :=
  ∃ pre m post, trace s' = trace s ++ pre ++ Send m :: post ∧
                isResponseTo seq m = true.

(** A computation that sends a response to [seq] whenever it returns. *)
Definition answers {A} (seq : Z) (m : M A) : Prop :=
  ∀ s, match m s with
       | (Ok _, s') => answered seq s s'
       | (Panic _, s') => extendsTrace s s'
       end.
End MoreNotions.

Section ListingNotions.
Context `{Ext : External}.

(** The reference resolves in [s'] to the variable [c] (for a complex
    number, to [c] with its two children): a variable of the kind of [c]
    that has children. *)
Definition expandsTo (ref : Z) (c : proc.Variable_ constantValue)
    (s' : Server) : Prop :=
  ∃ v', handles.get ref (variableHandles s') = Some v' ∧
        proc.Children v' ≠ [] ∧
        proc.Kind v' = proc.Kind c ∧
        (isComplex (proc.Kind c) = false → v' = c).

(** The entry [e] of a variables response lists the child [c] under
    [name]: with its rendered value, and with a zero reference exactly
    when [c] converts to one; any other reference resolves in [s']. *)
Definition lists (s s' : Server) (name : string)
    (c : proc.Variable_ constantValue) (e : dap.Variable_) : Prop :=
  dap.Name e = name ∧
  dap.Value e = rendered c s ∧
  (dap.VariablesReference e = 0 ↔ reference c s = 0) ∧
  (dap.VariablesReference e ≠ 0 → expandsTo (dap.VariablesReference e) c s').

(** The children of slices and arrays are listed by index. *)
Definition isIndexed (k : reflect.Kind) : bool :=
  match k with
  | reflect.Slice | reflect.Array => true
  | _ => false
  end.

(** The name of the [k]-th child [c] of a variable of kind [kind] that is
    not a map. *)
Definition childName (kind : reflect.Kind) (k : nat)
    (c : proc.Variable_ constantValue) : string :=
  if isIndexed kind then "[" +:+ fmt_d (Z.of_nat k) +:+ "]" else proc.Name c.
End ListingNotions.

Section MapNotions.
Context `{Ext : External}.

(** Both the key and the value of the pair convert to a reference that is
    not zero. *)
Definition bothExpandable (s : Server)
    (kv : proc.Variable_ constantValue * proc.Variable_ constantValue) : bool :=
  bool_decide (reference kv.1 s ≠ 0) && bool_decide (reference kv.2 s ≠ 0).

(** The panic of an index equal to the length of the slice. *)
Definition indexOutOfRange (len : Z) : string :=
  "runtime error: index out of range [" +:+ fmt_d len +:+ "] with length "
  +:+ fmt_d len.
End MapNotions.

Section BreakpointNotions.
Context `{Ext : External}.

(** A breakpoint of the file [path] that is not a special breakpoint. *)
Definition ofFile (path : string) (bp : api.Breakpoint) : bool :=
  bool_decide (0 ≤ api.bp_ID bp) && bool_decide (api.bp_File bp = path).

(** The calls that clear the breakpoints, and the calls that create the
    breakpoints requested for [path]. *)
Definition clearCalls (bps : list api.Breakpoint) : list Effect :=
  (λ bp, OnDebugger (CallClearBreakpoint bp)) <$> bps.

Definition createCalls (path : string) (wanted : list dap.SourceBreakpoint)
  : list Effect :=
  (λ want, OnDebugger (CallCreateBreakpoint
             (api.mkBreakpoint 0 path (dap.sb_Line want) (dap.sb_Condition want))))
    <$> wanted.

(** The entry of the response for a requested breakpoint: verified with
    no message, or not verified at the requested line. *)
Definition reports (want : dap.SourceBreakpoint) (b : dap.Breakpoint) : Prop :=
  (dap.Verified b = true ∧ dap.bp_Message b = "") ∨
  (dap.Verified b = false ∧ dap.bp_Line b = dap.sb_Line want).
End BreakpointNotions.

Section LaunchNotions.
Context `{Ext : External}.

(** The message is an error response to the request [seq]. *)
Definition isFailure (seq : Z) (m : dap.Message) : bool :=
  match m with
  | dap.ErrorResponse r _ _ =>
    bool_decide (dap.RequestSeq r = seq) && negb (dap.Success r)
  | _ => false
  end.

(** The two ways a launch ends, from [s] to [s'], with the effects
    [suffix]: with the debugger that debugger.New makes of the config and
    the process arguments the launch has set, the initialized event and
    then the response; or with one error response and no other message,
    and with no debugger when debugger.New was called. *)
Definition launchSucceeded (request : dap.Request) (s' : Server)
    (suffix : list Effect) : Prop :=
  ∃ d, debugger s' = Some d ∧
       debugger_New (config_Debugger s') (config_ProcessArgs s') = inl d ∧
       NewDebugger (config_Debugger s') (config_ProcessArgs s') ∈ suffix ∧
       omap sent_of suffix =
         [dap.InitializedEvent (newEvent "initialized");
          dap.LaunchResponse (newResponse request)].

Definition launchFailed (request : dap.Request) (s s' : Server)
    (suffix : list Effect) : Prop :=
  ∃ m, omap sent_of suffix = [m] ∧
       isFailure (dap.req_Seq request) m = true ∧
       ((debugger s' = debugger s ∧ ∀ cfg processArgs,
           NewDebugger cfg processArgs ∉ suffix) ∨
        debugger s' = None).
End LaunchNotions.

Section SessionNotions.
Context `{Ext : External}.

(** What a launch sets up and the other requests leave alone: the session
    arguments, the process arguments and the config of the debugger, the
    binary to remove, the connection, and whether a debugger is attached. *)
Definition sameSession (s s' : Server) : Prop :=
  args s' = args s ∧
  config_ProcessArgs s' = config_ProcessArgs s ∧
  config_Debugger s' = config_Debugger s ∧
  binaryToRemove s' = binaryToRemove s ∧
  conn s' = conn s ∧
  (is_Some (debugger s') ↔ is_Some (debugger s)).

Definition isLaunch (request : RequestMessage) : bool :=
  match request with LaunchRequest _ _ => true | _ => false end.

(** How often the debugger was detached. *)
Definition isDetach (e : Effect) : bool :=
  match e with OnDebugger (CallDetach _) => true | _ => false end.

Definition detaches (tr : list Effect) : nat :=
  length (filter (λ e, isDetach e = true) tr).
End SessionNotions.

Section StopNotions.
Context `{Ext : External}.

(** The response a request that runs a command sends before the command. *)
Definition commandResponse (request : RequestMessage) : option dap.Message :=
  match request with
  | ConfigurationDoneRequest r =>
    Some (dap.ConfigurationDoneResponse (newResponse r))
  | ContinueRequest r => Some (dap.ContinueResponse (newResponse r) true)
  | NextRequest r => Some (dap.NextResponse (newResponse r))
  | StepInRequest r => Some (dap.StepInResponse (newResponse r))
  | StepOutRequest r => Some (dap.StepOutResponse (newResponse r))
  | _ => None
  end.

(** The reason of the stop that ends the command of a request. *)
Definition stopReason (request : RequestMessage) : string :=
  match request with
  | NextRequest _ | StepInRequest _ | StepOutRequest _ => "step"
  | _ => "breakpoint"
  end.

(** The thread of the stop that reports a failed command: the goroutine of
    the current thread of the state, zero when the state cannot be read,
    and none when the state has no current thread. *)
Definition errorThread (r : api.DebuggerState + error) : option Z :=
  match r with
  | inl state => api.GoroutineID <$> api.CurrentThread state
  | inr _ => Some 0
  end.

(** The text that reports the error of a command. *)
Definition errorText (err : error) : string :=
  if bool_decide (Error err = "bad access") then BetterBadAccessError
  else Error err.
End StopNotions.

(** ** Closed examples of a session *)

(** A second scripted debugger: it has two goroutines, the second at a
    location without a function; four breakpoints, of which one is the
    special breakpoint for panics and one is in another file; it refuses
    to create a breakpoint at a line that is not positive; the frame has
    one argument and two locals, and the package one global. *)
Definition sessionGoroutines : list proc.G :=
  [proc.mkG 1 (proc.mkLocation "/work/main.go" 12 (Some (proc.mkFunction "main.main")));
   proc.mkG 5 (proc.mkLocation "/work/asm.s" 10 None)].

Definition sessionBreakpoints : list api.Breakpoint :=
  [api.mkBreakpoint (-1) "" 0 "";
   api.mkBreakpoint 1 "/work/main.go" 12 "";
   api.mkBreakpoint 2 "/work/util.go" 7 "";
   api.mkBreakpoint 3 "/work/main.go" 20 ""].

Definition intVariable (name value : string) : proc.Variable_ string :=
  proc.mkVariable 824634 name (Some "int") reflect.Int value 0 0 0 None [].

Definition intSlice : proc.Variable_ string :=
  proc.mkVariable 824700 "xs" (Some "[]int") reflect.Slice "" 2 2 4096 None
    [intVariable "" "10"; intVariable "" "20"].

Definition pointStruct : proc.Variable_ string :=
  proc.mkVariable 824800 "p" (Some "main.Point") reflect.Struct "" 0 0 0 None
    [intVariable "X" "1"; intSlice].

Definition sessionExternal : External :=
  {| float64 := Z;
     float64_positive := λ f, bool_decide (0 < f);
     float64_int := λ f, f;
     constantValue := string;
     constant_nil := "";
     constant_StringVal := λ v, v;
     constant_Real := λ v, v;
     constant_Imag := λ v, "0";
     fmt_v := scripted_fmt_v;
     fmt_q := λ x, quoteChar +:+ scripted_fmt_v x +:+ quoteChar;
     strconv_Quote := λ s, quoteChar +:+ s +:+ quoteChar;
     filepath_Abs := λ p, inl ("/work/" +:+ p);
     filepath_Dir := λ p, "/work";
     filepath_Base := λ p, strings_TrimPrefix p "/work/";
     PrettyTypeName := λ t, default "" t;
     VariableValueAsString := λ v, proc.Value v;
     TypeString := λ v, default "" (proc.DwarfType v);
     GoBuild := λ _ _ flags,
       if bool_decide (flags = "-bad") then Some (mkError OtherError "exit status 2")
       else None;
     GoTestBuild := λ _ _ _, None;
     Debugger := list (api.DebuggerState + error);
     debugger_New := λ _ _, inl [];
     debugger_Command := scripted_Command;
     debugger_State := λ d _,
       (inl (api.mkDebuggerState false None (Some (api.mkThread 7))), d);
     debugger_Detach := λ d _, (None, d);
     debugger_Stacktrace := λ d _ _ _, (inl [], d);
     debugger_FunctionArguments := λ d _ _ _ _, (inl [intVariable "n" "3"], d);
     debugger_LocalVariables := λ d _ _ _ _, (inl [pointStruct; intSlice], d);
     debugger_CurrentPackage := λ d, (inl "main", d);
     debugger_PackageVariables := λ d _ _, (inl [intVariable "main.counter" "0"], d);
     debugger_Breakpoints := λ d, (sessionBreakpoints, d);
     debugger_ClearBreakpoint := λ d bp, (inl bp, d);
     debugger_CreateBreakpoint := λ d bp,
       (if bool_decide (0 < api.bp_Line bp) then inl bp
        else inr (mkError OtherError "could not find statement"), d);
     debugger_Goroutines := λ d _ _, (inl sessionGoroutines, d) |}.

(** A server of the second debugger after a launch and a stack trace of
    one frame, without and with the globals. *)
Definition sessionServer : @Server sessionExternal :=
  exec (createStackFrameHandle (Ext := sessionExternal) (mkStackFrameRef 1 0))
    (set_debugger (Ext := sessionExternal) (Some [])
       (NewServer [] (mkDebuggerConfig "" 0))).

Definition globalsServer : @Server sessionExternal :=
  set_args (Ext := sessionExternal) (mkLaunchAttachArgs false 50 true)
    sessionServer.

(** A server that has registered the struct, and one that has registered
    a map. *)
Definition serverWithStruct : @Server sessionExternal :=
  exec (createVariableHandle (Ext := sessionExternal) pointStruct) sessionServer.

(** A map with a pair of scalars and a pair of a slice and a struct. *)
Definition mixedPairs : list (proc.Variable_ string * proc.Variable_ string) :=
  [(intVariable "" "1", intVariable "" "2"); (intSlice, pointStruct)].

Definition mixedMap : proc.Variable_ string :=
  proc.mkVariable 824900 "m" (Some "map[interface {}]interface {}") reflect.Map
    "" 2 0 4096 None (mixedPairs ≫= λ kv, [kv.1; kv.2]).

(** A map as no debugger loads it: a key without its value. *)
Definition oddMap : proc.Variable_ string :=
  proc.mkVariable 824900 "m" (Some "map[int]int") reflect.Map
    "" 2 0 4096 None ((mixedPairs ≫= λ kv, [kv.1; kv.2]) ++ [intVariable "" "3"]).

Definition serverWithMixedMap : @Server sessionExternal :=
  exec (createVariableHandle (Ext := sessionExternal) mixedMap) sessionServer.

Definition serverWithOddMap : @Server sessionExternal :=
  exec (createVariableHandle (Ext := sessionExternal) oddMap) sessionServer.

(** setBreakpoints for main.go at lines 14 and 0. *)
Definition breakpointsWanted : SetBreakpointsArguments :=
  mkSetBreakpointsArguments "/work/main.go"
    [dap.mkSourceBreakpoint 14 ""; dap.mkSourceBreakpoint 0 ""].

(** Servers of the first debugger whose next command stops without a
    selected goroutine, fails with "bad access", and ends at the exit of
    the process. *)
Definition noGoroutineServer : @Server demoExternal :=
  set_debugger (Ext := demoExternal)
    (Some [inl (api.mkDebuggerState false None None)]) demoServer.

Definition badAccessServer : @Server demoExternal :=
  set_debugger (Ext := demoExternal)
    (Some [inr (mkError OtherError "bad access")]) demoServer.

Definition exitedServer : @Server demoExternal :=
  set_debugger (Ext := demoExternal) (Some []) demoServer.

(** launch{program: "x"} and launch{program: "x", mode: "test",
    buildFlags: "-race"}. *)
Definition launchDebug : gmap string (jsonValue (@float64 demoExternal)) :=
  <["program" := jstring "x"]> ∅.

Definition launchTest : gmap string (jsonValue (@float64 demoExternal)) :=
  <["program" := jstring "x"]>
    (<["mode" := jstring "test"]> (<["buildFlags" := jstring "-race"]> ∅)).

(** * Proofs *)

(** * Registries *)

Module handles_facts.
Import handles.

Lemma get_new {V} h : get h (@newHandlesMap V) = None.
Proof. destruct h; reflexivity. Qed.

Lemma get_reset {V} (hs : handlesMap V) h : get h (reset hs) = None.
Proof. apply get_new. Qed.

Lemma create_positive {V} (v : V) hs : 0 < (create v hs).1.
Proof. simpl. lia. Qed.

Lemma get_create_new {V} (v : V) hs :
  get (create v hs).1 (create v hs).2 = Some v.
Proof. simpl. apply lookup_insert_eq. Qed.

Lemma get_create_old {V} (v : V) hs h p :
  wf hs → get h hs = Some p → get h (create v hs).2 = Some p.
Proof.
  intros Hwf Hget. destruct h as [|q|q]; try discriminate.
  simpl in *. rewrite lookup_insert_ne; [done|].
  intros Heq. specialize (Hwf q (ex_intro _ _ Hget)). lia.
Qed.

Lemma wf_new {V} : wf (@newHandlesMap V).
Proof. intros p [v Hv]. simpl in Hv. by rewrite lookup_empty in Hv. Qed.

Lemma wf_reset {V} (hs : handlesMap V) : wf (reset hs).
Proof. apply wf_new. Qed.

Lemma wf_create {V} (v : V) hs : wf hs → wf (create v hs).2.
Proof.
  intros Hwf p [x Hx]. simpl in *.
  destruct (decide (nextHandle hs = p)) as [<-|Hne]; [lia|].
  rewrite lookup_insert_ne in Hx by done.
  specialize (Hwf p (ex_intro _ _ Hx)). lia.
Qed.
End handles_facts.


Section Conversion.
Context `{Ext : External}.

(** convertVariable either returns a zero reference and leaves the server
    as it is, or registers one variable and returns its handle; which of
    the two does not depend on the server. *)
Lemma convertVariable_cases (v : proc.Variable_ constantValue) :
  (∃ value, ∀ s, convertVariable v s = (Ok (value, 0), s)) ∨
  (∃ value v', ∀ s,
      convertVariable v s =
      (Ok (value, (handles.create v' (variableHandles s)).1),
       set_variableHandles (handles.create v' (variableHandles s)).2 s)).
Proof.
  unfold convertVariable, convertDefault.
  repeat case_match;
    first [ left; eexists; intros ?; reflexivity
          | right; eexists _, _; intros ?; reflexivity ].
Qed.
End Conversion.

Section Conversion2.
Context `{Ext : External}.

Lemma bind_Ok {A B} (m : M A) (f : A → M B) s a s' :
  m s = (Ok a, s') → (m ≫= f) s = f a s'.
Proof. intros H. unfold mbind, M_bind. by rewrite H. Qed.

Lemma bind_Panic {A B} (m : M A) (f : A → M B) s v s' :
  m s = (Panic v, s') → (m ≫= f) s = (Panic v, s').
Proof. intros H. unfold mbind, M_bind. by rewrite H. Qed.

Lemma bind_ret {A B} (a : A) (f : A → M B) s : (mret a ≫= f) s = f a s.
Proof. reflexivity. Qed.

Lemma bind_gets {A B} (g : Server → A) (f : A → M B) s :
  (gets g ≫= f) s = f (g s) s.
Proof. reflexivity. Qed.

Lemma bind_modify {B} (g : Server → Server) (f : () → M B) s :
  (modify g ≫= f) s = f () (g s).
Proof. reflexivity. Qed.

Lemma bind_emit {B} (e : Effect) (f : () → M B) s :
  (emit e ≫= f) s = f () (set_trace (trace s ++ [e]) s).
Proof. reflexivity. Qed.

Lemma bind_send {B} (m : dap.Message) (f : () → M B) s :
  (send m ≫= f) s = f () (set_trace (trace s ++ [Send m]) s).
Proof. reflexivity. Qed.

Lemma bind_panic {A B} (v : string) (f : A → M B) s :
  (panic v ≫= f) s = (Panic v, s).
Proof. reflexivity. Qed.

Lemma bind_skip {B} (f : () → M B) s : (skip ≫= f) s = f () s.
Proof. reflexivity. Qed.

Lemma bind_assoc {A B C} (m : M A) (f : A → M B) (g : B → M C) s :
  ((m ≫= f) ≫= g) s = (m ≫= λ a, f a ≫= g) s.
Proof. unfold mbind, M_bind. by destruct (m s) as [[a|v] s']. Qed.

Lemma onDebugger_Some {A} (c : DebuggerCall) (f : Debugger → A * Debugger) s d :
  debugger s = Some d →
  onDebugger c f s =
  (Ok (f d).1, set_debugger (Some (f d).2) (set_trace (trace s ++ [OnDebugger c]) s)).
Proof. intros H. unfold onDebugger. rewrite bind_gets, H. reflexivity. Qed.

Lemma onDebugger_None {A} (c : DebuggerCall) (f : Debugger → A * Debugger) s :
  debugger s = None → onDebugger c f s = (Panic nilDereference, s).
Proof. intros H. unfold onDebugger. rewrite bind_gets, H. reflexivity. Qed.

Lemma convertVariable_zero_reference (v : proc.Variable_ constantValue) s :
  reference v s = 0 → convertVariable v s = (Ok (rendered v s, 0), s).
Proof.
  unfold reference, rendered.
  destruct (convertVariable_cases v) as [[value H]|[value [v' H]]];
    rewrite H; [done|].
  simpl. lia.
Qed.



(** C2, amended.  A nil-valued slice, map, channel or pointer converts to
    a zero reference and the conversion leaves the server as it is; when
    the variable is readable, the value contains "nil".  (An unreadable
    variable is rendered as "unreadable <error>".) *)
Theorem convertVariable_nil_is_leaf (v : proc.Variable_ constantValue) s :
  nilValued v = true →
  ∃ value, convertVariable v s = (Ok (value, 0), s) ∧
           (proc.Unreadable v = None → strings_Contains value "nil" = true).
Proof.
  unfold nilValued, convertVariable. intros Hnil.
  destruct (proc.Unreadable v) as [err|]; [eexists; split; [reflexivity|done]|].
  destruct (proc.Kind v); try discriminate Hnil.
  - (* Chan *)
    apply bool_decide_eq_true in Hnil. rewrite Hnil.
    eexists; split; reflexivity.
  - (* Map *)
    rewrite Hnil. eexists; split; reflexivity.
  - (* Ptr *)
    destruct (proc.DwarfType v), (proc.Children v);
      try (eexists; split; reflexivity).
    rewrite Hnil. eexists; split; reflexivity.
  - (* Slice *)
    rewrite Hnil. eexists; split; reflexivity.
Qed.
End Conversion2.


Section Listing.
Context `{Ext : External}.

Lemma mapChildren_scalars len s
    (kvs : list (proc.Variable_ constantValue * proc.Variable_ constantValue)) :
  ∀ kvIndex children,
    (∀ c, c ∈ (kvs ≫= λ kv, [kv.1; kv.2]) → reference c s = 0) →
    mapChildren len kvIndex (kvs ≫= λ kv, [kv.1; kv.2]) children s =
    (Ok (children ++ (scalarEntry s <$> kvs)), s).
Proof.
  induction kvs as [|[k c] kvs IH]; intros kvIndex children Hzero.
  - simpl. by rewrite app_nil_r.
  - change (((k, c) :: kvs) ≫= λ kv, [kv.1; kv.2])
      with (k :: c :: (kvs ≫= λ kv, [kv.1; kv.2])) in *.
    cbn [mapChildren].
    rewrite (bind_Ok _ _ _ _ _
               (convertVariable_zero_reference k s (Hzero k (list_elem_of_here _ _)))).
    cbn beta iota.
    rewrite (bind_Ok _ _ _ _ _
               (convertVariable_zero_reference c s (Hzero c (list_elem_of_further _ _ _ (list_elem_of_here _ _))))).
    cbn beta iota.
    change (bool_decide (0 > 0)) with false. cbn [andb].
    change (bool_decide (0 ≠ 0)) with false. cbn iota.
    rewrite IH by (intros x Hx; apply Hzero; by do 2 apply list_elem_of_further).
    by rewrite <- app_assoc.
Qed.

(** C5.  For a registered map whose children are the keys and values of
    N pairs, all of which convert to a zero reference, the variables
    handler sends one response with exactly N entries; the entry of a pair
    has the rendered key as name, the rendered value as value and a zero
    reference. *)
Theorem onVariablesRequest_map_of_scalars (request : dap.Request) (ref : Z)
    (v : proc.Variable_ constantValue)
    (kvs : list (proc.Variable_ constantValue * proc.Variable_ constantValue))
    (s : Server) :
  handles.get ref (variableHandles s) = Some v →
  proc.Kind v = reflect.Map →
  proc.Children v = kvs ≫= (λ kv, [kv.1; kv.2]) →
  (∀ c, c ∈ proc.Children v → reference c s = 0) →
  ∃ entries,
    onVariablesRequest request ref s =
    (Ok (), set_trace (trace s ++ [Send (dap.VariablesResponse
                                           (newResponse request) entries)]) s) ∧
    length entries = length kvs ∧
    ∀ i kv, kvs !! i = Some kv →
            entries !! i =
            Some (dap.mkVariable (rendered kv.1 s) (rendered kv.2 s) 0).
Proof.
  intros Hget Hkind Hchildren Hzero.
  exists (scalarEntry s <$> kvs). split; [|split].
  - unfold onVariablesRequest, getVariableHandle.
    rewrite (bind_Ok _ _ s (Some v) s) by (unfold gets; by rewrite Hget).
    rewrite Hkind, Hchildren.
    erewrite bind_Ok; [reflexivity|].
    rewrite Hchildren in Hzero. by rewrite mapChildren_scalars.
  - by rewrite length_fmap.
  - intros i kv Hi. by rewrite list_lookup_fmap, Hi.
Qed.
End Listing.


Section StackTrace.
Context `{Ext : External}.

Lemma stackFramesLoop_describes goroutineID (frames : list proc.Stackframe) :
  ∀ i s, ∃ stackFrames s',
    stackFramesLoop goroutineID i frames s = (Ok stackFrames, s') ∧
    trace s' = trace s ∧
    Forall2 describes frames stackFrames.
Proof.
  induction frames as [|frame frames IH]; intros i s.
  - eexists _, _. split; [reflexivity|]. split; [done|constructor].
  - cbn [stackFramesLoop].
    set (s1 := set_stackFrameHandles
                 (handles.create (mkStackFrameRef goroutineID i)
                                 (stackFrameHandles s)).2 s).
    destruct (IH (i + 1) s1) as (tl & s' & Hloop & Htrace & Hall).
    eexists _, s'. split; [|split].
    + erewrite bind_Ok by reflexivity.
      fold s1. erewrite bind_Ok by exact Hloop. reflexivity.
    + by rewrite Htrace.
    + constructor; [|done].
      repeat split; simpl.
      by destruct (decide (proc.loc_File (proc.Call frame) = "<autogenerated>"));
        [rewrite bool_decide_eq_false_2, bool_decide_eq_true_2 by auto
        |rewrite bool_decide_eq_true_2, bool_decide_eq_false_2 by auto].
Qed.

(** The pagination takes the same window of two lists that are related
    position by position. *)
Lemma Forall2_paginate {A B} (P : A → B → Prop) (StartFrame Levels : Z)
    (l : list A) (k : list B) :
  Forall2 P l k →
  Forall2 P (paginate StartFrame Levels l) (paginate StartFrame Levels k).
Proof.
  intros Hall. unfold paginate.
  rewrite <- (Forall2_length _ _ _ Hall).
  assert (Forall2 P
            (if bool_decide (StartFrame > 0)
             then drop (Z.to_nat (min StartFrame (Z.of_nat (length l)))) l
             else l)
            (if bool_decide (StartFrame > 0)
             then drop (Z.to_nat (min StartFrame (Z.of_nat (length l)))) k
             else k)) as Hdrop
    by (destruct (bool_decide (StartFrame > 0)); [by apply Forall2_drop|done]).
  revert Hdrop. generalize
    (if bool_decide (StartFrame > 0)
     then drop (Z.to_nat (min StartFrame (Z.of_nat (length l)))) l else l)
    (if bool_decide (StartFrame > 0)
     then drop (Z.to_nat (min StartFrame (Z.of_nat (length l)))) k else k).
  intros l' k' Hdrop. rewrite <- (Forall2_length _ _ _ Hdrop).
  destruct (bool_decide (Levels > 0)); [by apply Forall2_take|done].
Qed.

(** C6, amended.  When the debugger returns the frames, the stackTrace
    handler makes one frame of each frame of the debugger, in order, and
    sends one response with the window of them that the request asks for
    and with the number of frames of the debugger.  The returned frames
    are, position by position, the frames of the debugger in that window:
    the name of each is the name of the function of its frame, or "???"
    when the function is not resolved; its source is empty when the frame
    is at the location "<autogenerated>", and the base name and the path
    of the file otherwise; its line is the line of the frame. *)
Theorem onStackTraceRequest_frames (request : dap.Request)
    (Arguments : StackTraceArguments) (s : Server) (d : Debugger)
    (frames : list proc.Stackframe) :
  debugger s = Some d →
  (debugger_Stacktrace d (st_ThreadId Arguments) (stackTraceDepth (args s)) 0).1
    = inl frames →
  ∃ stackFrames,
    trace (exec (onStackTraceRequest request Arguments) s) =
    trace s ++
      [OnDebugger (CallStacktrace (st_ThreadId Arguments)
                                  (stackTraceDepth (args s)) 0);
       Send (dap.StackTraceResponse (newResponse request)
               (paginate (StartFrame Arguments) (Levels Arguments) stackFrames)
               (Z.of_nat (length frames)))] ∧
    Forall2 describes frames stackFrames ∧
    Forall2 describes
      (paginate (StartFrame Arguments) (Levels Arguments) frames)
      (paginate (StartFrame Arguments) (Levels Arguments) stackFrames).
Proof.
  intros Hd Hframes.
  unfold onStackTraceRequest, exec. cbv zeta.
  rewrite bind_gets.
  rewrite (bind_Ok _ _ _ _ _ (onDebugger_Some _ _ _ _ Hd)), Hframes.
  cbn beta iota.
  match goal with
  | |- context [(stackFramesLoop ?g ?i frames ≫= _) ?s1] =>
    destruct (stackFramesLoop_describes g frames i s1)
      as (stackFrames & s' & Hloop & Htrace & Hall)
  end.
  rewrite (bind_Ok _ _ _ _ _ Hloop).
  exists stackFrames. split; [|split].
  - simpl. rewrite Htrace. simpl. by rewrite <- app_assoc.
  - exact Hall.
  - by apply Forall2_paginate.
Qed.
End StackTrace.


Section Commands.
Context `{Ext : External}.

Lemma resetHandles_eq {B} (f : () → M B) s :
  (resetHandles ≫= f) s =
  f () (set_trace (trace s ++ [ResetHandles StackFrameHandles;
                               ResetHandles VariableHandles])
          (set_variableHandles handles.newHandlesMap
             (set_stackFrameHandles handles.newHandlesMap s))).
Proof.
  unfold resetHandles, mbind, M_bind, modify, emit. simpl.
  f_equal. unfold set_trace, set_variableHandles, set_stackFrameHandles; simpl.
  by rewrite <- app_assoc.
Qed.

Lemma doCommand_no_debugger command s :
  debugger s = None → doCommand command s = (Ok (), s).
Proof. intros H. unfold doCommand. by rewrite bind_gets, H. Qed.

Lemma doCommand_exited command s d :
  debugger s = Some d →
  processExited (debugger_Command d command).1 = true →
  doCommand command s =
  (Ok (),
   set_trace (trace s ++ [OnDebugger (CallCommand command);
                          Send (dap.TerminatedEvent (newEvent "terminated"))])
     (set_debugger (Some (debugger_Command d command).2) s)).
Proof.
  intros Hd Hexit. unfold doCommand. rewrite bind_gets, Hd. cbn beta iota.
  rewrite (bind_Ok _ _ _ _ _ (onDebugger_Some _ _ _ _ Hd)), Hexit.
  unfold send, emit, modify, set_trace, set_debugger; simpl.
  by rewrite <- app_assoc.
Qed.

Lemma doCommand_stopped command s d :
  debugger s = Some d →
  processExited (debugger_Command d command).1 = false →
  ∃ rest,
    noHandles (exec (doCommand command) s) ∧
    trace (exec (doCommand command) s) =
    trace s ++ [OnDebugger (CallCommand command);
                ResetHandles StackFrameHandles;
                ResetHandles VariableHandles] ++ rest ∧
    ((doCommand command s).1 = Ok () →
     ∃ body, Send (dap.StoppedEvent (newEvent "stopped") body) ∈ rest ∧
             dap.AllThreadsStopped body = true).
Proof.
  intros Hd Hexit. unfold doCommand, exec. rewrite bind_gets, Hd. cbn beta iota.
  rewrite (bind_Ok _ _ _ _ _ (onDebugger_Some _ _ _ _ Hd)), Hexit.
  rewrite resetHandles_eq.
  set (d1 := (debugger_Command d command).2).
  destruct (debugger_Command d command).1 as [state|err].
  - destruct (api.SelectedGoroutine state) as [g|].
    + eexists [_]. split; [split; intros h; apply handles_facts.get_new|].
      split; [simpl; by rewrite <- !app_assoc|].
      intros _. eexists. split; [apply list_elem_of_here|done].
    + exists []. split; [split; intros h; apply handles_facts.get_new|].
      split; [simpl; by rewrite <- !app_assoc|]. done.
  - erewrite bind_Ok by (apply onDebugger_Some; reflexivity).
    destruct (debugger_State d1 true).1 as [state|err'].
    + destruct (api.CurrentThread state) as [t|].
      * eexists [_; _; _]. split; [split; intros h; apply handles_facts.get_new|].
        split; [simpl; by rewrite <- !app_assoc|].
        intros _. eexists.
        split; [apply list_elem_of_further, list_elem_of_here|done].
      * eexists [_]. split; [split; intros h; apply handles_facts.get_new|].
        split; [simpl; by rewrite <- !app_assoc|]. done.
    + eexists [_; _; _]. split; [split; intros h; apply handles_facts.get_new|].
      split; [simpl; by rewrite <- !app_assoc|].
      intros _. eexists.
      split; [apply list_elem_of_further, list_elem_of_here|done].
Qed.
End Commands.


(** * Computations that respect a relation on servers *)

Section Respects.
Context `{Ext : External}.
Context (R : relation Server) `{!PreOrder R}.

Lemma respects_ret {A} (a : A) : respects R (mret a).
Proof. intros s. reflexivity. Qed.

Lemma respects_bind {A B} (m : M A) (f : A → M B) :
  respects R m → (∀ a, respects R (f a)) → respects R (m ≫= f).
Proof.
  intros Hm Hf s. unfold mbind, M_bind.
  specialize (Hm s). destruct (m s) as [[a|v] s1]; [|done].
  etrans; [done|]. apply Hf.
Qed.

Lemma respects_gets {A} (g : Server → A) : respects R (gets g).
Proof. intros s. reflexivity. Qed.

Lemma respects_panic {A} v : respects R (@panic _ A v).
Proof. intros s. reflexivity. Qed.

Lemma respects_skip : respects R skip.
Proof. intros s. reflexivity. Qed.

Lemma respects_when b m : respects R m → respects R (when b m).
Proof. destruct b; [done|]. intros _. apply respects_skip. Qed.

(** handleRequest adds at most an error response to what the handler
    leaves. *)
Lemma respects_handleRequest request :
  (∀ seq details, respects R (sendInternalErrorResponse seq details)) →
  respects R (dispatch request) → respects R (handleRequest request).
Proof.
  intros Hsend Hdispatch s. unfold handleRequest.
  specialize (Hdispatch s). destruct (dispatch request s) as [[[]|ierr] s']; [done|].
  etrans; [done|]. apply Hsend.
Qed.
End Respects.

Create HintDb respects.

#[global] Hint Resolve respects_ret respects_gets respects_panic respects_skip
  : respects.

#[global] Hint Extern 0 (PreOrder _) => typeclasses eauto : respects.

(** Decompose a handler along its binds and case distinctions. *)
Ltac respect :=
  repeat first
    [ progress eauto with respects
    | apply respects_bind; [typeclasses eauto| |intros ?]
    | apply respects_when; [typeclasses eauto|]
    | match goal with
      | |- respects _ (match ?x with _ => _ end) => destruct x
      | |- respects _ (let '(_, _) := ?x in _) => destruct x
      end ].

(** * Handlers keep the handles *)

Section Grows.
Context `{Ext : External}.

#[global] Instance grows_preorder : PreOrder grows.
Proof.
  split.
  - intros s Hwf. split; [done|]. by split.
  - intros s1 s2 s3 H12 H23 Hwf. destruct (H12 Hwf) as [Hwf2 [Hf2 Hv2]].
    destruct (H23 Hwf2) as [Hwf3 [Hf3 Hv3]].
    split; [done|]. split; eauto.
Qed.

Lemma grows_same_handles s s' :
  stackFrameHandles s' = stackFrameHandles s →
  variableHandles s' = variableHandles s →
  grows s s'.
Proof.
  intros Hf Hv Hwf. unfold wfHandles, keepsHandles. rewrite Hf, Hv. done.
Qed.

Lemma grows_modify (g : Server → Server) :
  (∀ s, stackFrameHandles (g s) = stackFrameHandles s) →
  (∀ s, variableHandles (g s) = variableHandles s) →
  respects grows (modify g).
Proof. intros Hf Hv s. simpl. apply grows_same_handles; auto. Qed.

Lemma grows_emit e : respects grows (emit e).
Proof. unfold emit. apply grows_modify; intros s; reflexivity. Qed.

Lemma grows_send m : respects grows (send m).
Proof. apply grows_emit. Qed.

Lemma grows_createVariableHandle v : respects grows (createVariableHandle v).
Proof.
  intros s [Hf Hv]. split; [split|split]; simpl; try done.
  - by apply handles_facts.wf_create.
  - intros h p. by apply handles_facts.get_create_old.
Qed.

Lemma grows_createStackFrameHandle f : respects grows (createStackFrameHandle f).
Proof.
  intros s [Hf Hv]. split; [split|split]; simpl; try done.
  - by apply handles_facts.wf_create.
  - intros h p. by apply handles_facts.get_create_old.
Qed.

Lemma grows_onDebugger {A} c (f : Debugger → A * Debugger) :
  respects grows (onDebugger c f).
Proof.
  unfold onDebugger. apply respects_bind; [apply _|apply respects_gets; apply _|].
  intros [d|]; [|apply respects_panic; apply _].
  apply respects_bind; [apply _|apply grows_emit|]. intros _.
  apply respects_bind;
    [apply _|apply grows_modify; intros s; reflexivity|]. intros _.
  apply respects_ret; apply _.
Qed.

Lemma grows_close c : respects grows (close c).
Proof.
  unfold close. apply respects_bind; [apply _|apply respects_gets; apply _|].
  intros [|]; [|apply respects_panic; apply _].
  apply respects_bind; [apply _| |intros _; apply grows_emit].
  apply grows_modify; intros s; by destruct c.
Qed.

Lemma grows_sendErrorResponse request id summary details :
  respects grows (sendErrorResponse request id summary details).
Proof. apply grows_send. Qed.

Lemma grows_sendInternalErrorResponse seq details :
  respects grows (sendInternalErrorResponse seq details).
Proof. apply grows_send. Qed.

Lemma grows_convertVariable v : respects grows (convertVariable v).
Proof.
  intros s. destruct (convertVariable_cases v) as [[value H]|[value [v' H]]];
    rewrite H; [reflexivity|].
  apply (grows_createVariableHandle v' s).
Qed.
End Grows.

#[global] Hint Resolve grows_emit grows_send grows_createVariableHandle
  grows_createStackFrameHandle grows_onDebugger grows_close
  grows_sendErrorResponse grows_sendInternalErrorResponse
  grows_convertVariable : respects.

#[global] Hint Extern 1 (respects grows (modify _)) =>
  apply grows_modify; intros ?; reflexivity : respects.

Section GrowsHandlers.
Context `{Ext : External}.

Lemma grows_mapChildren len cs : ∀ kvIndex children,
  respects grows (mapChildren len kvIndex cs children).
Proof.
  induction cs as [cs IH] using (induction_ltof1 _ length); unfold ltof in IH.
  intros kvIndex children. destruct cs as [|k [|c rest]]; cbn [mapChildren].
  - respect.
  - respect.
  - apply respects_bind; [apply _|respect|]. intros [key keyref].
    apply respects_bind; [apply _|respect|]. intros [val valref].
    destruct (_ && _); apply IH; simpl; lia.
Qed.

Lemma grows_listChildren indexed cs : ∀ i,
  respects grows (listChildren indexed i cs).
Proof.
  induction cs as [|c cs IH]; intros i; cbn [listChildren]; respect.
Qed.

Lemma grows_stackFramesLoop goroutineID frames : ∀ i,
  respects grows (stackFramesLoop goroutineID i frames).
Proof.
  induction frames as [|frame frames IH]; intros i; cbn [stackFramesLoop]; respect.
Qed.

Lemma grows_clearBreakpoints path existing :
  respects grows (clearBreakpoints path existing).
Proof.
  induction existing as [|bp rest IH]; cbn [clearBreakpoints]; respect.
Qed.

Lemma grows_createBreakpoints path wanted :
  respects grows (createBreakpoints path wanted).
Proof.
  induction wanted as [|want rest IH]; cbn [createBreakpoints]; respect.
Qed.

#[local] Hint Resolve grows_mapChildren grows_listChildren grows_stackFramesLoop
  grows_clearBreakpoints grows_createBreakpoints : respects.

Lemma grows_onVariablesRequest request ref :
  respects grows (onVariablesRequest request ref).
Proof. unfold onVariablesRequest, getVariableHandle. respect. Qed.

Lemma grows_onStackTraceRequest request Arguments :
  respects grows (onStackTraceRequest request Arguments).
Proof. unfold onStackTraceRequest. respect. Qed.

Lemma grows_onScopesRequest request FrameId :
  respects grows (onScopesRequest request FrameId).
Proof. unfold onScopesRequest, scopesResponse. respect. Qed.

Lemma grows_onSetBreakpointsRequest request Arguments :
  respects grows (onSetBreakpointsRequest request Arguments).
Proof. unfold onSetBreakpointsRequest. respect. Qed.

Lemma grows_onThreadsRequest request : respects grows (onThreadsRequest request).
Proof. unfold onThreadsRequest. respect. Qed.

Lemma grows_launchProgram request Arguments program :
  respects grows (launchProgram request Arguments program).
Proof. unfold launchProgram. respect. Qed.

#[local] Hint Resolve grows_launchProgram : respects.

Lemma grows_onLaunchRequest request Arguments :
  respects grows (onLaunchRequest request Arguments).
Proof. unfold onLaunchRequest. respect. Qed.

Lemma grows_signalDisconnect : respects grows signalDisconnect.
Proof. unfold signalDisconnect. respect. Qed.

Lemma grows_detach : respects grows detach.
Proof. unfold detach. respect. Qed.

#[local] Hint Resolve grows_signalDisconnect grows_detach : respects.

Lemma grows_onDisconnectRequest request :
  respects grows (onDisconnectRequest request).
Proof. unfold onDisconnectRequest. respect. Qed.

Lemma grows_onInitializeRequest request :
  respects grows (onInitializeRequest request).
Proof. apply grows_send. Qed.

Lemma grows_onSetExceptionBreakpointsRequest request :
  respects grows (onSetExceptionBreakpointsRequest request).
Proof. apply grows_send. Qed.

Lemma grows_sendUnsupportedErrorResponse request :
  respects grows (sendUnsupportedErrorResponse request).
Proof. apply grows_send. Qed.

Lemma grows_sendNotYetImplementedErrorResponse request :
  respects grows (sendNotYetImplementedErrorResponse request).
Proof. apply grows_send. Qed.
End GrowsHandlers.

#[global] Hint Resolve grows_onVariablesRequest grows_onStackTraceRequest
  grows_onScopesRequest grows_onSetBreakpointsRequest grows_onThreadsRequest
  grows_onLaunchRequest grows_onDisconnectRequest grows_onInitializeRequest
  grows_onSetExceptionBreakpointsRequest grows_sendUnsupportedErrorResponse
  grows_sendNotYetImplementedErrorResponse : respects.

Section UntilStop.
Context `{Ext : External}.

Lemma doCommand_grows command s :
  (∀ d, debugger s = Some d →
        processExited (debugger_Command d command).1 = true) →
  grows s (exec (doCommand command) s).
Proof.
  intros Hexit. unfold exec. destruct (debugger s) as [d|] eqn:Hd.
  - rewrite (doCommand_exited _ _ _ Hd (Hexit d eq_refl)).
    by apply grows_same_handles.
  - rewrite (doCommand_no_debugger _ _ Hd). reflexivity.
Qed.

Lemma noHandles_same_handles s s' :
  stackFrameHandles s' = stackFrameHandles s →
  variableHandles s' = variableHandles s →
  noHandles s → noHandles s'.
Proof. unfold noHandles. by intros -> ->. Qed.

(** A response followed by doCommand, as in the step handlers. *)
Lemma respond_doCommand_grows m command s :
  (∀ d, debugger s = Some d →
        processExited (debugger_Command d command).1 = true) →
  grows s ((send m;; doCommand command) s).2.
Proof.
  intros Hexit. rewrite bind_send.
  etrans; [|by apply doCommand_grows].
  by apply grows_same_handles.
Qed.

Lemma respond_doCommand_clears m command s d :
  debugger s = Some d →
  processExited (debugger_Command d command).1 = false →
  noHandles ((send m;; doCommand command) s).2.
Proof.
  intros Hd Hexit. rewrite bind_send.
  by destruct (doCommand_stopped command (set_trace (trace s ++ [Send m]) s) d
                 Hd Hexit) as (rest & Hno & _ & _).
Qed.

Lemma runsToStop_false request command s :
  commandOf request s = Some command →
  runsToStop request s = false →
  ∀ d, debugger s = Some d →
       processExited (debugger_Command d command).1 = true.
Proof.
  unfold runsToStop. intros -> Hrun d Hd. rewrite Hd in Hrun.
  by apply negb_false_iff.
Qed.

Lemma runsToStop_true request s :
  runsToStop request s = true →
  ∃ command d, commandOf request s = Some command ∧ debugger s = Some d ∧
               processExited (debugger_Command d command).1 = false.
Proof.
  unfold runsToStop. destruct (commandOf request s) as [command|]; [|done].
  destruct (debugger s) as [d|]; [|done].
  intros Hrun%negb_true_iff. by exists command, d.
Qed.

Lemma dispatch_grows request s :
  runsToStop request s = false → grows s (dispatch request s).2.
Proof.
  intros Hrun.
  destruct request; cbn [dispatch];
    lazymatch goal with
    | |- grows _ (onConfigurationDoneRequest _ _).2 => idtac
    | |- grows _ (onContinueRequest _ _).2 =>
      unfold onContinueRequest; apply respond_doCommand_grows;
      eapply runsToStop_false; [|exact Hrun]; reflexivity
    | |- grows _ (onNextRequest _ _).2 =>
      unfold onNextRequest; apply respond_doCommand_grows;
      eapply runsToStop_false; [|exact Hrun]; reflexivity
    | |- grows _ (onStepInRequest _ _).2 =>
      unfold onStepInRequest; apply respond_doCommand_grows;
      eapply runsToStop_false; [|exact Hrun]; reflexivity
    | |- grows _ (onStepOutRequest _ _).2 =>
      unfold onStepOutRequest; apply respond_doCommand_grows;
      eapply runsToStop_false; [|exact Hrun]; reflexivity
    | |- grows ?s (?m ?s).2 =>
      let H := fresh in
      assert (respects grows m) as H by eauto with respects; apply H
    end.
  (* configurationDone *)
  unfold onConfigurationDoneRequest. rewrite bind_gets.
  destruct (stopOnEntry (args s)) eqn:Hstop; cbn [when].
  - rewrite bind_send, bind_send, bind_gets. simpl. rewrite Hstop. simpl.
    by apply grows_same_handles.
  - rewrite bind_skip, bind_send, bind_gets. simpl. rewrite Hstop. simpl.
    etrans; [|apply doCommand_grows].
    + by apply grows_same_handles.
    + eapply (runsToStop_false (ConfigurationDoneRequest r)); [|done].
      simpl. by rewrite Hstop.
Qed.

Lemma dispatch_clears request s :
  runsToStop request s = true → noHandles (dispatch request s).2.
Proof.
  intros (command & d & Hc & Hd & Hexit)%runsToStop_true.
  destruct request; try discriminate Hc; cbn [dispatch];
    unfold onContinueRequest, onNextRequest, onStepInRequest, onStepOutRequest;
    try (injection Hc as <-; by eapply respond_doCommand_clears).
  unfold onConfigurationDoneRequest. rewrite bind_gets.
  simpl in Hc. destruct (stopOnEntry (args s)) eqn:Hstop; [done|].
  injection Hc as <-. cbn [when].
  rewrite bind_skip, bind_send, bind_gets. simpl. rewrite Hstop. simpl.
  by destruct (doCommand_stopped api.Continue
                 (set_trace
                    (trace s ++
                     [Send (dap.ConfigurationDoneResponse (newResponse r))]) s) d
                 Hd Hexit) as (rest & Hno & _ & _).
Qed.

Lemma handleRequest_handles request s :
  stackFrameHandles (handleRequest request s).2 =
    stackFrameHandles (dispatch request s).2 ∧
  variableHandles (handleRequest request s).2 =
    variableHandles (dispatch request s).2.
Proof.
  unfold handleRequest. by destruct (dispatch request s) as [[[]|ierr] s'].
Qed.

Lemma handleRequest_grows request s :
  runsToStop request s = false → grows s (exec (handleRequest request) s).
Proof.
  intros Hrun. destruct (handleRequest_handles request s) as [Hf Hv].
  etrans; [by apply dispatch_grows|].
  by apply grows_same_handles.
Qed.

Lemma handleRequest_clears request s :
  runsToStop request s = true → noHandles (exec (handleRequest request) s).
Proof.
  intros Hrun. destruct (handleRequest_handles request s) as [Hf Hv].
  eapply noHandles_same_handles; [done..|]. by apply dispatch_clears.
Qed.

Lemma handleRequest_Ok request s :
  ∃ s', handleRequest request s = (Ok (), s').
Proof.
  unfold handleRequest. destruct (dispatch request s) as [[[]|ierr] s'];
    eexists; reflexivity.
Qed.

Lemma serveRequests_grows requests : ∀ s,
  noStop requests s = true → grows s (exec (serveRequests requests) s).
Proof.
  induction requests as [|request rest IH]; intros s Hno.
  - reflexivity.
  - simpl in Hno. apply andb_true_iff in Hno as [Hrun%negb_true_iff Hrest].
    unfold exec. cbn [serveRequests].
    destruct (handleRequest_Ok request s) as [s' Hs'].
    rewrite (bind_Ok _ _ _ _ _ Hs').
    etrans; [by apply handleRequest_grows|].
    unfold exec at 1. rewrite Hs'. simpl. apply IH.
    unfold exec in Hrest. by rewrite Hs' in Hrest.
Qed.

(** The registries of a new server are well formed, and stay so. *)
Lemma wfHandles_NewServer processArgs cfg : wfHandles (NewServer processArgs cfg).
Proof. split; apply handles_facts.wf_new. Qed.

Lemma wfHandles_doCommand command s :
  wfHandles s → wfHandles (exec (doCommand command) s).
Proof.
  intros Hwf. destruct (debugger s) as [d|] eqn:Hd.
  - destruct (processExited (debugger_Command d command).1) eqn:Hexit.
    + apply doCommand_grows; [|done].
      intros d' Hd'. rewrite Hd in Hd'. by injection Hd' as <-.
    + destruct (doCommand_stopped _ _ _ Hd Hexit) as (rest & [Hf Hv] & _ & _).
      split; intros p [x Hx].
      * specialize (Hf (Z.pos p)). simpl in Hf. congruence.
      * specialize (Hv (Z.pos p)). simpl in Hv. congruence.
  - unfold exec. by rewrite doCommand_no_debugger.
Qed.

(** C1.  From a server with well-formed registries, as long as the
    requests handled run no command to a stop, every handle that resolved
    still resolves to the same payload.  Then a command run through
    doCommand that does not end in the exit of the process leaves both
    registries empty, and it resets both before anything it sends: the
    trace of the command starts with the call on the debugger and the two
    resets, and the stopped event (sent whenever doCommand returns) comes
    after them.  The same holds for every request that runs such a
    command. *)
Theorem handles_resolve_until_stop (requests : list RequestMessage) (s : Server) :
  wfHandles s →
  noStop requests s = true →
  keepsHandles s (exec (serveRequests requests) s) ∧
  (∀ command d,
     debugger (exec (serveRequests requests) s) = Some d →
     processExited (debugger_Command d command).1 = false →
     ∃ rest,
       noHandles (exec (doCommand command) (exec (serveRequests requests) s)) ∧
       trace (exec (doCommand command) (exec (serveRequests requests) s)) =
       trace (exec (serveRequests requests) s) ++
         [OnDebugger (CallCommand command);
          ResetHandles StackFrameHandles;
          ResetHandles VariableHandles] ++ rest ∧
       ((doCommand command (exec (serveRequests requests) s)).1 = Ok () →
        ∃ body, Send (dap.StoppedEvent (newEvent "stopped") body) ∈ rest ∧
                dap.AllThreadsStopped body = true)) ∧
  (∀ request,
     runsToStop request (exec (serveRequests requests) s) = true →
     noHandles (exec (handleRequest request) (exec (serveRequests requests) s))).
Proof.
  intros Hwf Hno. split; [|split].
  - by apply serveRequests_grows.
  - intros command d Hd Hexit. by apply (doCommand_stopped _ _ d).
  - intros request. apply handleRequest_clears.
Qed.
End UntilStop.

Section Launch.
Context `{Ext : External}.

Lemma programMissing_assertString Arguments :
  programMissing Arguments →
  assertString (Arguments !! "program") = None ∨
  assertString (Arguments !! "program") = Some "".
Proof.
  intros [->|[->|(x & -> & Hx)]]; [by left|by right|left].
  destruct x; try done. by destruct (Hx s).
Qed.


Lemma launchProgram_optional request Arguments program s :
  ∃ s3 k,
    launchProgram request Arguments program s = k s3 ∧
    trace s3 = trace s ∧ debugger s3 = debugger s ∧
    k = (let parsed :=
           match Arguments !! "args" with
           | None => inl []
           | Some (jslice argsParsed) =>
             match parseArgs argsParsed with
             | inl targetArgs => inl targetArgs
             | inr arg =>
               inr ("value '" +:+ fmt_v arg
                    +:+ "' in 'args' attribute in debug configuration is not a string.")
             end
           | Some args =>
             inr ("'args' attribute '" +:+ fmt_v args
                  +:+ "' in debug configuration is not an array.")
           end in
         match parsed with
         | inr details =>
           sendErrorResponse request FailedToLaunch "Failed to launch" details
         | inl targetArgs =>
           modify (set_config_ProcessArgs (program :: targetArgs));;
           modify (λ s, set_config_Debugger
                          (mkDebuggerConfig (filepath_Dir program)
                                            (AttachPid (config_Debugger s))) s);;
           cfg ← gets config_Debugger;
           processArgs ← gets config_ProcessArgs;
           emit (NewDebugger cfg processArgs);;
           match debugger_New cfg processArgs with
           | inr err =>
             modify (set_debugger None);;
             sendErrorResponse request FailedToLaunch "Failed to launch" (Error err)
           | inl d =>
             modify (set_debugger (Some d));;
             send (dap.InitializedEvent (newEvent "initialized"));;
             send (dap.LaunchResponse (newResponse request))
           end
         end).
Proof.
  unfold launchProgram.
  assert (onlyArgs (match assertBool (Arguments !! "stopOnEntry") with
                    | Some stop =>
                      modify (λ s, set_args (mkLaunchAttachArgs stop
                                (stackTraceDepth (args s))
                                (showGlobalVariables (args s))) s)
                    | None => skip
                    end)) as H1
    by (destruct (assertBool _); intros ?; by eexists).
  assert (onlyArgs (match assertFloat64 (Arguments !! "stackTraceDepth") with
                    | Some depth =>
                      if float64_positive depth then
                        modify (λ s, set_args (mkLaunchAttachArgs
                                  (stopOnEntry (args s)) (float64_int depth)
                                  (showGlobalVariables (args s))) s)
                      else skip
                    | None => skip
                    end)) as H2
    by (destruct (assertFloat64 _) as [depth|];
        [destruct (float64_positive depth)|]; intros ?; by eexists).
  assert (onlyArgs (match assertBool (Arguments !! "showGlobalVariables") with
                    | Some globals =>
                      modify (λ s, set_args (mkLaunchAttachArgs
                                (stopOnEntry (args s))
                                (stackTraceDepth (args s)) globals) s)
                    | None => skip
                    end)) as H3
    by (destruct (assertBool (Arguments !! "showGlobalVariables"));
        intros ?; by eexists).
  destruct (H1 s) as (s1 & Hr1 & Ht1 & Hd1).
  destruct (H2 s1) as (s2 & Hr2 & Ht2 & Hd2).
  destruct (H3 s2) as (s3 & Hr3 & Ht3 & Hd3).
  eexists s3, _.
  rewrite (bind_Ok _ _ _ _ _ Hr1), (bind_Ok _ _ _ _ _ Hr2),
    (bind_Ok _ _ _ _ _ Hr3).
  split; [reflexivity|]. split; [congruence|]. split; [congruence|reflexivity].
Qed.

Lemma launchProgram_args_ill_typed request Arguments program s :
  argsIllTyped Arguments →
  ∃ s1 details,
    launchProgram request Arguments program s =
    (Ok (), set_trace (trace s1 ++
                       [Send (errorResponse request FailedToLaunch
                                "Failed to launch" details)]) s1) ∧
    trace s1 = trace s ∧ debugger s1 = debugger s.
Proof.
  intros (x & Hx & Hill).
  destruct (launchProgram_optional request Arguments program s)
    as (s3 & k & -> & Ht & Hd & ->).
  exists s3. rewrite Hx.
  destruct x as [|b|f|str|argsParsed|m];
    try (eexists; split; [cbv zeta; cbn iota; reflexivity|done]).
  destruct (Hill argsParsed eq_refl) as [arg ->].
  eexists; split; [cbv zeta; cbn iota; reflexivity|done].
Qed.

Lemma onLaunchRequest_lenient request Arguments key s :
  lenientKey key Arguments →
  onLaunchRequest request Arguments s =
  onLaunchRequest request (delete key Arguments) s.
Proof.
  intros Hkey.
  unfold onLaunchRequest, launchMode, launchOutput, launchProgram.
  destruct Hkey as [[-> Hk]|[[-> Hk]|[-> Hk]]];
    rewrite !lookup_delete_eq, ?Hk;
    rewrite !lookup_delete_ne by done; reflexivity.
Qed.

Lemma onLaunchRequest_buildFlags request Arguments s program debugname x :
  assertString (Arguments !! "program") = Some program → program ≠ "" →
  buildMode Arguments = true →
  filepath_Abs (launchOutput Arguments) = inl debugname →
  Arguments !! "buildFlags" = Some x → (∀ flags, x ≠ jstring flags) →
  onLaunchRequest request Arguments s =
  (Ok (),
   set_trace
     (trace s ++
      [Send (errorResponse request FailedToLaunch "Failed to launch"
               ("'buildFlags' attribute '" +:+ fmt_v x
                +:+ "' in debug configuration is not a string."))]) s).
Proof.
  intros Hp Hne Hmode Habs Hflags Hx. unfold onLaunchRequest.
  rewrite Hp. destruct program as [|a p]; [done|].
  cbv zeta. fold (buildMode Arguments). rewrite Hmode, Habs, Hflags.
  destruct x as [|b|f|flags|l|m]; try reflexivity.
  by destruct (Hx flags).
Qed.

Lemma onLaunchRequest_args request Arguments s program :
  assertString (Arguments !! "program") = Some program → program ≠ "" →
  argsIllTyped Arguments →
  debugger (exec (onLaunchRequest request Arguments) s) = debugger s ∧
  ∃ pre m,
    trace (exec (onLaunchRequest request Arguments) s) =
      trace s ++ pre ++ [Send m] ∧
    (pre = [] ∨ ∃ test debugname pkgs flags, pre = [Build test debugname pkgs flags]) ∧
    ((∃ details,
        m = errorResponse request FailedToLaunch "Failed to launch" details) ∨
     (∃ err, filepath_Abs (launchOutput Arguments) = inr err ∧
             m = internalErrorResponse (dap.req_Seq request) (Error err))).
Proof.
  intros Hp Hne Hargs. unfold onLaunchRequest, exec.
  rewrite Hp. destruct program as [|a p]; [done|].
  cbv zeta. fold (buildMode Arguments). destruct (buildMode Arguments).
  - destruct (filepath_Abs _) as [debugname|err] eqn:Habs.
    + destruct (Arguments !! "buildFlags") as [x|].
      * destruct x as [|b|f|flags|l|m];
          try (split; [reflexivity|]; eexists [], _;
               split; [reflexivity|]; split; [by left|left; by eexists]).
        cbv zeta. cbn iota. rewrite bind_emit.
        match goal with
        | |- context [match ?e with Some _ => _ | None => _ end] =>
          destruct e as [err|]
        end.
        { split; [reflexivity|]. eexists [_], _.
          split; [simpl; by rewrite <- app_assoc|].
          split; [right; by eexists _, _, _, _|left; by eexists]. }
        rewrite bind_modify.
        match goal with
        | |- context [launchProgram ?r ?A ?pr ?st] =>
          destruct (launchProgram_args_ill_typed r A pr st Hargs)
            as (s1 & details & -> & Ht & Hd)
        end.
        split; [simpl; by rewrite Hd|]. eexists [_], _.
        split; [simpl; rewrite Ht; simpl; by rewrite <- app_assoc|].
        split; [right; by eexists _, _, _, _|left; by eexists].
      * cbv zeta. cbn iota. rewrite bind_emit.
        match goal with
        | |- context [match ?e with Some _ => _ | None => _ end] =>
          destruct e as [err|]
        end.
        { split; [reflexivity|]. eexists [_], _.
          split; [simpl; by rewrite <- app_assoc|].
          split; [right; by eexists _, _, _, _|left; by eexists]. }
        rewrite bind_modify.
        match goal with
        | |- context [launchProgram ?r ?A ?pr ?st] =>
          destruct (launchProgram_args_ill_typed r A pr st Hargs)
            as (s1 & details & -> & Ht & Hd)
        end.
        split; [simpl; by rewrite Hd|]. eexists [_], _.
        split; [simpl; rewrite Ht; simpl; by rewrite <- app_assoc|].
        split; [right; by eexists _, _, _, _|left; by eexists].
    + split; [reflexivity|]. eexists [], _.
      split; [reflexivity|]. split; [by left|right; by eexists].
  - destruct (negb _).
    + split; [reflexivity|]. eexists [], _.
      split; [reflexivity|]. split; [by left|left; by eexists].
    + destruct (launchProgram_args_ill_typed request Arguments (String a p) s Hargs)
        as (s1 & details & -> & Ht & Hd).
      split; [done|]. eexists [], _.
      split; [simpl; by rewrite Ht|]. split; [by left|left; by eexists].
Qed.

End Launch.

(** * Handlers and the channels *)

Section Settles.
Context `{Ext : External}.

#[global] Instance settles_preorder : PreOrder settles.
Proof.
  split.
  - intros s Hready. done.
  - intros s1 s2 s3 H12 H23 Hready.
    destruct (H12 Hready) as (Hready2 & Hstop2 & Hcount2).
    destruct (H23 Hready2) as (Hready3 & Hstop3 & Hcount3).
    split; [done|]. split; congruence.
Qed.

Lemma closes_snoc c tr e :
  closes c (tr ++ [e]) = (closes c tr + (if isClose c e then 1 else 0))%nat.
Proof.
  unfold closes. rewrite filter_app, length_app. f_equal.
  rewrite filter_cons, filter_nil. by destruct (isClose c e).
Qed.

Lemma settles_same s s' :
  config_DisconnectChan s' = config_DisconnectChan s →
  disconnectChan s' = disconnectChan s →
  stopChan s' = stopChan s →
  closes DisconnectChan (trace s') = closes DisconnectChan (trace s) →
  settles s s'.
Proof.
  intros Hc Hd Hs Ht Hready. unfold disconnectReady, pending.
  rewrite Hc, Hd, Hs, Ht. done.
Qed.

Lemma settles_modify (g : Server → Server) :
  (∀ s, config_DisconnectChan (g s) = config_DisconnectChan s) →
  (∀ s, disconnectChan (g s) = disconnectChan s) →
  (∀ s, stopChan (g s) = stopChan s) →
  (∀ s, trace (g s) = trace s) →
  respects settles (modify g).
Proof.
  intros Hc Hd Hs Ht s. simpl. apply settles_same; auto. by rewrite Ht.
Qed.

Lemma settles_emit e :
  isClose DisconnectChan e = false → respects settles (emit e).
Proof.
  intros He s. simpl. apply settles_same; try done.
  simpl. rewrite closes_snoc, He. lia.
Qed.

Lemma settles_send m : respects settles (send m).
Proof. by apply settles_emit. Qed.

Lemma settles_sendErrorResponse request id summary details :
  respects settles (sendErrorResponse request id summary details).
Proof. apply settles_send. Qed.

Lemma settles_sendInternalErrorResponse seq details :
  respects settles (sendInternalErrorResponse seq details).
Proof. apply settles_send. Qed.

Lemma settles_createVariableHandle v : respects settles (createVariableHandle v).
Proof. intros s. by apply settles_same. Qed.

Lemma settles_createStackFrameHandle f :
  respects settles (createStackFrameHandle f).
Proof. intros s. by apply settles_same. Qed.

Lemma settles_onDebugger {A} c (f : Debugger → A * Debugger) :
  respects settles (onDebugger c f).
Proof.
  unfold onDebugger. apply respects_bind; [apply _|apply respects_gets; apply _|].
  intros [d|]; [|apply respects_panic; apply _].
  apply respects_bind; [apply _|by apply settles_emit|]. intros _.
  apply respects_bind;
    [apply _|apply settles_modify; intros s; reflexivity|]. intros _.
  apply respects_ret; apply _.
Qed.

Lemma settles_convertVariable v : respects settles (convertVariable v).
Proof.
  intros s. destruct (convertVariable_cases v) as [[value H]|[value [v' H]]];
    rewrite H; [reflexivity|].
  apply (settles_createVariableHandle v' s).
Qed.

(** signalDisconnect closes the channel when the config still points to
    it, and then the config does not point to it any more. *)
Lemma signalDisconnect_ready s :
  disconnectReady s →
  ∃ s', signalDisconnect s = (Ok (), s') ∧ settles s s' ∧
        config_DisconnectChan s' = None.
Proof.
  intros Hready. unfold signalDisconnect. rewrite bind_gets.
  destruct Hready as [Hc|[Hc Hd]]; rewrite Hc; cbn beta iota.
  - rewrite bind_skip, bind_gets.
    destruct (bool_decide (binaryToRemove s ≠ "")); cbn [when].
    + eexists. split; [reflexivity|]. split; [|done].
      apply (settles_emit (RemoveBinary _) eq_refl s).
    + eexists. split; [reflexivity|]. split; [reflexivity|done].
  - unfold close. rewrite !bind_assoc, bind_gets. cbn [chan]. rewrite Hd.
    cbn beta iota. rewrite !bind_assoc, bind_modify, bind_emit, bind_modify,
      bind_gets.
    destruct (bool_decide (_ ≠ "")); cbn [when].
    + eexists. split; [reflexivity|]. split; [|done].
      intros _. split; [by left|]. split; [done|].
      unfold pending. simpl. rewrite Hc, !closes_snoc. simpl. lia.
    + eexists. split; [reflexivity|]. split; [|done].
      intros _. split; [by left|]. split; [done|].
      unfold pending. simpl. rewrite Hc, closes_snoc. simpl. lia.
Qed.

Lemma settles_signalDisconnect : respects settles signalDisconnect.
Proof.
  intros s Hready. destruct (signalDisconnect_ready s Hready) as (s' & -> & H & _).
  by apply H.
Qed.
End Settles.

#[global] Hint Resolve settles_send settles_createVariableHandle
  settles_createStackFrameHandle settles_onDebugger
  settles_sendErrorResponse settles_sendInternalErrorResponse
  settles_convertVariable settles_signalDisconnect : respects.

#[global] Hint Extern 1 (respects settles (modify _)) =>
  apply settles_modify; intros ?; reflexivity : respects.

#[global] Hint Extern 1 (respects settles (emit _)) =>
  apply settles_emit; reflexivity : respects.

Section SettlesHandlers.
Context `{Ext : External}.

Lemma settles_mapChildren len cs : ∀ kvIndex children,
  respects settles (mapChildren len kvIndex cs children).
Proof.
  induction cs as [cs IH] using (induction_ltof1 _ length); unfold ltof in IH.
  intros kvIndex children. destruct cs as [|k [|c rest]]; cbn [mapChildren].
  - respect.
  - respect.
  - apply respects_bind; [apply _|respect|]. intros [key keyref].
    apply respects_bind; [apply _|respect|]. intros [val valref].
    destruct (_ && _); apply IH; simpl; lia.
Qed.

Lemma settles_listChildren indexed cs : ∀ i,
  respects settles (listChildren indexed i cs).
Proof.
  induction cs as [|c cs IH]; intros i; cbn [listChildren]; respect.
Qed.

Lemma settles_stackFramesLoop goroutineID frames : ∀ i,
  respects settles (stackFramesLoop goroutineID i frames).
Proof.
  induction frames as [|frame frames IH]; intros i; cbn [stackFramesLoop]; respect.
Qed.

Lemma settles_clearBreakpoints path existing :
  respects settles (clearBreakpoints path existing).
Proof.
  induction existing as [|bp rest IH]; cbn [clearBreakpoints]; respect.
Qed.

Lemma settles_createBreakpoints path wanted :
  respects settles (createBreakpoints path wanted).
Proof.
  induction wanted as [|want rest IH]; cbn [createBreakpoints]; respect.
Qed.

#[local] Hint Resolve settles_mapChildren settles_listChildren
  settles_stackFramesLoop settles_clearBreakpoints settles_createBreakpoints
  : respects.

Lemma settles_launchProgram request Arguments program :
  respects settles (launchProgram request Arguments program).
Proof. unfold launchProgram. respect. Qed.

Lemma settles_detach : respects settles detach.
Proof. unfold detach. respect. Qed.

Lemma settles_doCommand command : respects settles (doCommand command).
Proof. unfold doCommand, resetHandles. respect. Qed.

#[local] Hint Resolve settles_launchProgram settles_detach settles_doCommand
  : respects.

Lemma settles_dispatch request : respects settles (dispatch request).
Proof.
  destruct request; cbn [dispatch];
    unfold sendNotYetImplementedErrorResponse, sendUnsupportedErrorResponse,
      onInitializeRequest, onLaunchRequest, onDisconnectRequest,
      onSetBreakpointsRequest, onSetExceptionBreakpointsRequest,
      onConfigurationDoneRequest, onContinueRequest, onNextRequest,
      onStepInRequest, onStepOutRequest, onStackTraceRequest, onScopesRequest,
      scopesResponse, onVariablesRequest, getVariableHandle, onThreadsRequest;
    respect.
Qed.

Lemma settles_handleRequest request : respects settles (handleRequest request).
Proof.
  apply respects_handleRequest;
    [apply _|apply settles_sendInternalErrorResponse|apply settles_dispatch].
Qed.

Lemma serveRequests_settles requests : ∀ s,
  ∃ s', serveRequests requests s = (Ok (), s') ∧ settles s s'.
Proof.
  induction requests as [|request rest IH]; intros s.
  - exists s. split; reflexivity.
  - cbn [serveRequests].
    destruct (handleRequest_Ok request s) as [s1 Hs1].
    destruct (IH s1) as (s' & Hs' & Hsettles).
    exists s'. rewrite (bind_Ok _ _ _ _ _ Hs1). split; [done|].
    etrans; [|done].
    pose proof (settles_handleRequest request s) as H. by rewrite Hs1 in H.
Qed.

Lemma serveDAPCodec_ready requests s :
  disconnectReady s →
  ∃ s', serveDAPCodec requests s = (Ok (), s') ∧ settles s s'.
Proof.
  intros Hready. unfold serveDAPCodec.
  destruct (serveRequests_settles requests s) as (s1 & Hs1 & Hsettles1).
  destruct (signalDisconnect_ready s1 (proj1 (Hsettles1 Hready)))
    as (s' & Hs' & Hsettles' & _).
  exists s'. rewrite (bind_Ok _ _ _ _ _ Hs1). split; [done|]. by etrans.
Qed.

Lemma detach_Ok s : ∃ s', detach s = (Ok (), s') ∧ settles s s'.
Proof.
  pose proof (settles_detach s) as Hsettles. unfold detach in *.
  rewrite bind_gets in *. destruct (debugger s) as [d|] eqn:Hd.
  - rewrite bind_gets in *.
    rewrite (bind_Ok _ _ _ _ _ (onDebugger_Some _ _ _ _ Hd)) in *.
    eexists. split; [reflexivity|done].
  - eexists. split; [reflexivity|done].
Qed.

Lemma onDisconnectRequest_ready request s :
  disconnectReady s →
  ∃ s', onDisconnectRequest request s = (Ok (), s') ∧ settles s s'.
Proof.
  intros Hready. unfold onDisconnectRequest. rewrite bind_send, bind_gets.
  set (s0 := set_trace _ s).
  assert (settles s s0) as H0 by (by apply (settles_send _ s)).
  change (debugger s0) with (debugger s).
  destruct (debugger s) as [d|] eqn:Hd.
  - rewrite !bind_assoc.
    rewrite (bind_Ok _ _ _ _ _ (onDebugger_Some _ _ s0 d Hd)).
    set (s1 := set_debugger _ _).
    assert (settles s0 s1) as H1.
    { pose proof (settles_onDebugger (CallCommand api.Halt)
                    (λ d, debugger_Command d api.Halt) s0) as H.
      by rewrite (onDebugger_Some _ _ s0 d Hd) in H. }
    destruct (detach_Ok s1) as (s2 & Hs2 & H2).
    rewrite ?bind_assoc, (bind_Ok _ _ _ _ _ Hs2).
    assert (settles s s2) as Hs by (etrans; [done|]; by etrans).
    destruct (signalDisconnect_ready s2 (proj1 (Hs Hready)))
      as (s' & Hs' & Hsettles' & _).
    exists s'. split; [done|]. by etrans.
  - rewrite bind_skip.
    destruct (signalDisconnect_ready s0 (proj1 (H0 Hready)))
      as (s' & Hs' & Hsettles' & _).
    exists s'. split; [done|]. by etrans.
Qed.

(** Stop on an open stop channel. *)
Lemma Stop_open s :
  stopChan s = ChanOpen →
  ∃ s', Stop s = (Ok (), s') ∧ stopChan s' = ChanClosed ∧
        (disconnectReady s → disconnectReady s') ∧
        (closes DisconnectChan (trace s') + pending s' =
         closes DisconnectChan (trace s) + pending s)%nat.
Proof.
  intros Hopen. unfold Stop, close.
  rewrite bind_emit, !bind_assoc, bind_gets. cbn [chan]. simpl. rewrite Hopen.
  cbn beta iota. rewrite !bind_assoc, bind_modify, bind_emit, bind_gets.
  set (s1 := set_trace _ _).
  assert (stopChan s1 = ChanClosed ∧
          config_DisconnectChan s1 = config_DisconnectChan s ∧
          disconnectChan s1 = disconnectChan s ∧
          closes DisconnectChan (trace s1) = closes DisconnectChan (trace s))
    as (Hs1 & Hc1 & Hd1 & Ht1).
  { repeat split. simpl. rewrite !closes_snoc. simpl. lia. }
  assert (∃ s2, when (conn s1) (emit CloseConn) s1 = (Ok (), s2) ∧
                stopChan s2 = ChanClosed ∧
                config_DisconnectChan s2 = config_DisconnectChan s ∧
                disconnectChan s2 = disconnectChan s ∧
                closes DisconnectChan (trace s2) = closes DisconnectChan (trace s))
    as (s2 & Hs2 & Hstop2 & Hc2 & Hd2 & Ht2).
  { destruct (conn s1); cbn [when].
    - eexists. split; [reflexivity|]. repeat split; try done.
      subst s1. simpl. rewrite !closes_snoc. simpl. lia.
    - by exists s1. }
  rewrite (bind_Ok _ _ _ _ _ Hs2).
  destruct (detach_Ok s2) as (s' & Hs' & Hsettles).
  exists s'. split; [done|].
  assert (disconnectReady s → disconnectReady s2) as Hready2.
  { unfold disconnectReady. by rewrite Hc2, Hd2. }
  split; [|split].
  - pose proof (settles_detach s2) as H. rewrite Hs' in H. simpl in H.
    unfold settles, respects in H.
    (* detach does not touch the stop channel, ready or not *)
    clear -Hs' Hstop2. unfold detach in Hs'. rewrite bind_gets in Hs'.
    destruct (debugger s2) as [d|] eqn:Hd.
    + rewrite bind_gets in Hs'.
      rewrite (bind_Ok _ _ _ _ _ (onDebugger_Some _ _ _ _ Hd)) in Hs'.
      by injection Hs' as <-.
    + by injection Hs' as <-.
  - intros Hready. by apply Hsettles, Hready2.
  - clear Hsettles Hready2. unfold detach in Hs'. rewrite bind_gets in Hs'.
    unfold pending.
    destruct (debugger s2) as [d|] eqn:Hd.
    + rewrite bind_gets in Hs'.
      rewrite (bind_Ok _ _ _ _ _ (onDebugger_Some _ _ _ _ Hd)) in Hs'.
      injection Hs' as <-. simpl. rewrite closes_snoc, Ht2, Hc2. simpl. lia.
    + injection Hs' as <-. by rewrite Ht2, Hc2.
Qed.
End SettlesHandlers.

(** * Teardown *)

Section TeardownProofs.
Context `{Ext : External}.

Lemma stops_cons t ts :
  stops (t :: ts) = ((if isStop t then 1 else 0) + stops ts)%nat.
Proof. unfold stops. rewrite filter_cons. by destruct (isStop t). Qed.

Lemma teardown_ready t s :
  isStop t = false → disconnectReady s →
  ∃ s', teardown t s = (Ok (), s') ∧ settles s s'.
Proof.
  intros Ht Hready. destruct t as [| |request|requests]; [done|..]; cbn [teardown].
  - destruct (signalDisconnect_ready s Hready) as (s' & Hs' & Hsettles & _).
    by exists s'.
  - by apply onDisconnectRequest_ready.
  - by apply serveDAPCodec_ready.
Qed.

Lemma teardowns_safe ts : ∀ s,
  disconnectReady s →
  stops ts = 0%nat ∨ (stops ts = 1%nat ∧ stopChan s = ChanOpen) →
  ∃ s', teardowns ts s = (Ok (), s') ∧
        (closes DisconnectChan (trace s') + pending s' =
         closes DisconnectChan (trace s) + pending s)%nat.
Proof.
  induction ts as [|t ts IH]; intros s Hready Hstops.
  - by exists s.
  - cbn [teardowns]. rewrite stops_cons in Hstops.
    destruct (isStop t) eqn:Ht.
    + destruct t; try discriminate Ht. cbn [teardown].
      destruct Hstops as [Hstops|[Hstops Hopen]]; [lia|].
      destruct (Stop_open s Hopen) as (s1 & Hs1 & _ & Hready1 & Hcount1).
      destruct (IH s1 (Hready1 Hready)) as (s' & Hs' & Hcount'); [left; lia|].
      exists s'. rewrite (bind_Ok _ _ _ _ _ Hs1). split; [done|]. lia.
    + destruct (teardown_ready t s Ht Hready) as (s1 & Hs1 & Hsettles).
      destruct (Hsettles Hready) as (Hready1 & Hstop1 & Hcount1).
      destruct (IH s1 Hready1) as (s' & Hs' & Hcount').
      { destruct Hstops as [Hstops|[Hstops Hopen]]; [left; lia|right].
        split; [lia|congruence]. }
      exists s'. rewrite (bind_Ok _ _ _ _ _ Hs1). split; [done|]. lia.
Qed.

(** C9, amended.  From a server whose stop channel is open and whose
    disconnect channel is ready, any sequence of teardown calls (Stop,
    signalDisconnect, a disconnect request, a run of serveDAPCodec) with at
    most one Stop returns without a panic, and the disconnect channel is
    closed at most once more: the closes so far plus the one pending are
    as many as before. *)
Theorem teardown_with_one_Stop (ts : list Teardown) (s : Server) :
  channelsReady s →
  (stops ts ≤ 1)%nat →
  ∃ s', teardowns ts s = (Ok (), s') ∧
        (closes DisconnectChan (trace s') + pending s' =
         closes DisconnectChan (trace s) + pending s)%nat ∧
        (closes DisconnectChan (trace s') ≤ closes DisconnectChan (trace s) + 1)%nat.
Proof.
  intros [Hopen Hready] Hstops.
  destruct (teardowns_safe ts s Hready) as (s' & Hs' & Hcount).
  { destruct (stops ts) as [|[|n]]; [by left|by right|lia]. }
  exists s'. split; [done|]. split; [done|].
  assert (pending s ≤ 1)%nat
    by (unfold pending; destruct (config_DisconnectChan s); lia).
  lia.
Qed.
End TeardownProofs.

(** * Configuration done *)

Section ConfigurationDone.
Context `{Ext : External}.

Lemma doCommand_trace_prefix command s d :
  debugger s = Some d →
  ∃ rest, trace (exec (doCommand command) s) =
          trace s ++ OnDebugger (CallCommand command) :: rest.
Proof.
  intros Hd. destruct (processExited (debugger_Command d command).1) eqn:Hexit.
  - unfold exec. rewrite (doCommand_exited _ _ _ Hd Hexit). by eexists [_].
  - destruct (doCommand_stopped _ _ _ Hd Hexit) as (rest & _ & -> & _).
    by eexists (_ :: _ :: rest).
Qed.

(** C4, amended.  With stop-on-entry set, configurationDone sends the
    stopped event with reason "entry" and all threads stopped, then the
    response, and does nothing else.  Without it, the handler sends the
    response and then runs doCommand with the continue command: with a
    debugger the next effect is the continue command on the debugger, and
    without a debugger nothing more happens. *)
Theorem onConfigurationDoneRequest_order (request : dap.Request) (s : Server) :
  (stopOnEntry (args s) = true →
   onConfigurationDoneRequest request s =
   (Ok (),
    set_trace
      (trace s ++
       [Send (dap.StoppedEvent (newEvent "stopped")
                (dap.mkStoppedEventBody "entry" 1 "" true));
        Send (dap.ConfigurationDoneResponse (newResponse request))]) s)) ∧
  (stopOnEntry (args s) = false →
   onConfigurationDoneRequest request s =
     doCommand api.Continue
       (set_trace
          (trace s ++
           [Send (dap.ConfigurationDoneResponse (newResponse request))]) s) ∧
   (debugger s = None →
    onConfigurationDoneRequest request s =
    (Ok (),
     set_trace
       (trace s ++
        [Send (dap.ConfigurationDoneResponse (newResponse request))]) s)) ∧
   (∀ d, debugger s = Some d →
      ∃ rest,
        trace (exec (onConfigurationDoneRequest request) s) =
        trace s ++
          [Send (dap.ConfigurationDoneResponse (newResponse request));
           OnDebugger (CallCommand api.Continue)] ++ rest)).
Proof.
  split; intros Hstop.
  - unfold onConfigurationDoneRequest. rewrite bind_gets, Hstop. cbn [when].
    rewrite bind_send, bind_send, bind_gets. simpl. rewrite Hstop. simpl.
    unfold skip, set_trace; simpl. by rewrite <- app_assoc.
  - assert (onConfigurationDoneRequest request s =
            doCommand api.Continue
              (set_trace
                 (trace s ++
                  [Send (dap.ConfigurationDoneResponse (newResponse request))]) s))
      as Heq.
    { unfold onConfigurationDoneRequest. rewrite bind_gets, Hstop. cbn [when].
      rewrite bind_skip, bind_send, bind_gets. simpl. by rewrite Hstop. }
    split; [done|]. split.
    + intros Hd. rewrite Heq. by apply doCommand_no_debugger.
    + intros d Hd. unfold exec. rewrite Heq.
      destruct (doCommand_trace_prefix api.Continue
                  (set_trace
                     (trace s ++
                      [Send (dap.ConfigurationDoneResponse (newResponse request))])
                     s) d Hd) as (rest & Hrest).
      exists rest. unfold exec in Hrest. rewrite Hrest. simpl.
      by rewrite <- app_assoc.
Qed.
End ConfigurationDone.

(** * Every request is answered *)

Section ExtendsTrace.
Context `{Ext : External}.

#[global] Instance extendsTrace_preorder : PreOrder extendsTrace.
Proof.
  split.
  - intros s. exists []. by rewrite app_nil_r.
  - intros s1 s2 s3 [l1 H1] [l2 H2]. exists (l1 ++ l2).
    by rewrite H2, H1, app_assoc.
Qed.

Lemma extendsTrace_same s s' : trace s' = trace s → extendsTrace s s'.
Proof. intros H. exists []. rewrite app_nil_r. exact H. Qed.

Lemma extendsTrace_modify (g : Server → Server) :
  (∀ s, trace (g s) = trace s) → respects extendsTrace (modify g).
Proof. intros H s. simpl. apply extendsTrace_same, H. Qed.

Lemma extendsTrace_emit e : respects extendsTrace (emit e).
Proof. intros s. by exists [e]. Qed.

Lemma extendsTrace_send m : respects extendsTrace (send m).
Proof. apply extendsTrace_emit. Qed.

Lemma extendsTrace_sendErrorResponse request id summary details :
  respects extendsTrace (sendErrorResponse request id summary details).
Proof. apply extendsTrace_emit. Qed.

Lemma extendsTrace_sendInternalErrorResponse seq details :
  respects extendsTrace (sendInternalErrorResponse seq details).
Proof. apply extendsTrace_emit. Qed.

Lemma extendsTrace_createVariableHandle v :
  respects extendsTrace (createVariableHandle v).
Proof. intros s. simpl. by apply extendsTrace_same. Qed.

Lemma extendsTrace_createStackFrameHandle f :
  respects extendsTrace (createStackFrameHandle f).
Proof. intros s. simpl. by apply extendsTrace_same. Qed.

Lemma extendsTrace_onDebugger {A} c (f : Debugger → A * Debugger) :
  respects extendsTrace (onDebugger c f).
Proof.
  unfold onDebugger. apply respects_bind; [apply _|apply respects_gets; apply _|].
  intros [d|]; [|apply respects_panic; apply _].
  apply respects_bind; [apply _|apply extendsTrace_emit|]. intros _.
  apply respects_bind;
    [apply _|apply extendsTrace_modify; intros s; reflexivity|]. intros _.
  apply respects_ret; apply _.
Qed.

Lemma extendsTrace_close c : respects extendsTrace (close c).
Proof.
  unfold close. apply respects_bind; [apply _|apply respects_gets; apply _|].
  intros [|]; [|apply respects_panic; apply _].
  apply respects_bind; [apply _| |intros _; apply extendsTrace_emit].
  apply extendsTrace_modify; intros s; by destruct c.
Qed.

Lemma extendsTrace_convertVariable v : respects extendsTrace (convertVariable v).
Proof.
  intros s. destruct (convertVariable_cases v) as [[value H]|[value [v' H]]];
    rewrite H; [reflexivity|].
  apply (extendsTrace_createVariableHandle v' s).
Qed.
End ExtendsTrace.

#[global] Hint Resolve extendsTrace_emit extendsTrace_send
  extendsTrace_sendErrorResponse extendsTrace_sendInternalErrorResponse
  extendsTrace_createVariableHandle extendsTrace_createStackFrameHandle
  extendsTrace_onDebugger extendsTrace_close extendsTrace_convertVariable
  : respects.

#[global] Hint Extern 1 (respects extendsTrace (modify _)) =>
  apply extendsTrace_modify; intros ?; reflexivity : respects.

Section ExtendsTraceHandlers.
Context `{Ext : External}.

Lemma extendsTrace_mapChildren len cs : ∀ kvIndex children,
  respects extendsTrace (mapChildren len kvIndex cs children).
Proof.
  induction cs as [cs IH] using (induction_ltof1 _ length); unfold ltof in IH.
  intros kvIndex children. destruct cs as [|k [|c rest]]; cbn [mapChildren].
  - respect.
  - respect.
  - apply respects_bind; [apply _|respect|]. intros [key keyref].
    apply respects_bind; [apply _|respect|]. intros [val valref].
    destruct (_ && _); apply IH; simpl; lia.
Qed.

Lemma extendsTrace_listChildren indexed cs : ∀ i,
  respects extendsTrace (listChildren indexed i cs).
Proof.
  induction cs as [|c cs IH]; intros i; cbn [listChildren]; respect.
Qed.

Lemma extendsTrace_stackFramesLoop goroutineID frames : ∀ i,
  respects extendsTrace (stackFramesLoop goroutineID i frames).
Proof.
  induction frames as [|frame frames IH]; intros i; cbn [stackFramesLoop]; respect.
Qed.

Lemma extendsTrace_clearBreakpoints path existing :
  respects extendsTrace (clearBreakpoints path existing).
Proof.
  induction existing as [|bp rest IH]; cbn [clearBreakpoints]; respect.
Qed.

Lemma extendsTrace_createBreakpoints path wanted :
  respects extendsTrace (createBreakpoints path wanted).
Proof.
  induction wanted as [|want rest IH]; cbn [createBreakpoints]; respect.
Qed.

Lemma extendsTrace_launchProgram request Arguments program :
  respects extendsTrace (launchProgram request Arguments program).
Proof. unfold launchProgram. respect. Qed.

Lemma extendsTrace_signalDisconnect : respects extendsTrace signalDisconnect.
Proof. unfold signalDisconnect. respect. Qed.

Lemma extendsTrace_detach : respects extendsTrace detach.
Proof. unfold detach. respect. Qed.

Lemma extendsTrace_doCommand command : respects extendsTrace (doCommand command).
Proof. unfold doCommand, resetHandles. respect. Qed.
End ExtendsTraceHandlers.

#[global] Hint Resolve extendsTrace_mapChildren extendsTrace_listChildren
  extendsTrace_stackFramesLoop extendsTrace_clearBreakpoints
  extendsTrace_createBreakpoints extendsTrace_launchProgram
  extendsTrace_signalDisconnect extendsTrace_detach extendsTrace_doCommand
  : respects.

Section Answers.
Context `{Ext : External}.

Lemma answered_extends_r seq s1 s2 s3 :
  answered seq s1 s2 → extendsTrace s2 s3 → answered seq s1 s3.
Proof.
  intros (pre & m & post & H & Hm) [l Hl]. exists pre, m, (post ++ l).
  split; [|done]. rewrite Hl, H. by rewrite <- !app_assoc.
Qed.

Lemma answered_extends_l seq s1 s2 s3 :
  extendsTrace s1 s2 → answered seq s2 s3 → answered seq s1 s3.
Proof.
  intros [l Hl] (pre & m & post & H & Hm). exists (l ++ pre), m, post.
  split; [|done]. rewrite H, Hl. by rewrite <- !app_assoc.
Qed.

Lemma answered_extendsTrace seq s s' : answered seq s s' → extendsTrace s s'.
Proof. intros (pre & m & post & H & _). by eexists. Qed.

Lemma answers_send seq m : isResponseTo seq m = true → answers seq (send m).
Proof. intros Hm s. exists [], m, []. by split. Qed.

(** The response comes first, the rest only adds to the trace. *)
Lemma answers_bind_l {A B} seq (m : M A) (f : A → M B) :
  answers seq m → (∀ a, respects extendsTrace (f a)) → answers seq (m ≫= f).
Proof.
  intros Hm Hf s. unfold mbind, M_bind. specialize (Hm s).
  destruct (m s) as [[a|v] s1]; [|done].
  specialize (Hf a s1). destruct (f a s1) as [[b|v] s2]; simpl in Hf.
  - by eapply answered_extends_r.
  - etrans; [by eapply answered_extendsTrace|done].
Qed.

(** The response comes after a part that only adds to the trace. *)
Lemma answers_bind_r {A B} seq (m : M A) (f : A → M B) :
  respects extendsTrace m → (∀ a, answers seq (f a)) → answers seq (m ≫= f).
Proof.
  intros Hm Hf s. unfold mbind, M_bind. specialize (Hm s).
  destruct (m s) as [[a|v] s1]; simpl in Hm; [|done].
  specialize (Hf a s1). destruct (f a s1) as [[b|v] s2].
  - by eapply answered_extends_l.
  - by etrans.
Qed.

Lemma answers_panic {A} seq v : answers seq (@panic _ A v).
Proof. intros s. simpl. reflexivity. Qed.
End Answers.

(** Find the response of a handler: a send of a response answers, a bind
    whose first part is such a send answers on the left, any other bind
    on the right. *)
Section AnswersErrors.
Context `{Ext : External}.

Lemma answers_sendErrorResponse request id summary details :
  answers (dap.req_Seq request) (sendErrorResponse request id summary details).
Proof. apply answers_send. simpl. by apply bool_decide_eq_true_2. Qed.

Lemma answers_sendInternalErrorResponse seq details :
  answers seq (sendInternalErrorResponse seq details).
Proof. apply answers_send. simpl. by apply bool_decide_eq_true_2. Qed.
End AnswersErrors.

(** Find the response of a handler: a send of a response answers, a bind
    whose first part is such a send answers on the left, any other bind
    on the right. *)
Ltac is_response := simpl; apply bool_decide_eq_true_2; reflexivity.

Ltac answer :=
  repeat first
    [ apply answers_sendErrorResponse
    | apply answers_sendInternalErrorResponse
    | apply answers_send; is_response
    | apply answers_panic
    | match goal with
      | |- answers _ (send _ ≫= _) =>
        apply answers_bind_l; [apply answers_send; is_response|intros ?; respect]
      | |- answers _ (_ ≫= _) => apply answers_bind_r; [respect|intros ?]
      | |- answers _ (match ?x with _ => _ end) => destruct x
      | |- answers _ (let '(_, _) := ?x in _) => destruct x
      | |- answers _ (if ?x then _ else _) => destruct x
      end ].

Section AnswersHandlers.
Context `{Ext : External}.

Lemma answers_launchProgram request Arguments program :
  answers (dap.req_Seq request) (launchProgram request Arguments program).
Proof. unfold launchProgram. cbv zeta. answer. Qed.

Lemma answers_onLaunchRequest request Arguments :
  answers (dap.req_Seq request) (onLaunchRequest request Arguments).
Proof.
  unfold onLaunchRequest. cbv zeta.
  answer; apply answers_launchProgram.
Qed.

Lemma answers_onVariablesRequest request ref :
  answers (dap.req_Seq request) (onVariablesRequest request ref).
Proof. unfold onVariablesRequest, getVariableHandle. answer. Qed.

Lemma answers_onStackTraceRequest request Arguments :
  answers (dap.req_Seq request) (onStackTraceRequest request Arguments).
Proof. unfold onStackTraceRequest. cbv zeta. answer. Qed.

Lemma answers_onScopesRequest request FrameId :
  answers (dap.req_Seq request) (onScopesRequest request FrameId).
Proof. unfold onScopesRequest, scopesResponse. cbv zeta. answer. Qed.

Lemma answers_onSetBreakpointsRequest request Arguments :
  answers (dap.req_Seq request) (onSetBreakpointsRequest request Arguments).
Proof. unfold onSetBreakpointsRequest. answer. Qed.

Lemma answers_onThreadsRequest request :
  answers (dap.req_Seq request) (onThreadsRequest request).
Proof. unfold onThreadsRequest. answer. Qed.

Lemma answers_onConfigurationDoneRequest request :
  answers (dap.req_Seq request) (onConfigurationDoneRequest request).
Proof. unfold onConfigurationDoneRequest. answer. Qed.

Lemma answers_onDisconnectRequest request :
  answers (dap.req_Seq request) (onDisconnectRequest request).
Proof. unfold onDisconnectRequest. answer. Qed.

Lemma answers_dispatch request : answers (GetSeq request) (dispatch request).
Proof.
  destruct request; cbn [dispatch GetSeq];
    first [ apply answers_onLaunchRequest
          | apply answers_onVariablesRequest
          | apply answers_onStackTraceRequest
          | apply answers_onScopesRequest
          | apply answers_onSetBreakpointsRequest
          | apply answers_onThreadsRequest
          | apply answers_onConfigurationDoneRequest
          | apply answers_onDisconnectRequest
          | apply answers_sendInternalErrorResponse
          | unfold sendNotYetImplementedErrorResponse,
              sendUnsupportedErrorResponse, onInitializeRequest,
              onSetExceptionBreakpointsRequest, onContinueRequest,
              onNextRequest, onStepInRequest, onStepOutRequest; answer ].
Qed.
End AnswersHandlers.

Section AnsweredRequests.
Context `{Ext : External}.

(** X1.  handleRequest always returns, and by then a response carrying
    the sequence number of the request was sent: the response of the
    handler, an error response, or the internal error response of the
    recovered panic. *)
Theorem handleRequest_answers (request : RequestMessage) (s : Server) :
  ∃ s', handleRequest request s = (Ok (), s') ∧
        answered (GetSeq request) s s'.
Proof.
  unfold handleRequest. pose proof (answers_dispatch request s) as H.
  destruct (dispatch request s) as [[[]|ierr] s1].
  - by exists s1.
  - eexists. split; [reflexivity|].
    eapply answered_extends_l; [exact H|].
    apply (answers_sendInternalErrorResponse (GetSeq request) ierr s1).
Qed.
End AnsweredRequests.

(** * References of converted variables *)

Section References.
Context `{Ext : External}.

(** What convertVariable registers when it returns a reference: the
    variable itself, or for a complex number the variable with its two
    children. *)
Lemma convertVariable_registers (v : proc.Variable_ constantValue) s value ref s' :
  convertVariable v s = (Ok (value, ref), s') →
  ref ≠ 0 →
  ∃ v', ref = (handles.create v' (variableHandles s)).1 ∧
        s' = set_variableHandles (handles.create v' (variableHandles s)).2 s ∧
        proc.Children v' ≠ [] ∧
        proc.Kind v' = proc.Kind v ∧ proc.Name v' = proc.Name v ∧
        (isComplex (proc.Kind v) = false → v' = v).
Proof.
  unfold convertVariable, convertDefault.
  intros Hrun Hne.
  repeat case_match; simplify_eq;
    unfold mbind, M_bind, createVariableHandle, mret, M_ret in Hrun;
    simpl in Hrun; simplify_eq; try done;
    eexists; (split; [reflexivity|]); (split; [reflexivity|]);
    simpl; repeat split; try done; congruence.
Qed.
End References.

Section References2.
Context `{Ext : External}.

Lemma get_next_None {V} (hs : handles.handlesMap V) (v : V) :
  handles.wf hs → handles.get (handles.create v hs).1 hs = None.
Proof.
  intros Hwf. simpl. destruct (handles.handleToVal hs !! handles.nextHandle hs)
    as [x|] eqn:Hx; [|done].
  specialize (Hwf _ (ex_intro _ x Hx)). lia.
Qed.


Lemma rendered_independent (c : proc.Variable_ constantValue) s1 s2 :
  rendered c s1 = rendered c s2.
Proof.
  unfold rendered.
  by destruct (convertVariable_cases c) as [[value H]|[value [v' H]]];
    rewrite !H.
Qed.

Lemma reference_zero_independent (c : proc.Variable_ constantValue) s1 s2 :
  reference c s1 = 0 → reference c s2 = 0.
Proof.
  unfold reference.
  destruct (convertVariable_cases c) as [[value H]|[value [v' H]]];
    rewrite !H; [done|]. simpl. lia.
Qed.

Lemma convertVariable_Ok (c : proc.Variable_ constantValue) s :
  ∃ s', convertVariable c s = (Ok (rendered c s, reference c s), s').
Proof.
  unfold rendered, reference.
  destruct (convertVariable_cases c) as [[value H]|[value [v' H]]];
    rewrite H; by eexists.
Qed.

Lemma convertVariable_expandsTo (v : proc.Variable_ constantValue) s value ref s' :
  convertVariable v s = (Ok (value, ref), s') → ref ≠ 0 → expandsTo ref v s'.
Proof.
  intros Hrun Hne.
  destruct (convertVariable_registers v s value ref s' Hrun Hne)
    as (v' & -> & -> & Hchildren & Hkind & _ & Hsame).
  exists v'. split; [apply handles_facts.get_create_new|done].
Qed.

Lemma expandsTo_keeps ref c s s' :
  keepsHandles s s' → expandsTo ref c s → expandsTo ref c s'.
Proof.
  intros [_ Hkeep] (v' & Hget & H). exists v'. split; [by apply Hkeep|done].
Qed.

Lemma listChildren_lists indexed cs : ∀ i s,
  wfHandles s →
  ∃ entries s',
    listChildren indexed i cs s = (Ok entries, s') ∧
    wfHandles s' ∧ keepsHandles s s' ∧ trace s' = trace s ∧
    length entries = length cs ∧
    ∀ k c, cs !! k = Some c →
      ∃ e, entries !! k = Some e ∧
           lists s s'
             (if indexed then "[" +:+ fmt_d (i + Z.of_nat k) +:+ "]"
              else proc.Name c) c e.
Proof.
  induction cs as [|c cs IH]; intros i s Hwf.
  - exists [], s. split; [reflexivity|]. split; [done|].
    split; [by split|]. split; [done|]. split; [done|].
    intros k c Hk. by rewrite lookup_nil in Hk.
  - cbn [listChildren].
    destruct (convertVariable_Ok c s) as [s1 Hc].
    pose proof (grows_convertVariable c s Hwf) as [Hwf1 Hkeep1].
    rewrite Hc in Hwf1, Hkeep1. simpl in Hwf1, Hkeep1.
    assert (trace s1 = trace s) as Htrace1.
    { destruct (convertVariable_cases c) as [[value H]|[value [v' H]]];
        rewrite H in Hc; by simplify_eq. }
    destruct (IH (i + 1) s1 Hwf1)
      as (tl & s' & Htl & Hwf' & Hkeep' & Htrace' & Hlen & Hentries).
    eexists _, s'. split.
    { rewrite (bind_Ok _ _ _ _ _ Hc). cbn beta iota.
      rewrite (bind_Ok _ _ _ _ _ Htl). reflexivity. }
    split; [done|]. split.
    { destruct Hkeep1, Hkeep'. split; eauto. }
    split; [congruence|]. split; [simpl; by rewrite Hlen|].
    intros [|k] c' Hk; simpl in Hk.
    + injection Hk as <-. eexists. split; [reflexivity|].
      split; [simpl; by rewrite Z.add_0_r|]. split; [done|]. split; [done|].
      simpl. intros Hne.
      by eapply expandsTo_keeps, convertVariable_expandsTo.
    + destruct (Hentries k c' Hk) as (e & He & Hname & Hvalue & Hzero & Hexp).
      exists e. split; [done|]. split.
      { rewrite Hname. destruct indexed; [|done].
        by replace (i + 1 + Z.of_nat k) with (i + Z.of_nat (S k)) by lia. }
      split; [by rewrite Hvalue; apply rendered_independent|].
      split; [|done].
      rewrite Hzero. split; apply reference_zero_independent.
Qed.

Lemma variables_of_kind (v : proc.Variable_ constantValue) :
  proc.Kind v ≠ reflect.Map →
  match proc.Kind v with
  | reflect.Map =>
    mapChildren (Z.of_nat (length (proc.Children v))) 0 (proc.Children v) []
  | reflect.Slice | reflect.Array => listChildren true 0 (proc.Children v)
  | _ => listChildren false 0 (proc.Children v)
  end = listChildren (isIndexed (proc.Kind v)) 0 (proc.Children v).
Proof. intros Hkind. by destruct (proc.Kind v). Qed.

End References2.

Section MapListing.
Context `{Ext : External}.

Lemma reference_nonneg (c : proc.Variable_ constantValue) s : 0 ≤ reference c s.
Proof.
  unfold reference.
  destruct (convertVariable_cases c) as [[value H]|[value [v' H]]];
    rewrite H; simpl; lia.
Qed.

Lemma reference_nonzero_independent (c : proc.Variable_ constantValue) s1 s2 :
  bool_decide (reference c s1 ≠ 0) = bool_decide (reference c s2 ≠ 0).
Proof.
  apply bool_decide_ext. split; intros H H0; apply H;
    by eapply reference_zero_independent.
Qed.

Lemma convertVariable_trace (c : proc.Variable_ constantValue) s r s' :
  convertVariable c s = (r, s') → trace s' = trace s.
Proof.
  destruct (convertVariable_cases c) as [[value H]|[value [v' H]]];
    rewrite H; intros; by simplify_eq.
Qed.

Lemma mapChildren_pairs len s0
    (kvs : list (proc.Variable_ constantValue * proc.Variable_ constantValue)) :
  ∀ kvIndex children s,
    ∃ entries s',
      mapChildren len kvIndex (kvs ≫= λ kv, [kv.1; kv.2]) children s =
        (Ok (children ++ entries), s') ∧
      trace s' = trace s ∧
      length entries =
        (length kvs + length (filter (λ kv, bothExpandable s0 kv = true) kvs))%nat.
Proof.
  induction kvs as [|[k c] kvs IH]; intros kvIndex children s.
  - exists [], s. rewrite app_nil_r. by repeat split.
  - change (((k, c) :: kvs) ≫= λ kv, [kv.1; kv.2])
      with (k :: c :: (kvs ≫= λ kv, [kv.1; kv.2])).
    cbn [mapChildren].
    destruct (convertVariable_Ok k s) as [s1 Hk].
    destruct (convertVariable_Ok c s1) as [s2 Hc].
    rewrite (bind_Ok _ _ _ _ _ Hk). cbn beta iota.
    rewrite (bind_Ok _ _ _ _ _ Hc). cbn beta iota.
    assert (trace s2 = trace s) as Htrace
      by (rewrite (convertVariable_trace _ _ _ _ Hc);
          apply (convertVariable_trace _ _ _ _ Hk)).
    assert (bool_decide (reference k s > 0) && bool_decide (reference c s1 > 0)
            = bothExpandable s0 (k, c)) as ->.
    { unfold bothExpandable. simpl.
      rewrite (reference_nonzero_independent k s0 s),
        (reference_nonzero_independent c s0 s1).
      pose proof (reference_nonneg k s). pose proof (reference_nonneg c s1).
      f_equal; apply bool_decide_ext; lia. }
    rewrite filter_cons.
    destruct (bothExpandable s0 (k, c)) eqn:Hboth;
      [rewrite decide_True by done|rewrite decide_False by done];
      match goal with
      | |- context [mapChildren len ?i _ ?acc s2] =>
        destruct (IH i acc s2) as (entries & s' & -> & Htrace' & Hlen)
      end;
      rewrite <- app_assoc; eexists _, s';
      (split; [reflexivity|]); (split; [congruence|]);
      simpl; rewrite Hlen; simpl; lia.
Qed.

Lemma mapChildren_odd len
    (kvs : list (proc.Variable_ constantValue * proc.Variable_ constantValue))
    (last : proc.Variable_ constantValue) :
  ∀ kvIndex children s,
    ∃ s',
      mapChildren len kvIndex ((kvs ≫= λ kv, [kv.1; kv.2]) ++ [last]) children s =
        (Panic (indexOutOfRange len), s') ∧
      trace s' = trace s.
Proof.
  induction kvs as [|[k c] kvs IH]; intros kvIndex children s.
  - simpl. destruct (convertVariable_Ok last s) as [s1 Hk].
    rewrite (bind_Ok _ _ _ _ _ Hk). exists s1.
    split; [reflexivity|]. apply (convertVariable_trace _ _ _ _ Hk).
  - change ((((k, c) :: kvs) ≫= λ kv, [kv.1; kv.2]) ++ [last])
      with (k :: c :: ((kvs ≫= λ kv, [kv.1; kv.2]) ++ [last])).
    cbn [mapChildren].
    destruct (convertVariable_Ok k s) as [s1 Hk].
    destruct (convertVariable_Ok c s1) as [s2 Hc].
    rewrite (bind_Ok _ _ _ _ _ Hk). cbn beta iota.
    rewrite (bind_Ok _ _ _ _ _ Hc). cbn beta iota.
    assert (trace s2 = trace s) as Htrace
      by (rewrite (convertVariable_trace _ _ _ _ Hc);
          apply (convertVariable_trace _ _ _ _ Hk)).
    destruct (_ && _);
      match goal with
      | |- context [mapChildren len ?i _ ?acc s2] =>
        destruct (IH i acc s2) as (s' & -> & Htrace')
      end; exists s'; (split; [reflexivity|congruence]).
Qed.


(** X5.  For a registered map with an odd number of children, the read of
    the value that is missing panics; handleRequest recovers the panic and
    the request is answered with the internal error response of the index
    out of range, and with nothing else. *)
Theorem handleRequest_map_odd_children (request : dap.Request) (ref : Z)
    (v : proc.Variable_ constantValue)
    (kvs : list (proc.Variable_ constantValue * proc.Variable_ constantValue))
    (last : proc.Variable_ constantValue) (s : Server) :
  handles.get ref (variableHandles s) = Some v →
  proc.Kind v = reflect.Map →
  proc.Children v = (kvs ≫= (λ kv, [kv.1; kv.2])) ++ [last] →
  ∃ s',
    handleRequest (VariablesRequest request ref) s = (Ok (), s') ∧
    trace s' = trace s ++
      [Send (internalErrorResponse (dap.req_Seq request)
               (indexOutOfRange (Z.of_nat (length (proc.Children v)))))].
Proof.
  intros Hget Hkind Hchildren.
  destruct (mapChildren_odd (Z.of_nat (length (proc.Children v))) kvs last 0 [] s)
    as (s1 & Hrun & Htrace).
  assert (dispatch (VariablesRequest request ref) s =
          (Panic (indexOutOfRange (Z.of_nat (length (proc.Children v)))), s1))
    as Hdispatch.
  { cbn [dispatch]. unfold onVariablesRequest, getVariableHandle.
    rewrite bind_gets, Hget. cbn beta iota. rewrite Hkind.
    rewrite Hchildren in Hrun |- *. by rewrite (bind_Panic _ _ _ _ _ Hrun). }
  unfold handleRequest. rewrite Hdispatch. eexists. split; [reflexivity|].
  simpl. by rewrite Htrace.
Qed.
End MapListing.

Section Stale.
Context `{Ext : External}.

Lemma handleRequest_of_Ok request s s' :
  dispatch request s = (Ok (), s') → handleRequest request s = (Ok (), s').
Proof. intros H. unfold handleRequest. by rewrite H. Qed.

(** X6.  After a request that runs a command to a stop, every frame id and
    every variables reference is stale, whatever its value: a scopes
    request is answered with the error of the unknown frame id and a
    variables request with the error of the unknown reference, nothing
    else happens, and no call is made on the debugger. *)
Theorem stale_handles_are_rejected (request : RequestMessage) (s : Server)
    (r : dap.Request) (handle : Z) :
  runsToStop request s = true →
  handleRequest (ScopesRequest r handle) (exec (handleRequest request) s) =
    (Ok (),
     set_trace
       (trace (exec (handleRequest request) s) ++
        [Send (errorResponse r UnableToListLocals "Unable to list locals"
                 ("unknown frame id " +:+ fmt_d handle))])
       (exec (handleRequest request) s)) ∧
  handleRequest (VariablesRequest r handle) (exec (handleRequest request) s) =
    (Ok (),
     set_trace
       (trace (exec (handleRequest request) s) ++
        [Send (errorResponse r UnableToLookupVariable "Unable to lookup variable"
                 ("unknown reference " +:+ fmt_d handle))])
       (exec (handleRequest request) s)).
Proof.
  intros Hrun. destruct (handleRequest_clears request s Hrun) as [Hframes Hvars].
  split; apply handleRequest_of_Ok; cbn [dispatch].
  - unfold onScopesRequest. by rewrite bind_gets, Hframes.
  - unfold onVariablesRequest, getVariableHandle. by rewrite bind_gets, Hvars.
Qed.
End Stale.

Section Threads.
Context `{Ext : External}.

(** X7.  When the debugger lists the goroutines, the threads handler
    answers with a list of threads that is never empty: the thread
    "Dummy" with id 1 when there is no goroutine, and otherwise one thread
    per goroutine, in the order of the debugger, with the id of the
    goroutine and the name of the function of its user location, or
    file@line when the function is not resolved. *)
Theorem onThreadsRequest_threads (request : dap.Request) (s : Server)
    (d : Debugger) (gs : list proc.G) :
  debugger s = Some d →
  (debugger_Goroutines d 0 0).1 = inl gs →
  ∃ threads,
    onThreadsRequest request s =
      (Ok (),
       set_trace (trace s ++ [OnDebugger CallGoroutines;
                              Send (dap.ThreadsResponse (newResponse request) threads)])
         (set_debugger (Some (debugger_Goroutines d 0 0).2) s)) ∧
    threads ≠ [] ∧
    (gs = [] → threads = [dap.mkThread 1 "Dummy"]) ∧
    (gs ≠ [] →
     length threads = length gs ∧
     ∀ k g, gs !! k = Some g →
       ∃ t, threads !! k = Some t ∧
            dap.th_Id t = proc.g_ID g ∧
            dap.th_Name t =
              match proc.loc_Fn (proc.UserCurrent g) with
              | Some fn => proc.fn_Name fn
              | None => proc.loc_File (proc.UserCurrent g) +:+ "@"
                        +:+ fmt_d (proc.loc_Line (proc.UserCurrent g))
              end).
Proof.
  intros Hd Hgs. unfold onThreadsRequest. rewrite bind_gets, Hd. cbn beta iota.
  rewrite (bind_Ok _ _ _ _ _ (onDebugger_Some _ _ _ _ Hd)), Hgs.
  destruct gs as [|g0 gs].
  - eexists. split.
    { unfold send, emit, modify, set_trace, set_debugger; simpl.
      by rewrite <- app_assoc. }
    done.
  - exists ((λ g, dap.mkThread (proc.g_ID g) (threadName (proc.UserCurrent g)))
             <$> g0 :: gs).
    split.
    { unfold send, emit, modify, set_trace, set_debugger; simpl.
      by rewrite <- app_assoc. }
    split; [done|]. split; [done|]. intros _.
    split; [by rewrite length_fmap|].
    intros k g Hk. eexists. split.
    { rewrite list_lookup_fmap, Hk. reflexivity. }
    done.
Qed.
End Threads.

Section Breakpoints.
Context `{Ext : External}.

Lemma clearBreakpoints_calls path (existing : list api.Breakpoint) :
  ∀ s d, debugger s = Some d →
    ∃ r s' d' cleared rest,
      clearBreakpoints path existing s = (Ok r, s') ∧
      debugger s' = Some d' ∧
      filter (λ bp, ofFile path bp = true) existing = cleared ++ rest ∧
      trace s' = trace s ++ clearCalls cleared ∧
      (r = None → rest = []) ∧
      (r ≠ None → cleared ≠ []).
Proof.
  induction existing as [|bp existing IH]; intros s d Hd.
  - exists None, s, d, [], []. unfold clearCalls. simpl. rewrite app_nil_r.
    repeat split; done.
  - cbn [clearBreakpoints]. rewrite filter_cons.
    destruct (decide (api.bp_ID bp < 0)) as [Hid|Hid].
    { rewrite (bool_decide_eq_true_2 _ Hid).
      rewrite decide_False; [by apply (IH s d)|].
      unfold ofFile. rewrite (bool_decide_eq_false_2 (0 ≤ api.bp_ID bp)) by lia.
      done. }
    rewrite (bool_decide_eq_false_2 _ Hid).
    destruct (decide (api.bp_File bp = path)) as [Hfile|Hfile].
    + rewrite (bool_decide_eq_false_2 (api.bp_File bp ≠ path)) by tauto.
      rewrite decide_True.
      2:{ unfold ofFile. rewrite (bool_decide_eq_true_2 (0 ≤ api.bp_ID bp)) by lia.
          by rewrite (bool_decide_eq_true_2 _ Hfile). }
      rewrite (bind_Ok _ _ _ _ _ (onDebugger_Some _ _ _ _ Hd)).
      set (s1 := set_debugger _ _).
      destruct (debugger_ClearBreakpoint d bp).1 as [got|err].
      * destruct (IH s1 _ eq_refl)
          as (r & s' & d' & cleared & rest & -> & Hd' & Hfilter & Htrace & Hr).
        exists r, s', d', (bp :: cleared), rest.
        split; [done|]. split; [done|]. split; [by rewrite Hfilter|].
        split; [|split; [tauto|done]].
        rewrite Htrace. simpl. by rewrite <- app_assoc.
      * exists (Some err), s1, (debugger_ClearBreakpoint d bp).2, [bp],
          (filter (λ bp, ofFile path bp = true) existing).
        repeat split; done.
    + rewrite (bool_decide_eq_true_2 (api.bp_File bp ≠ path)) by done.
      rewrite decide_False; [by apply (IH s d)|].
      unfold ofFile. rewrite (bool_decide_eq_false_2 _ Hfile).
      by rewrite andb_false_r.
Qed.

Lemma createBreakpoints_calls path (wanted : list dap.SourceBreakpoint) :
  ∀ s d, debugger s = Some d →
    ∃ bps s',
      createBreakpoints path wanted s = (Ok bps, s') ∧
      trace s' = trace s ++ createCalls path wanted ∧
      Forall2 reports wanted bps.
Proof.
  induction wanted as [|want wanted IH]; intros s d Hd.
  - exists [], s. unfold createCalls. simpl. rewrite app_nil_r.
    repeat split; done.
  - cbn [createBreakpoints]. cbv zeta.
    rewrite (bind_Ok _ _ _ _ _ (onDebugger_Some _ _ _ _ Hd)).
    set (s1 := set_debugger _ _).
    destruct (IH s1 _ eq_refl) as (bps & s' & Hrun & Htrace & Hall).
    rewrite (bind_Ok _ _ _ _ _ Hrun).
    eexists _, s'. split; [reflexivity|]. split.
    { rewrite Htrace. simpl. by rewrite <- app_assoc. }
    constructor; [|done].
    destruct (debugger_CreateBreakpoint d _).1; [by left|by right].
Qed.

End Breakpoints.

Section FrameIds.
Context `{Ext : External}.

Lemma paginate_lookup {A} (StartFrame Levels : Z) (l : list A) j x :
  paginate StartFrame Levels l !! j = Some x →
  l !! (Z.to_nat StartFrame + j)%nat = Some x ∧
  (Levels > 0 → Z.of_nat j < Levels).
Proof.
  unfold paginate, min. intros Hj.
  assert (∃ l', (if bool_decide (StartFrame > 0)
                 then drop (Z.to_nat (if StartFrame <? Z.of_nat (length l)
                                      then StartFrame else Z.of_nat (length l))) l
                 else l) = l' ∧
                ∀ i y, l' !! i = Some y → l !! (Z.to_nat StartFrame + i)%nat = Some y)
    as (l' & Hl' & Hdrop).
  { eexists. split; [reflexivity|]. intros i y Hi.
    case_bool_decide as Hstart.
    - rewrite lookup_drop in Hi.
      destruct (Z.ltb_spec StartFrame (Z.of_nat (length l))); [done|].
      apply lookup_lt_Some in Hi. lia.
    - by replace (Z.to_nat StartFrame) with 0%nat by lia. }
  rewrite Hl' in Hj. clear Hl'. case_bool_decide as Hlevels.
  - apply lookup_take_Some in Hj as [Hj Hlt]. split; [by apply Hdrop|].
    intros _. destruct (Z.ltb_spec Levels (Z.of_nat (length l'))); lia.
  - split; [by apply Hdrop|]. lia.
Qed.

Lemma stackFramesLoop_ids goroutineID (frames : list proc.Stackframe) :
  ∀ i s,
    handles.wf (stackFrameHandles s) →
    ∃ stackFrames s',
      stackFramesLoop goroutineID i frames s = (Ok stackFrames, s') ∧
      trace s' = trace s ∧
      handles.wf (stackFrameHandles s') ∧
      (∀ h p, handles.get h (stackFrameHandles s) = Some p →
              handles.get h (stackFrameHandles s') = Some p) ∧
      ∀ k sf, stackFrames !! k = Some sf →
        handles.get (dap.sf_Id sf) (stackFrameHandles s') =
          Some (mkStackFrameRef goroutineID (i + Z.of_nat k)).
Proof.
  induction frames as [|frame frames IH]; intros i s Hwf.
  - exists [], s. split; [done|]. split; [done|]. split; [done|].
    split; [done|]. intros k sf Hk. by rewrite lookup_nil in Hk.
  - cbn [stackFramesLoop]. cbv zeta.
    set (f := mkStackFrameRef goroutineID i).
    set (s1 := set_stackFrameHandles (handles.create f (stackFrameHandles s)).2 s).
    assert (createStackFrameHandle f s =
            (Ok (handles.create f (stackFrameHandles s)).1, s1)) as Hcreate
      by reflexivity.
    rewrite (bind_Ok _ _ _ _ _ Hcreate).
    assert (handles.wf (stackFrameHandles s1)) as Hwf1
      by (by apply handles_facts.wf_create).
    destruct (IH (i + 1) s1 Hwf1)
      as (stackFrames & s' & Hrun & Htrace & Hwf' & Hkeep & Hids).
    rewrite (bind_Ok _ _ _ _ _ Hrun).
    eexists _, s'. split; [reflexivity|]. split; [done|]. split; [done|].
    split.
    + intros h p Hget. apply Hkeep. by apply handles_facts.get_create_old.
    + intros [|k] sf Hk; cbn [lookup list_lookup] in Hk; simplify_eq.
      * replace (i + Z.of_nat 0) with i by lia. cbn [dap.sf_Id].
        apply Hkeep, (handles_facts.get_create_new f).
      * rewrite (Hids k sf Hk). do 2 f_equal. lia.
Qed.

End FrameIds.

Section Scopes.
Context `{Ext : External}.

Lemma createVariableHandle_fresh (v w : proc.Variable_ constantValue) s :
  handles.wf (variableHandles s) →
  let r := handles.create v (variableHandles s) in
  let r' := handles.create w r.2 in
  r.1 ≠ r'.1 ∧
  handles.get r.1 (variableHandles s) = None ∧
  handles.get r'.1 (variableHandles s) = None ∧
  handles.get r.1 r'.2 = Some v ∧
  handles.get r'.1 r'.2 = Some w.
Proof.
  intros Hwf. cbv zeta. split; [simpl; lia|].
  split; [by apply get_next_None|].
  split.
  { simpl. destruct (_ !! _) as [x|] eqn:Hx; [|done].
    specialize (Hwf _ (ex_intro _ x Hx)). lia. }
  split; [|apply handles_facts.get_create_new].
  apply handles_facts.get_create_old;
    [by apply handles_facts.wf_create|apply handles_facts.get_create_new].
Qed.

(** X10.  For a frame id that resolves, when the debugger returns the
    arguments and the locals of the frame and the globals are not shown,
    the scopes handler asks for the arguments and the locals of the
    goroutine and frame index of the id, and answers with the two scopes
    "Arguments" and "Locals", in this order.  Their references are new and
    distinct, and resolve afterwards to a variable with the arguments,
    and one with the locals, as children.  (The registries are declared
    outside server.go and modelled as the specification describes them.) *)
Theorem onScopesRequest_two_scopes (request : dap.Request) (FrameId : Z)
    (s : Server) (sf : stackFrame) (d : Debugger)
    (arguments locals : list (proc.Variable_ constantValue)) :
  let cfg := mkLoadConfig true 1 64 64 (-1) in
  let a := debugger_FunctionArguments d (goroutineID sf) (frameIndex sf) 0 cfg in
  let l := debugger_LocalVariables a.2 (goroutineID sf) (frameIndex sf) 0 cfg in
  wfHandles s →
  handles.get FrameId (stackFrameHandles s) = Some sf →
  debugger s = Some d →
  showGlobalVariables (args s) = false →
  a.1 = inl arguments →
  l.1 = inl locals →
  ∃ argRef locRef s',
    onScopesRequest request FrameId s = (Ok (), s') ∧
    trace s' = trace s ++
      [OnDebugger (CallFunctionArguments (goroutineID sf) (frameIndex sf));
       OnDebugger (CallLocalVariables (goroutineID sf) (frameIndex sf));
       Send (dap.ScopesResponse (newResponse request)
               [dap.mkScope "Arguments" argRef; dap.mkScope "Locals" locRef])] ∧
    argRef ≠ locRef ∧
    handles.get argRef (variableHandles s) = None ∧
    handles.get locRef (variableHandles s) = None ∧
    handles.get argRef (variableHandles s') =
      Some (scopeVariable "Arguments" arguments) ∧
    handles.get locRef (variableHandles s') = Some (scopeVariable "Locals" locals).
Proof.
  intros cfg a l [_ Hwf] Hget Hd Hglobals Ha Hl. subst cfg a l.
  unfold onScopesRequest, scopesResponse. cbv zeta.
  rewrite bind_gets, Hget. cbn beta iota.
  rewrite (bind_Ok _ _ _ _ _ (onDebugger_Some _ _ _ _ Hd)).
  cbn beta. rewrite Ha. cbn beta iota.
  erewrite bind_Ok by (apply onDebugger_Some; reflexivity).
  cbn beta. rewrite Hl. cbn beta iota.
  destruct (createVariableHandle_fresh (scopeVariable "Arguments" arguments)
              (scopeVariable "Locals" locals) s Hwf)
    as (Hne & Hfresh1 & Hfresh2 & Hget1 & Hget2).
  eexists _, _, _. split.
  { unfold mbind, M_bind, createVariableHandle, gets. simpl.
    rewrite Hglobals. reflexivity. }
  split; [simpl; by rewrite <- !app_assoc|].
  split; [exact Hne|]. split; [exact Hfresh1|]. split; [exact Hfresh2|].
  split; [exact Hget1|exact Hget2].
Qed.

(** X11.  When the globals are shown and the debugger returns the current
    package and its variables, the scopes handler asks for the variables
    that match "^<package>\." and adds a third scope "Globals (package
    <package>)"; its reference resolves afterwards to a variable whose
    children are the globals, in the order of the debugger, each with the
    prefix "<package>." trimmed from its name and otherwise as the
    debugger returned it. *)
Theorem onScopesRequest_globals (request : dap.Request) (FrameId : Z)
    (s : Server) (sf : stackFrame) (d : Debugger)
    (arguments locals globals : list (proc.Variable_ constantValue))
    (currPkg : string) :
  let cfg := mkLoadConfig true 1 64 64 (-1) in
  let a := debugger_FunctionArguments d (goroutineID sf) (frameIndex sf) 0 cfg in
  let l := debugger_LocalVariables a.2 (goroutineID sf) (frameIndex sf) 0 cfg in
  let p := debugger_CurrentPackage l.2 in
  let g := debugger_PackageVariables p.2 ("^" +:+ currPkg +:+ "\.") cfg in
  handles.get FrameId (stackFrameHandles s) = Some sf →
  debugger s = Some d →
  showGlobalVariables (args s) = true →
  a.1 = inl arguments →
  l.1 = inl locals →
  p.1 = inl currPkg →
  g.1 = inl globals →
  ∃ argRef locRef globRef children s',
    onScopesRequest request FrameId s = (Ok (), s') ∧
    trace s' = trace s ++
      [OnDebugger (CallFunctionArguments (goroutineID sf) (frameIndex sf));
       OnDebugger (CallLocalVariables (goroutineID sf) (frameIndex sf));
       OnDebugger CallCurrentPackage;
       OnDebugger (CallPackageVariables ("^" +:+ currPkg +:+ "\."));
       Send (dap.ScopesResponse (newResponse request)
               [dap.mkScope "Arguments" argRef; dap.mkScope "Locals" locRef;
                dap.mkScope ("Globals (package " +:+ currPkg +:+ ")") globRef])] ∧
    handles.get globRef (variableHandles s') =
      Some (scopeVariable ("Globals (package " +:+ currPkg +:+ ")") children) ∧
    length children = length globals ∧
    ∀ k v, globals !! k = Some v →
      children !! k =
        Some (withName v (strings_TrimPrefix (proc.Name v) (currPkg +:+ "."))).
Proof.
  intros cfg a l p g Hget Hd Hglobals Ha Hl Hp Hg. subst cfg a l p g.
  unfold onScopesRequest, scopesResponse. cbv zeta.
  rewrite bind_gets, Hget. cbn beta iota.
  rewrite (bind_Ok _ _ _ _ _ (onDebugger_Some _ _ _ _ Hd)).
  cbn beta. rewrite Ha. cbn beta iota.
  erewrite bind_Ok by (apply onDebugger_Some; reflexivity).
  cbn beta. rewrite Hl. cbn beta iota.
  eexists _, _, _, _, _. split.
  { unfold mbind at 1 2, M_bind at 1 2, createVariableHandle. cbn beta iota zeta.
    cbn [fst snd]. rewrite bind_gets.
    match goal with
    | |- context [showGlobalVariables (args ?x)] =>
      change (showGlobalVariables (args x)) with (showGlobalVariables (args s))
    end.
    rewrite Hglobals.
    erewrite bind_Ok by (apply onDebugger_Some; reflexivity).
    cbn beta. rewrite Hp. cbn beta iota.
    erewrite bind_Ok by (apply onDebugger_Some; reflexivity).
    cbn beta. rewrite Hg. cbn beta iota.
    unfold mbind, M_bind. cbn beta iota zeta. reflexivity. }
  split; [simpl; by rewrite <- !app_assoc|].
  split; [apply handles_facts.get_create_new|].
  split; [by rewrite length_fmap|].
  intros k v Hk. by rewrite list_lookup_fmap, Hk.
Qed.
End Scopes.

(** An effect of another form is none of the listed effects. *)
Ltac not_in_list H :=
  repeat (apply elem_of_cons in H as [H|H]; [discriminate H|]);
  by apply elem_of_nil in H.

Section LaunchOutcome.
Context `{Ext : External}.

(** The optional keys only write s.args. *)
Lemma launchProgram_keeps request Arguments program s :
  ∃ s3 k,
    launchProgram request Arguments program s = k s3 ∧
    s3 = set_args (args s3) s ∧
    k = (let parsed :=
           match Arguments !! "args" with
           | None => inl []
           | Some (jslice argsParsed) =>
             match parseArgs argsParsed with
             | inl targetArgs => inl targetArgs
             | inr arg =>
               inr ("value '" +:+ fmt_v arg
                    +:+ "' in 'args' attribute in debug configuration is not a string.")
             end
           | Some args =>
             inr ("'args' attribute '" +:+ fmt_v args
                  +:+ "' in debug configuration is not an array.")
           end in
         match parsed with
         | inr details =>
           sendErrorResponse request FailedToLaunch "Failed to launch" details
         | inl targetArgs =>
           modify (set_config_ProcessArgs (program :: targetArgs));;
           modify (λ s, set_config_Debugger
                          (mkDebuggerConfig (filepath_Dir program)
                                            (AttachPid (config_Debugger s))) s);;
           cfg ← gets config_Debugger;
           processArgs ← gets config_ProcessArgs;
           emit (NewDebugger cfg processArgs);;
           match debugger_New cfg processArgs with
           | inr err =>
             modify (set_debugger None);;
             sendErrorResponse request FailedToLaunch "Failed to launch" (Error err)
           | inl d =>
             modify (set_debugger (Some d));;
             send (dap.InitializedEvent (newEvent "initialized"));;
             send (dap.LaunchResponse (newResponse request))
           end
         end).
Proof.
  unfold launchProgram. destruct s.
  destruct (assertBool (Arguments !! "stopOnEntry")) as [stop|];
    (destruct (assertFloat64 (Arguments !! "stackTraceDepth")) as [depth|];
     [destruct (float64_positive depth)|]);
    destruct (assertBool (Arguments !! "showGlobalVariables")) as [globals|];
    rewrite ?bind_modify, ?bind_skip; cbn beta;
    rewrite ?bind_modify, ?bind_skip; cbn beta;
    rewrite ?bind_modify, ?bind_skip; cbn beta;
    match goal with
    | |- ∃ s3 k, ?rest ?st = _ ∧ _ => exists st, rest
    end; (split; [reflexivity|]); (split; reflexivity).
Qed.

Lemma launchProgram_outcome request Arguments program s :
  ∃ s' suffix,
    launchProgram request Arguments program s = (Ok (), s') ∧
    trace s' = trace s ++ suffix ∧
    binaryToRemove s' = binaryToRemove s ∧
    (∀ test debugname pkgs flags, Build test debugname pkgs flags ∉ suffix) ∧
    (launchSucceeded request s' suffix ∨ launchFailed request s s' suffix) ∧
    (launchSucceeded request s' suffix →
     head (config_ProcessArgs s') = Some program ∧
     WorkingDir (config_Debugger s') = filepath_Dir program).
Proof.
  destruct (launchProgram_keeps request Arguments program s)
    as (s3 & k & -> & Hs3 & ->).
  assert (trace s3 = trace s) as Ht by (by rewrite Hs3).
  assert (debugger s3 = debugger s) as Hd by (by rewrite Hs3).
  assert (binaryToRemove s3 = binaryToRemove s) as Hb by (by rewrite Hs3).
  clear Hs3. cbv zeta.
  assert (∀ details,
    ∃ s' suffix,
      sendErrorResponse request FailedToLaunch "Failed to launch" details s3 =
        (Ok (), s') ∧
      trace s' = trace s ++ suffix ∧
      binaryToRemove s' = binaryToRemove s ∧
      (∀ test debugname pkgs flags, Build test debugname pkgs flags ∉ suffix) ∧
      (launchSucceeded request s' suffix ∨ launchFailed request s s' suffix) ∧
      (launchSucceeded request s' suffix →
       head (config_ProcessArgs s') = Some program ∧
       WorkingDir (config_Debugger s') = filepath_Dir program))
    as Herror.
  { intros details. eexists _, [_]. split; [reflexivity|].
    split; [simpl; by rewrite Ht|]. split; [done|].
    split; [intros ???? ?%list_elem_of_singleton; done|].
    split; [|by intros (d & _ & _ & _ & ?)].
    right. eexists. split; [reflexivity|]. split.
    { simpl. by rewrite bool_decide_eq_true_2. }
    left. split; [done|]. intros ?? ?%list_elem_of_singleton; done. }
  destruct (Arguments !! "args") as [[| | | |argsParsed|]|]; try apply Herror.
  - destruct (parseArgs argsParsed) as [targetArgs|arg]; [|apply Herror].
    cbn iota. rewrite !bind_modify, !bind_gets, bind_emit.
    destruct (debugger_New _ _) as [d|err] eqn:Hnew.
    + eexists _, [_; _; _]. split; [reflexivity|].
      split; [simpl; rewrite Ht; by rewrite <- !app_assoc|]. split; [done|].
      split; [intros ???? H; not_in_list H|].
      split; [|done].
      left. exists d. split; [done|]. split; [exact Hnew|].
      split; [apply list_elem_of_here|done].
    + eexists _, [_; _]. split; [reflexivity|].
      split; [simpl; rewrite Ht; by rewrite <- !app_assoc|]. split; [done|].
      split; [intros ???? H; not_in_list H|].
      split; [|by intros (d & _ & _ & _ & ?)].
      right. eexists. split; [reflexivity|]. split.
      { simpl. by rewrite bool_decide_eq_true_2. }
      by right.
  - cbn iota. rewrite !bind_modify, !bind_gets, bind_emit.
    destruct (debugger_New _ _) as [d|err] eqn:Hnew.
    + eexists _, [_; _; _]. split; [reflexivity|].
      split; [simpl; rewrite Ht; by rewrite <- !app_assoc|]. split; [done|].
      split; [intros ???? H; not_in_list H|].
      split; [|done].
      left. exists d. split; [done|]. split; [exact Hnew|].
      split; [apply list_elem_of_here|done].
    + eexists _, [_; _]. split; [reflexivity|].
      split; [simpl; rewrite Ht; by rewrite <- !app_assoc|]. split; [done|].
      split; [intros ???? H; not_in_list H|].
      split; [|by intros (d & _ & _ & _ & ?)].
      right. eexists. split; [reflexivity|]. split.
      { simpl. by rewrite bool_decide_eq_true_2. }
      by right.
Qed.

Lemma launchSucceeded_cons request s' e suffix :
  sent_of e = None →
  launchSucceeded request s' suffix → launchSucceeded request s' (e :: suffix).
Proof.
  intros He (d & Hd & Hnew & Hin & Hsent). exists d.
  split; [done|]. split; [done|]. split; [by apply list_elem_of_further|].
  simpl. by rewrite He.
Qed.

(** X12.  Every launch request is answered, and it ends in one of two
    ways.  Either debugger.New succeeded on the config and the process
    arguments the launch has set: its debugger is attached, and the
    initialized event and then the launch response are the only messages
    sent.  Or exactly one message is sent, an error response to the
    request, and then either debugger.New was not called and the debugger
    is as before, or no debugger is attached. *)
Theorem onLaunchRequest_outcome (request : dap.Request)
    (Arguments : gmap string (jsonValue float64)) (s : Server) :
  ∃ s' suffix,
    onLaunchRequest request Arguments s = (Ok (), s') ∧
    trace s' = trace s ++ suffix ∧
    (launchSucceeded request s' suffix ∨ launchFailed request s s' suffix).
Proof.
  assert (∀ id summary details,
    ∃ s' suffix,
      sendErrorResponse request id summary details s = (Ok (), s') ∧
      trace s' = trace s ++ suffix ∧
      (launchSucceeded request s' suffix ∨ launchFailed request s s' suffix))
    as Herror.
  { intros id summary details. eexists _, [_]. split; [reflexivity|].
    split; [done|]. right. eexists. split; [reflexivity|]. split.
    { simpl. by rewrite bool_decide_eq_true_2. }
    left. split; [done|]. intros ?? ?%list_elem_of_singleton; done. }
  assert (∀ program,
    ∃ s' suffix,
      launchProgram request Arguments program s = (Ok (), s') ∧
      trace s' = trace s ++ suffix ∧
      (launchSucceeded request s' suffix ∨ launchFailed request s s' suffix))
    as Hlaunch.
  { intros program.
    destruct (launchProgram_outcome request Arguments program s)
      as (s' & suffix & Hrun & Htrace & _ & _ & H & _).
    by exists s', suffix. }
  unfold onLaunchRequest.
  destruct (assertString (Arguments !! "program")) as [[|c program]|];
    [apply Herror| |apply Herror].
  cbv zeta.
  destruct (ifaceEqString (launchMode Arguments) "debug"
            || ifaceEqString (launchMode Arguments) "test").
  - destruct (filepath_Abs (launchOutput Arguments)) as [debugname|err].
    2:{ eexists _, [_]. split; [reflexivity|]. split; [done|].
        right. eexists. split; [reflexivity|]. split.
        { simpl. by rewrite bool_decide_eq_true_2. }
        left. split; [done|]. intros ?? ?%list_elem_of_singleton; done. }
    assert (∀ buildFlags,
      ∃ s' suffix,
        (emit (Build (ifaceEqString (launchMode Arguments) "test") debugname
                 [String c program] buildFlags);;
         match (if ifaceEqString (launchMode Arguments) "test"
                then GoTestBuild else GoBuild)
                 debugname [String c program] buildFlags with
         | Some err =>
           sendErrorResponse request FailedToLaunch "Failed to launch"
             ("Build error: " +:+ Error err)
         | None =>
           modify (set_binaryToRemove debugname);;
           launchProgram request Arguments debugname
         end) s = (Ok (), s') ∧
        trace s' = trace s ++ suffix ∧
        (launchSucceeded request s' suffix ∨ launchFailed request s s' suffix))
      as Hbuild.
    { intros buildFlags. rewrite bind_emit.
      destruct ((if ifaceEqString (launchMode Arguments) "test"
                 then GoTestBuild else GoBuild) debugname _ buildFlags)
        as [err|].
      - eexists _, [_; _]. split; [reflexivity|].
        split; [simpl; by rewrite <- app_assoc|].
        right. eexists. split; [reflexivity|]. split.
        { simpl. by rewrite bool_decide_eq_true_2. }
        left. split; [done|]. intros ?? H. not_in_list H.
      - rewrite bind_modify.
        match goal with
        | |- context [launchProgram request Arguments debugname ?s1] =>
          destruct (launchProgram_outcome request Arguments debugname s1)
            as (s' & suffix & Hrun & Htrace & _ & Hnobuild & H & _)
        end.
        exists s', (Build (ifaceEqString (launchMode Arguments) "test") debugname
                      [String c program] buildFlags :: suffix).
        split; [done|]. split; [rewrite Htrace; simpl; by rewrite <- app_assoc|].
        destruct H as [H|(m & Hsent & Hfail & Hd)].
        + left. by apply launchSucceeded_cons.
        + right. exists m. split; [done|]. split; [done|].
          destruct Hd as [[Hd Hnew]|Hd]; [left|by right].
          split; [done|]. intros cfg pa [?|?]%elem_of_cons; [done|].
          by eapply Hnew. }
    destruct (Arguments !! "buildFlags") as [[| | |buildFlags| |]|];
      try apply Herror; apply Hbuild.
  - destruct (negb (ifaceEqString (launchMode Arguments) "exec"));
      [apply Herror|apply Hlaunch].
Qed.

(** X13.  In the modes "debug" and "test", when the output path resolves
    and buildFlags is absent or a string, the launch first builds the
    program to the absolute output path, as a test binary exactly in the
    mode "test".  When the build fails, the error response with the build
    error is the only other effect, and the binary to remove and the
    debugger are as before.  When it succeeds, the built binary is
    recorded as the binary to remove whatever happens next, nothing is
    built a second time, and a launch that succeeds runs the built binary,
    in the directory of that binary. *)
Theorem onLaunchRequest_builds (request : dap.Request)
    (Arguments : gmap string (jsonValue float64)) (s : Server)
    (program debugname buildFlags : string) :
  let test := ifaceEqString (launchMode Arguments) "test" in
  assertString (Arguments !! "program") = Some program →
  program ≠ "" →
  buildMode Arguments = true →
  filepath_Abs (launchOutput Arguments) = inl debugname →
  Arguments !! "buildFlags" = Some (jstring buildFlags) ∨
    (Arguments !! "buildFlags" = None ∧ buildFlags = "") →
  ∃ s' suffix,
    onLaunchRequest request Arguments s = (Ok (), s') ∧
    trace s' = trace s ++ Build test debugname [program] buildFlags :: suffix ∧
    match (if test then GoTestBuild else GoBuild) debugname [program] buildFlags with
    | Some err =>
      suffix = [Send (errorResponse request FailedToLaunch "Failed to launch"
                        ("Build error: " +:+ Error err))] ∧
      binaryToRemove s' = binaryToRemove s ∧
      debugger s' = debugger s
    | None =>
      binaryToRemove s' = debugname ∧
      (∀ test' debugname' pkgs flags,
         Build test' debugname' pkgs flags ∉ suffix) ∧
      (launchSucceeded request s' suffix →
       head (config_ProcessArgs s') = Some debugname ∧
       WorkingDir (config_Debugger s') = filepath_Dir debugname)
    end.
Proof.
  intros test Hp Hne Hmode Habs Hflags. unfold onLaunchRequest.
  rewrite Hp. destruct program as [|c program]; [done|].
  cbv zeta. fold (buildMode Arguments). rewrite Hmode, Habs.
  assert (match Arguments !! "buildFlags" with
          | None => inl ""
          | Some (jstring buildFlags) => inl buildFlags
          | Some buildFlagsArg => inr buildFlagsArg
          end = inl buildFlags) as ->.
  { by destruct Hflags as [->|[-> ->]]. }
  fold test. rewrite bind_emit.
  destruct ((if test then GoTestBuild else GoBuild) debugname _ buildFlags)
    as [err|].
  - eexists _, [_]. split; [reflexivity|].
    split; [simpl; by rewrite <- app_assoc|]. done.
  - rewrite bind_modify.
    match goal with
    | |- context [launchProgram request Arguments debugname ?s1] =>
      destruct (launchProgram_outcome request Arguments debugname s1)
        as (s' & suffix & Hrun & Htrace & Hbinary & Hnobuild & _ & Hlaunched)
    end.
    exists s', suffix. split; [done|].
    split; [rewrite Htrace; simpl; by rewrite <- app_assoc|].
    split; [done|]. split; [done|]. exact Hlaunched.
Qed.
End LaunchOutcome.

(** * The end of the serve flow *)

Section RunProofs.
Context `{Ext : External}.

Lemma signalDisconnect_removes s :
  disconnectReady s →
  ∃ s', signalDisconnect s = (Ok (), s') ∧
        config_DisconnectChan s' = None ∧
        closes DisconnectChan (trace s') =
          (closes DisconnectChan (trace s) + pending s)%nat ∧
        (binaryToRemove s' ≠ "" →
         last (trace s') = Some (RemoveBinary (binaryToRemove s'))).
Proof.
  intros Hready. unfold signalDisconnect. rewrite bind_gets.
  destruct Hready as [Hc|[Hc Hd]]; rewrite Hc; cbn beta iota.
  - rewrite bind_skip, bind_gets.
    case_bool_decide as Hb; cbn [when].
    + eexists. split; [reflexivity|]. split; [done|]. split.
      { unfold pending. rewrite Hc. simpl. rewrite closes_snoc. simpl. lia. }
      intros _. simpl. by rewrite last_snoc.
    + eexists. split; [reflexivity|]. split; [done|]. split.
      { unfold pending. rewrite Hc. lia. }
      intros Hb'. by destruct Hb.
  - unfold close. rewrite !bind_assoc, bind_gets. cbn [chan]. rewrite Hd.
    cbn beta iota. rewrite !bind_assoc, bind_modify, bind_emit, bind_modify,
      bind_gets.
    case_bool_decide as Hb; cbn [when].
    + eexists. split; [reflexivity|]. split; [done|]. split.
      { unfold pending. rewrite Hc. simpl. rewrite !closes_snoc. simpl. lia. }
      intros _. simpl. by rewrite last_snoc.
    + eexists. split; [reflexivity|]. split; [done|]. split.
      { unfold pending. rewrite Hc. simpl. rewrite closes_snoc. simpl. lia. }
      intros Hb'. by destruct Hb.
Qed.

(** X14.  The goroutine of Run, started on a server whose disconnect
    channel is ready, returns without a panic whether Accept fails or
    not and whatever requests the client sends; when it returns the
    disconnect has been signalled, exactly once over the life of the
    server (the channel is closed now if it was not closed before), the
    config no longer points to the channel, and when a binary to remove
    is recorded its removal is the last thing that happened. *)
Theorem Run_signals_disconnect (accepted : option (list RequestMessage))
    (s : Server) :
  disconnectReady s →
  ∃ s', Run accepted s = (Ok (), s') ∧
        config_DisconnectChan s' = None ∧
        closes DisconnectChan (trace s') =
          (closes DisconnectChan (trace s) + pending s)%nat ∧
        (binaryToRemove s' ≠ "" →
         last (trace s') = Some (RemoveBinary (binaryToRemove s'))).
Proof.
  intros Hready. destruct accepted as [requests|]; cbn [Run].
  - rewrite bind_modify. unfold serveDAPCodec.
    set (s0 := set_conn true s).
    destruct (serveRequests_settles requests s0) as (s1 & Hs1 & Hsettles).
    destruct (Hsettles Hready) as (Hready1 & _ & Hcount).
    destruct (signalDisconnect_removes s1 Hready1)
      as (s' & Hs' & Hnone & Hcloses & Hlast).
    exists s'. rewrite (bind_Ok _ _ _ _ _ Hs1). split; [done|].
    split; [done|]. split; [|done].
    rewrite Hcloses. exact Hcount.
  - by apply signalDisconnect_removes.
Qed.
End RunProofs.

(** * What only a launch changes *)

Section SameSession.
Context `{Ext : External}.

#[global] Instance sameSession_preorder : PreOrder sameSession.
Proof.
  split.
  - intros s. by repeat split.
  - intros s1 s2 s3 (Ha & Hp & Hc & Hb & Hn & Hd) (Ha' & Hp' & Hc' & Hb' & Hn' & Hd').
    repeat split; try congruence; tauto.
Qed.

Lemma sameSession_modify (g : Server → Server) :
  (∀ s, sameSession s (g s)) → respects sameSession (modify g).
Proof. intros H s. apply H. Qed.

Lemma sameSession_emit e : respects sameSession (emit e).
Proof. intros s. by repeat split. Qed.

Lemma sameSession_send m : respects sameSession (send m).
Proof. apply sameSession_emit. Qed.

Lemma sameSession_sendErrorResponse request id summary details :
  respects sameSession (sendErrorResponse request id summary details).
Proof. apply sameSession_emit. Qed.

Lemma sameSession_sendInternalErrorResponse seq details :
  respects sameSession (sendInternalErrorResponse seq details).
Proof. apply sameSession_emit. Qed.

Lemma sameSession_createVariableHandle v :
  respects sameSession (createVariableHandle v).
Proof. intros s. by repeat split. Qed.

Lemma sameSession_createStackFrameHandle f :
  respects sameSession (createStackFrameHandle f).
Proof. intros s. by repeat split. Qed.

Lemma sameSession_onDebugger {A} c (f : Debugger → A * Debugger) :
  respects sameSession (onDebugger c f).
Proof.
  intros s. unfold onDebugger. rewrite bind_gets.
  destruct (debugger s) as [d|] eqn:Hd; [|by repeat split].
  simpl. repeat split; try done; rewrite Hd; by eexists.
Qed.

Lemma sameSession_close c : respects sameSession (close c).
Proof.
  intros s. unfold close. rewrite bind_gets.
  destruct (chan c s); [|by repeat split].
  destruct c; by repeat split.
Qed.

Lemma sameSession_convertVariable v : respects sameSession (convertVariable v).
Proof.
  intros s. destruct (convertVariable_cases v) as [[value H]|[value [v' H]]];
    rewrite H; [reflexivity|].
  apply (sameSession_createVariableHandle v' s).
Qed.
End SameSession.

#[global] Hint Resolve sameSession_emit sameSession_send
  sameSession_sendErrorResponse sameSession_sendInternalErrorResponse
  sameSession_createVariableHandle sameSession_createStackFrameHandle
  sameSession_onDebugger sameSession_close sameSession_convertVariable
  : respects.

#[global] Hint Extern 1 (respects sameSession (modify _)) =>
  apply sameSession_modify; intros ?; by repeat split : respects.

Section SameSessionHandlers.
Context `{Ext : External}.

Lemma sameSession_mapChildren len cs : ∀ kvIndex children,
  respects sameSession (mapChildren len kvIndex cs children).
Proof.
  induction cs as [cs IH] using (induction_ltof1 _ length); unfold ltof in IH.
  intros kvIndex children. destruct cs as [|k [|c rest]]; cbn [mapChildren].
  - respect.
  - respect.
  - apply respects_bind; [apply _|respect|]. intros [key keyref].
    apply respects_bind; [apply _|respect|]. intros [val valref].
    destruct (_ && _); apply IH; simpl; lia.
Qed.

Lemma sameSession_listChildren indexed cs : ∀ i,
  respects sameSession (listChildren indexed i cs).
Proof.
  induction cs as [|c cs IH]; intros i; cbn [listChildren]; respect.
Qed.

Lemma sameSession_stackFramesLoop goroutineID frames : ∀ i,
  respects sameSession (stackFramesLoop goroutineID i frames).
Proof.
  induction frames as [|frame frames IH]; intros i; cbn [stackFramesLoop]; respect.
Qed.

Lemma sameSession_clearBreakpoints path existing :
  respects sameSession (clearBreakpoints path existing).
Proof.
  induction existing as [|bp rest IH]; cbn [clearBreakpoints]; respect.
Qed.

Lemma sameSession_createBreakpoints path wanted :
  respects sameSession (createBreakpoints path wanted).
Proof.
  induction wanted as [|want rest IH]; cbn [createBreakpoints]; respect.
Qed.

Lemma sameSession_signalDisconnect : respects sameSession signalDisconnect.
Proof. unfold signalDisconnect. respect. Qed.

Lemma sameSession_detach : respects sameSession detach.
Proof. unfold detach. respect. Qed.

Lemma sameSession_doCommand command : respects sameSession (doCommand command).
Proof. unfold doCommand, resetHandles. respect. Qed.

#[local] Hint Resolve sameSession_mapChildren sameSession_listChildren
  sameSession_stackFramesLoop sameSession_clearBreakpoints
  sameSession_createBreakpoints sameSession_signalDisconnect
  sameSession_detach sameSession_doCommand : respects.

Lemma sameSession_dispatch request :
  isLaunch request = false → respects sameSession (dispatch request).
Proof.
  intros Hlaunch. destruct request; try discriminate Hlaunch; cbn [dispatch];
    unfold sendNotYetImplementedErrorResponse, sendUnsupportedErrorResponse,
      onInitializeRequest, onSetExceptionBreakpointsRequest, onContinueRequest,
      onNextRequest, onStepInRequest, onStepOutRequest,
      onConfigurationDoneRequest, onDisconnectRequest, onThreadsRequest,
      onSetBreakpointsRequest, onStackTraceRequest, onScopesRequest,
      scopesResponse, onVariablesRequest, getVariableHandle;
    cbv zeta; respect.
Qed.

Lemma sameSession_handleRequest request :
  isLaunch request = false → respects sameSession (handleRequest request).
Proof.
  intros Hlaunch. apply respects_handleRequest; [apply _| |].
  - intros seq details. apply sameSession_sendInternalErrorResponse.
  - by apply sameSession_dispatch.
Qed.

(** X15.  Requests other than launch, however many and whether they
    return or panic, leave the session as the last launch set it up: the
    session arguments (stop on entry, stack trace depth, show globals),
    the process arguments and the config of the debugger, the binary to
    remove and the connection are unchanged, and a debugger is attached
    afterwards exactly when one was before; in particular the disconnect
    request detaches the debugger but does not clear s.debugger. *)
Theorem serveRequests_same_session (requests : list RequestMessage) (s : Server) :
  forallb (λ request, negb (isLaunch request)) requests = true →
  sameSession s (exec (serveRequests requests) s).
Proof.
  revert s. induction requests as [|request requests IH]; intros s Hall.
  - reflexivity.
  - simpl in Hall. apply andb_true_iff in Hall as [Hrequest%negb_true_iff Hall].
    cbn [serveRequests]. unfold exec.
    destruct (handleRequest_Ok request s) as [s1 Hs1].
    rewrite (bind_Ok _ _ _ _ _ Hs1).
    pose proof (sameSession_handleRequest request Hrequest s) as H1.
    rewrite Hs1 in H1. etrans; [exact H1|]. by apply IH.
Qed.
End SameSessionHandlers.

Section DetachTwice.
Context `{Ext : External}.

(** X16.  The disconnect request detaches the debugger and leaves
    s.debugger set, so a Stop that follows it (the owner of the server
    calls Stop when the disconnect is signalled) detaches the same
    debugger a second time: on a server with a debugger and open
    channels, the disconnect request followed by Stop returns, and the
    calls of Detach between them are exactly two, both with kill set
    exactly when the debugger was not attached to a running process. *)
Theorem disconnect_then_Stop_detaches_twice (request : dap.Request)
    (s : Server) (d : Debugger) :
  debugger s = Some d →
  channelsReady s →
  ∃ s' suffix,
    (onDisconnectRequest request;; Stop) s = (Ok (), s') ∧
    trace s' = trace s ++ suffix ∧
    filter (λ e, isDetach e = true) suffix =
      [OnDebugger (CallDetach (bool_decide (AttachPid (config_Debugger s) = 0)));
       OnDebugger (CallDetach (bool_decide (AttachPid (config_Debugger s) = 0)))].
Proof.
  intros Hd [Hstop Hready].
  destruct s as [pa cfg dc sc dch cn dbg bin sfh vh ar tr].
  simpl in Hd, Hstop, Hready. subst.
  unfold disconnectReady in Hready. simpl in Hready.
  destruct Hready as [->|[-> ->]];
    destruct (bool_decide (bin ≠ "")) eqn:Hbin; destruct cn;
    cbv [mbind M_bind onDisconnectRequest Stop detach signalDisconnect
         onDebugger close send emit modify gets when skip mret M_ret
         set_trace set_debugger set_chan set_config_DisconnectChan chan
         trace debugger config_Debugger config_DisconnectChan stopChan
         disconnectChan conn binaryToRemove config_ProcessArgs
         stackFrameHandles variableHandles args fst snd];
    rewrite ?Hbin;
    cbv [mbind M_bind emit modify set_trace trace fst snd];
    eexists _, _; (split; [reflexivity|]);
    rewrite <- ?app_assoc; (split; [reflexivity|]); reflexivity.
Qed.
End DetachTwice.

Section RunsToStop.
Context `{Ext : External}.

Lemma doCommand_state command s d state :
  debugger s = Some d →
  (debugger_Command d command).1 = inl state →
  api.Exited state = false →
  ∃ s1,
    trace s1 = trace s ++ [OnDebugger (CallCommand command);
                           ResetHandles StackFrameHandles;
                           ResetHandles VariableHandles] ∧
    doCommand command s =
      match api.SelectedGoroutine state with
      | Some g =>
        (Ok (),
         set_trace
           (trace s1 ++
            [Send (stoppedEvent
                     (if bool_decide (command = api.Next)
                         || bool_decide (command = api.Step)
                         || bool_decide (command = api.StepOut)
                      then "step" else "breakpoint") (api.ID g) "")]) s1)
      | None => (Panic nilDereference, s1)
      end.
Proof.
  intros Hd Hstate Hexited. unfold doCommand. rewrite bind_gets, Hd.
  cbn beta iota.
  rewrite (bind_Ok _ _ _ _ _ (onDebugger_Some _ _ _ _ Hd)), Hstate.
  cbn [processExited]. rewrite Hexited. rewrite resetHandles_eq.
  eexists. split; [|destruct (api.SelectedGoroutine state); reflexivity].
  simpl. by rewrite <- !app_assoc.
Qed.

Lemma commandOf_response request s command :
  commandOf request s = Some command →
  ∃ response,
    commandResponse request = Some response ∧
    isResponseTo (GetSeq request) response = true ∧
    dispatch request s =
      doCommand command (set_trace (trace s ++ [Send response]) s) ∧
    (if bool_decide (command = api.Next) || bool_decide (command = api.Step)
        || bool_decide (command = api.StepOut)
     then "step" else "breakpoint") = stopReason request.
Proof.
  intros Hc.
  destruct request; try discriminate Hc; cbn [dispatch commandOf] in *.
  - destruct (stopOnEntry (args s)) eqn:Hstop; [done|]. injection Hc as <-.
    eexists. split; [reflexivity|]. split.
    { simpl. by apply bool_decide_eq_true_2. }
    split; [|reflexivity].
    unfold onConfigurationDoneRequest. rewrite bind_gets, Hstop. cbn [when].
    rewrite bind_skip, bind_send, bind_gets. simpl. by rewrite Hstop.
  - injection Hc as <-. eexists. split; [reflexivity|]. split.
    { simpl. by apply bool_decide_eq_true_2. }
    split; [|reflexivity]. unfold onContinueRequest. by rewrite bind_send.
  - injection Hc as <-. eexists. split; [reflexivity|]. split.
    { simpl. by apply bool_decide_eq_true_2. }
    split; [|reflexivity]. unfold onNextRequest. by rewrite bind_send.
  - injection Hc as <-. eexists. split; [reflexivity|]. split.
    { simpl. by apply bool_decide_eq_true_2. }
    split; [|reflexivity]. unfold onStepInRequest. by rewrite bind_send.
  - injection Hc as <-. eexists. split; [reflexivity|]. split.
    { simpl. by apply bool_decide_eq_true_2. }
    split; [|reflexivity]. unfold onStepOutRequest. by rewrite bind_send.
Qed.

(** X17.  A configurationDone (without stop on entry), continue, next,
    stepIn or stepOut request whose command ends in a state that has not
    exited and has a selected goroutine: the response is sent before the
    command is issued, both registries are reset before the stop is
    reported, and the stopped event names the selected goroutine, with
    the reason "step" for next, stepIn and stepOut and "breakpoint" for
    the other two. *)
Theorem handleRequest_runs_to_stop (request : RequestMessage) (s : Server)
    (command : string) (d : Debugger) (state : api.DebuggerState)
    (g : api.Goroutine) :
  commandOf request s = Some command →
  debugger s = Some d →
  (debugger_Command d command).1 = inl state →
  api.Exited state = false →
  api.SelectedGoroutine state = Some g →
  ∃ response s',
    commandResponse request = Some response ∧
    isResponseTo (GetSeq request) response = true ∧
    handleRequest request s = (Ok (), s') ∧
    trace s' = trace s ++
      [Send response;
       OnDebugger (CallCommand command);
       ResetHandles StackFrameHandles;
       ResetHandles VariableHandles;
       Send (stoppedEvent (stopReason request) (api.ID g) "")].
Proof.
  intros Hc Hd Hstate Hexited Hg.
  destruct (commandOf_response request s command Hc)
    as (response & Hresponse & Hseq & Hdispatch & Hreason).
  destruct (doCommand_state command (set_trace (trace s ++ [Send response]) s)
              d state Hd Hstate Hexited) as (s1 & Htrace & Hrun).
  rewrite Hg, Hreason in Hrun.
  exists response. eexists. split; [done|]. split; [done|]. split.
  { apply handleRequest_of_Ok. rewrite Hdispatch. exact Hrun. }
  simpl. rewrite Htrace. simpl. by rewrite <- !app_assoc.
Qed.

(** X18.  The same requests when the state of the command has no
    selected goroutine: the read of its id panics after the response was
    sent and the registries were reset; handleRequest recovers, so the
    request is answered twice, with its response and then with the
    internal error response of the nil dereference, and no stopped event
    is sent. *)
Theorem handleRequest_no_selected_goroutine (request : RequestMessage)
    (s : Server) (command : string) (d : Debugger) (state : api.DebuggerState) :
  commandOf request s = Some command →
  debugger s = Some d →
  (debugger_Command d command).1 = inl state →
  api.Exited state = false →
  api.SelectedGoroutine state = None →
  ∃ response s',
    commandResponse request = Some response ∧
    handleRequest request s = (Ok (), s') ∧
    trace s' = trace s ++
      [Send response;
       OnDebugger (CallCommand command);
       ResetHandles StackFrameHandles;
       ResetHandles VariableHandles;
       Send (internalErrorResponse (GetSeq request) nilDereference)].
Proof.
  intros Hc Hd Hstate Hexited Hg.
  destruct (commandOf_response request s command Hc)
    as (response & Hresponse & Hseq & Hdispatch & Hreason).
  destruct (doCommand_state command (set_trace (trace s ++ [Send response]) s)
              d state Hd Hstate Hexited) as (s1 & Htrace & Hrun).
  rewrite Hg in Hrun.
  exists response. eexists. split; [done|]. split.
  { unfold handleRequest. rewrite Hdispatch, Hrun. reflexivity. }
  simpl. rewrite Htrace. simpl. by rewrite <- !app_assoc.
Qed.

(** X19.  The same requests when the command fails with an error that is
    not the exit of the process: after the response and the reset of the
    registries the handler reads the state of the debugger without
    waiting, and reports a stop with the reason "runtime error" and the
    text of the error ("bad access" is replaced by the longer
    explanation), on the goroutine of the current thread, or on thread 0
    when the state cannot be read; an output event on stderr repeats the
    text as "ERROR: <text>" and a newline. *)
Theorem handleRequest_command_error (request : RequestMessage) (s : Server)
    (command : string) (d : Debugger) (err : error) (threadId : Z) :
  commandOf request s = Some command →
  debugger s = Some d →
  (debugger_Command d command).1 = inr err →
  errType err ≠ ErrProcessExited →
  errorThread (debugger_State (debugger_Command d command).2 true).1
    = Some threadId →
  ∃ response s',
    commandResponse request = Some response ∧
    handleRequest request s = (Ok (), s') ∧
    trace s' = trace s ++
      [Send response;
       OnDebugger (CallCommand command);
       ResetHandles StackFrameHandles;
       ResetHandles VariableHandles;
       OnDebugger (CallState true);
       Send (stoppedEvent "runtime error" threadId (errorText err));
       Send (dap.OutputEvent (newEvent "output")
               ("ERROR: " +:+ errorText err +:+ "
") "stderr")].
Proof.
  intros Hc Hd Herr Htype Hthread.
  destruct (commandOf_response request s command Hc)
    as (response & Hresponse & Hseq & Hdispatch & Hreason).
  exists response.
  assert (∃ s1,
    dispatch request s = (Ok (), s1) ∧
    trace s1 = trace s ++
      [Send response;
       OnDebugger (CallCommand command);
       ResetHandles StackFrameHandles;
       ResetHandles VariableHandles;
       OnDebugger (CallState true);
       Send (stoppedEvent "runtime error" threadId (errorText err));
       Send (dap.OutputEvent (newEvent "output")
               ("ERROR: " +:+ errorText err +:+ "
") "stderr")]) as (s1 & Hrun & Htrace).
  { rewrite Hdispatch.
    unfold doCommand. rewrite bind_gets. cbn [debugger set_trace].
    rewrite Hd. cbn beta iota.
    rewrite (bind_Ok _ _ _ _ _
               (onDebugger_Some _ _ (set_trace (trace s ++ [Send response]) s)
                  d Hd)), Herr.
    cbn [processExited]. rewrite (bool_decide_eq_false_2 _ Htype).
    rewrite resetHandles_eq. cbv zeta.
    erewrite bind_Ok by (apply onDebugger_Some; reflexivity).
    fold (errorText err). cbn beta in *. unfold errorThread in Hthread.
    destruct (debugger_State (debugger_Command d command).2 true).1
      as [state|err'].
    - destruct (api.CurrentThread state) as [t|]; simpl in Hthread;
        [|discriminate Hthread].
      injection Hthread as <-.
      eexists. split; [reflexivity|]. simpl. by rewrite <- !app_assoc.
    - injection Hthread as <-.
      eexists. split; [reflexivity|]. simpl. by rewrite <- !app_assoc. }
  exists s1. split; [done|]. split; [by apply handleRequest_of_Ok|done].
Qed.

(** X20.  The same requests when the command ends with the exit of the
    process (the error is proc.ErrProcessExited, or the state has
    exited): after the response the terminated event is the only message,
    no stopped event is sent, and both registries are left as they
    were. *)
Theorem handleRequest_process_exited (request : RequestMessage) (s : Server)
    (command : string) (d : Debugger) :
  commandOf request s = Some command →
  debugger s = Some d →
  processExited (debugger_Command d command).1 = true →
  ∃ response s',
    commandResponse request = Some response ∧
    handleRequest request s = (Ok (), s') ∧
    trace s' = trace s ++
      [Send response;
       OnDebugger (CallCommand command);
       Send (dap.TerminatedEvent (newEvent "terminated"))] ∧
    stackFrameHandles s' = stackFrameHandles s ∧
    variableHandles s' = variableHandles s.
Proof.
  intros Hc Hd Hexit.
  destruct (commandOf_response request s command Hc)
    as (response & Hresponse & Hseq & Hdispatch & Hreason).
  exists response. eexists. split; [done|]. split.
  { apply handleRequest_of_Ok. rewrite Hdispatch.
    by apply (doCommand_exited command
                (set_trace (trace s ++ [Send response]) s) d). }
  split; [simpl; by rewrite <- !app_assoc|]. done.
Qed.
End RunsToStop.

(** * Closed instances *)

(** The frame handle 2 of the traced server resolves after four more
    requests and is gone after a continue that stops at a breakpoint. *)
Lemma handles_resolve_until_stop_witness :
  wfHandles tracedServer ∧
  noStop laterRequests tracedServer = true ∧
  handles.get 2 (stackFrameHandles tracedServer) = Some (mkStackFrameRef 1 1) ∧
  handles.get 2 (stackFrameHandles (exec (serveRequests laterRequests) tracedServer))
    = Some (mkStackFrameRef 1 1) ∧
  handles.get 2 (stackFrameHandles
                   (exec (doCommand api.Continue)
                         (exec (serveRequests laterRequests) tracedServer)))
    = None.
Proof.
  assert (wfHandles tracedServer) as Hwf.
  { apply (serveRequests_grows firstRequests launchedServer eq_refl).
    apply wfHandles_NewServer. }
  assert (noStop laterRequests tracedServer = true) as Hno by reflexivity.
  destruct (handles_resolve_until_stop laterRequests tracedServer Hwf Hno)
    as (Hkeep & Hstop & _).
  destruct (Hstop api.Continue [inl stoppedState] eq_refl eq_refl)
    as (rest & Hnone & _).
  split; [done|]. split; [done|]. split; [reflexivity|].
  split; [by apply Hkeep|]. apply Hnone.
Defined.

(** A channel without children that could not be read: the value does
    not contain "nil". *)
Lemma convertVariable_unreadable_chan :
  nilValued unreadableChan = true ∧
  convertVariable (Ext := demoExternal) unreadableChan demoServer =
    (Ok ("unreadable <input/output error>", 0), demoServer) ∧
  strings_Contains "unreadable <input/output error>" "nil" = false.
Proof. repeat split. Qed.

(** A nil slice. *)
Lemma convertVariable_nil_is_leaf_witness :
  nilValued nilSlice = true ∧
  ∃ value,
    convertVariable (Ext := demoExternal) nilSlice demoServer =
      (Ok (value, 0), demoServer) ∧
    (proc.Unreadable nilSlice = None → strings_Contains value "nil" = true).
Proof.
  split; [reflexivity|].
  apply (convertVariable_nil_is_leaf (Ext := demoExternal) nilSlice demoServer).
  reflexivity.
Defined.



(** configurationDone before any launch: the response is all there is,
    no command is run. *)
Lemma onConfigurationDoneRequest_no_debugger :
  stopOnEntry (args demoServer) = false ∧
  debugger demoServer = None ∧
  trace (exec (onConfigurationDoneRequest (demoRequest 8 "configurationDone"))
              demoServer) =
    [Send (dap.ConfigurationDoneResponse
             (newResponse (demoRequest 8 "configurationDone")))].
Proof. repeat split. Qed.

(** configurationDone after a launch. *)
Lemma onConfigurationDoneRequest_order_witness :
  stopOnEntry (args launchedServer) = false ∧
  ∃ rest,
    trace (exec (onConfigurationDoneRequest (demoRequest 8 "configurationDone"))
                launchedServer) =
    trace launchedServer ++
      [Send (dap.ConfigurationDoneResponse
               (newResponse (demoRequest 8 "configurationDone")));
       OnDebugger (CallCommand api.Continue)] ++ rest.
Proof.
  split; [reflexivity|].
  destruct (onConfigurationDoneRequest_order
              (demoRequest 8 "configurationDone") launchedServer)
    as (_ & Hrun).
  destruct (Hrun eq_refl) as (_ & _ & Hcontinue).
  apply (Hcontinue [inl stoppedState] eq_refl).
Defined.

(** A map of two pairs of scalars. *)
Lemma onVariablesRequest_map_of_scalars_witness :
  handles.get 1 (variableHandles serverWithMap) = Some scalarMap ∧
  ∃ entries,
    onVariablesRequest (demoRequest 5 "variables") 1 serverWithMap =
    (Ok (), set_trace (trace serverWithMap ++
                       [Send (dap.VariablesResponse
                                (newResponse (demoRequest 5 "variables"))
                                entries)]) serverWithMap) ∧
    length entries = 2%nat.
Proof.
  split; [reflexivity|].
  destruct (onVariablesRequest_map_of_scalars (demoRequest 5 "variables") 1
              scalarMap scalarPairs serverWithMap eq_refl eq_refl eq_refl)
    as (entries & Hrun & Hlen & _).
  - intros c Hc. simpl in Hc.
    repeat (apply elem_of_cons in Hc as [->|Hc]; [reflexivity|]).
    by apply elem_of_nil in Hc.
  - exists entries. split; [exact Hrun|exact Hlen].
Defined.

(** The second frame has no function: its name is "???", where the
    name of a goroutine at that location would be the file and the line. *)
Lemma onStackTraceRequest_unresolved_function :
  demoFrames !! 1%nat =
    Some (proc.mkStackframe (proc.mkLocation "/work/asm.s" 10 None)) ∧
  threadName (proc.mkLocation "/work/asm.s" 10 None) = "/work/asm.s@10" ∧
  frameNames <$>
    sent (exec (onStackTraceRequest (demoRequest 3 "stackTrace")
                  (mkStackTraceArguments 1 0 0)) launchedServer) =
    [["main.main"; "???"; "main.init"]].
Proof. repeat split. Qed.

(** The stack trace of the scripted debugger from the second frame on,
    one frame at most: the frame without a function. *)
Lemma onStackTraceRequest_frames_witness :
  debugger launchedServer = Some [inl stoppedState] ∧
  ∃ stackFrames,
    trace (exec (onStackTraceRequest (demoRequest 3 "stackTrace")
                   (mkStackTraceArguments 1 1 1)) launchedServer) =
    trace launchedServer ++
      [OnDebugger (CallStacktrace 1 50 0);
       Send (dap.StackTraceResponse (newResponse (demoRequest 3 "stackTrace"))
               (paginate 1 1 stackFrames) 3)] ∧
    Forall2 (describes (Ext := demoExternal)) demoFrames stackFrames ∧
    Forall2 (describes (Ext := demoExternal))
      [proc.mkStackframe (proc.mkLocation "/work/asm.s" 10 None)]
      (paginate 1 1 stackFrames).
Proof.
  split; [reflexivity|].
  exact (onStackTraceRequest_frames (demoRequest 3 "stackTrace")
           (mkStackTraceArguments 1 1 1) launchedServer
           [inl stoppedState] demoFrames eq_refl eq_refl).
Defined.




(** Stop called twice closes the stop channel twice. *)
Lemma Stop_twice_panics :
  channelsReady demoServer ∧
  (teardowns [TeardownStop; TeardownStop] demoServer).1 =
    Panic "close of closed channel".
Proof. split; [split; [reflexivity|right; by split]|reflexivity]. Qed.

(** A disconnect request, the end of the connection, Stop, and one more
    signalDisconnect. *)
Lemma teardown_with_one_Stop_witness :
  channelsReady demoServer ∧
  ∃ s', teardowns demoTeardown demoServer = (Ok (), s') ∧
        (closes DisconnectChan (trace s') ≤ 1)%nat.
Proof.
  assert (channelsReady demoServer) as Hready
    by (split; [reflexivity|right; by split]).
  assert (stops demoTeardown ≤ 1)%nat as Hstops by (vm_compute; lia).
  destruct (teardown_with_one_Stop demoTeardown demoServer Hready Hstops)
    as (s' & Hrun & _ & Hcloses).
  split; [exact Hready|]. exists s'. split; [exact Hrun|exact Hcloses].
Defined.


(** ** Closed instances of the further properties *)




(** The map with five children. *)
Lemma handleRequest_map_odd_children_witness :
  handles.get 1 (variableHandles serverWithOddMap) = Some oddMap ∧
  proc.Children oddMap =
    (mixedPairs ≫= (λ kv, [kv.1; kv.2])) ++ [intVariable "" "3"] ∧
  ∃ s',
    handleRequest (Ext := sessionExternal)
      (VariablesRequest (demoRequest 5 "variables") 1) serverWithOddMap =
      (Ok (), s') ∧
    trace s' = trace serverWithOddMap ++
      [Send (internalErrorResponse 5 (indexOutOfRange 5))].
Proof.
  split; [reflexivity|]. split; [reflexivity|].
  exact (handleRequest_map_odd_children (Ext := sessionExternal)
           (demoRequest 5 "variables") 1 oddMap mixedPairs
           (intVariable "" "3") serverWithOddMap eq_refl eq_refl eq_refl).
Defined.

(** After a continue that stops at a breakpoint, the frame id 2 of the
    stack trace before it is unknown. *)
Lemma stale_handles_are_rejected_witness :
  runsToStop (ContinueRequest (demoRequest 8 "continue")) tracedServer = true ∧
  handles.get 2 (stackFrameHandles tracedServer) = Some (mkStackFrameRef 1 1) ∧
  handleRequest (ScopesRequest (demoRequest 9 "scopes") 2)
    (exec (handleRequest (ContinueRequest (demoRequest 8 "continue")))
       tracedServer) =
    (Ok (),
     set_trace
       (trace (exec (handleRequest (ContinueRequest (demoRequest 8 "continue")))
                 tracedServer) ++
        [Send (errorResponse (demoRequest 9 "scopes") UnableToListLocals
                 "Unable to list locals" ("unknown frame id " +:+ fmt_d 2))])
       (exec (handleRequest (ContinueRequest (demoRequest 8 "continue")))
          tracedServer)).
Proof.
  split; [reflexivity|]. split; [reflexivity|].
  exact (proj1 (stale_handles_are_rejected (Ext := demoExternal)
                  (ContinueRequest (demoRequest 8 "continue")) tracedServer
                  (demoRequest 9 "scopes") 2 eq_refl)).
Defined.

(** The two goroutines of the second debugger: two threads. *)
Lemma onThreadsRequest_threads_witness :
  debugger sessionServer = Some [] ∧
  ∃ (threads : list dap.Thread),
    sent (exec (onThreadsRequest (Ext := sessionExternal)
                  (demoRequest 6 "threads")) sessionServer) =
      [dap.ThreadsResponse (newResponse (demoRequest 6 "threads")) threads] ∧
    length threads = 2%nat ∧
    ∃ t, threads !! 1%nat = Some t ∧ dap.th_Id t = 5 ∧
         dap.th_Name t = "/work/asm.s" +:+ "@" +:+ fmt_d 10.
Proof.
  split; [reflexivity|].
  destruct (onThreadsRequest_threads (Ext := sessionExternal)
              (demoRequest 6 "threads") sessionServer [] sessionGoroutines
              eq_refl eq_refl) as (threads & Hrun & _ & _ & Hthreads).
  destruct Hthreads as [Hlen Hnames]; [discriminate|].
  exists threads. split.
  { unfold exec. rewrite Hrun. reflexivity. }
  split; [exact Hlen|].
  exact (Hnames 1%nat _ eq_refl).
Defined.



(** The scopes of the frame of the second debugger, without the globals. *)
Lemma onScopesRequest_two_scopes_witness :
  wfHandles sessionServer ∧
  handles.get 1 (stackFrameHandles sessionServer) = Some (mkStackFrameRef 1 0) ∧
  showGlobalVariables (args sessionServer) = false ∧
  ∃ argRef locRef s',
    onScopesRequest (Ext := sessionExternal) (demoRequest 4 "scopes") 1
      sessionServer = (Ok (), s') ∧
    argRef ≠ locRef ∧
    handles.get argRef (variableHandles s') =
      Some (scopeVariable (Ext := sessionExternal) "Arguments"
              [intVariable "n" "3"]) ∧
    handles.get locRef (variableHandles s') =
      Some (scopeVariable (Ext := sessionExternal) "Locals"
              [pointStruct; intSlice]).
Proof.
  assert (wfHandles sessionServer) as Hwf.
  { split; [apply handles_facts.wf_create|]; apply handles_facts.wf_new. }
  split; [exact Hwf|]. split; [reflexivity|]. split; [reflexivity|].
  destruct (onScopesRequest_two_scopes (Ext := sessionExternal)
              (demoRequest 4 "scopes") 1 sessionServer (mkStackFrameRef 1 0) []
              [intVariable "n" "3"] [pointStruct; intSlice]
              Hwf eq_refl eq_refl eq_refl eq_refl eq_refl)
    as (argRef & locRef & s' & Hrun & _ & Hne & _ & _ & Hargs & Hlocals).
  exists argRef, locRef, s'.
  split; [exact Hrun|]. split; [exact Hne|]. split; [exact Hargs|exact Hlocals].
Defined.

(** The scopes with the globals: the global main.counter is listed as
    counter. *)
Lemma onScopesRequest_globals_witness :
  handles.get 1 (stackFrameHandles globalsServer) = Some (mkStackFrameRef 1 0) ∧
  showGlobalVariables (args globalsServer) = true ∧
  ∃ globRef children s',
    onScopesRequest (Ext := sessionExternal) (demoRequest 4 "scopes") 1
      globalsServer = (Ok (), s') ∧
    handles.get globRef (variableHandles s') =
      Some (scopeVariable (Ext := sessionExternal)
              ("Globals (package " +:+ "main" +:+ ")") children) ∧
    children !! 0%nat =
      Some (withName (Ext := sessionExternal) (intVariable "main.counter" "0")
              (strings_TrimPrefix "main.counter" ("main" +:+ "."))) ∧
    strings_TrimPrefix "main.counter" ("main" +:+ ".") = "counter".
Proof.
  split; [reflexivity|]. split; [reflexivity|].
  destruct (onScopesRequest_globals (Ext := sessionExternal)
              (demoRequest 4 "scopes") 1 globalsServer (mkStackFrameRef 1 0) []
              [intVariable "n" "3"] [pointStruct; intSlice]
              [intVariable "main.counter" "0"] "main"
              eq_refl eq_refl eq_refl eq_refl eq_refl eq_refl eq_refl)
    as (argRef & locRef & globRef & children & s' & Hrun & _ & Hget & _ & Hnames).
  exists globRef, children, s'.
  split; [exact Hrun|]. split; [exact Hget|].
  split; [exact (Hnames 0%nat _ eq_refl)|reflexivity].
Defined.

(** launch{program: "x", mode: "test", buildFlags: "-race"} builds a test
    binary at /work/./__debug_bin and records it for removal. *)
Lemma onLaunchRequest_builds_witness :
  assertString (Ext := demoExternal) (launchTest !! "program") = Some "x" ∧
  buildMode (Ext := demoExternal) launchTest = true ∧
  filepath_Abs (External := demoExternal)
    (launchOutput (Ext := demoExternal) launchTest) =
    inl ("/work/" +:+ debugBinary) ∧
  launchTest !! "buildFlags" = Some (jstring "-race") ∧
  ∃ s' suffix,
    onLaunchRequest (Ext := demoExternal) (demoRequest 2 "launch") launchTest
      demoServer = (Ok (), s') ∧
    trace s' = trace demoServer ++
      Build true ("/work/" +:+ debugBinary) ["x"] "-race" :: suffix ∧
    binaryToRemove s' = "/work/" +:+ debugBinary.
Proof.
  split; [reflexivity|]. split; [reflexivity|]. split; [reflexivity|].
  split; [reflexivity|].
  destruct (onLaunchRequest_builds (Ext := demoExternal)
              (demoRequest 2 "launch") launchTest demoServer "x"
              ("/work/" +:+ debugBinary) "-race"
              eq_refl ltac:(discriminate) eq_refl eq_refl (or_introl eq_refl))
    as (s' & suffix & Hrun & Htrace & Hbinary & _).
  exists s', suffix. split; [exact Hrun|]. split; [exact Htrace|exact Hbinary].
Defined.

(** A client that sends a disconnect request and closes the connection:
    the disconnect channel is closed once. *)
Lemma Run_signals_disconnect_witness :
  disconnectReady demoServer ∧
  ∃ s',
    Run (Ext := demoExternal)
      (Some [DisconnectRequest (demoRequest 9 "disconnect")]) demoServer =
      (Ok (), s') ∧
    config_DisconnectChan s' = None ∧
    closes DisconnectChan (trace s') = 1%nat.
Proof.
  assert (disconnectReady demoServer) as Hready by (right; by split).
  split; [exact Hready|].
  destruct (Run_signals_disconnect (Ext := demoExternal)
              (Some [DisconnectRequest (demoRequest 9 "disconnect")])
              demoServer Hready) as (s' & Hrun & Hnone & Hcloses & _).
  exists s'. split; [exact Hrun|]. split; [exact Hnone|exact Hcloses].
Defined.

(** Scopes, variables, threads and stack trace requests after a launch
    leave the session arguments and the debugger in place. *)
Lemma serveRequests_same_session_witness :
  forallb (λ request, negb (isLaunch request)) laterRequests = true ∧
  args (exec (serveRequests laterRequests) tracedServer) = args tracedServer ∧
  (is_Some (debugger (exec (serveRequests laterRequests) tracedServer)) ↔
   is_Some (debugger tracedServer)).
Proof.
  split; [reflexivity|].
  destruct (serveRequests_same_session (Ext := demoExternal) laterRequests
              tracedServer eq_refl) as (Hargs & _ & _ & _ & _ & Hdebugger).
  split; [exact Hargs|exact Hdebugger].
Defined.

(** A disconnect request and then Stop on the launched server. *)
Lemma disconnect_then_Stop_detaches_twice_witness :
  debugger launchedServer = Some [inl stoppedState] ∧
  channelsReady launchedServer ∧
  ∃ s' suffix,
    (onDisconnectRequest (Ext := demoExternal) (demoRequest 9 "disconnect");;
     Stop) launchedServer = (Ok (), s') ∧
    trace s' = trace launchedServer ++ suffix ∧
    filter (λ e, isDetach e = true) suffix =
      [OnDebugger (CallDetach true); OnDebugger (CallDetach true)].
Proof.
  assert (channelsReady launchedServer) as Hready
    by (split; [reflexivity|right; by split]).
  split; [reflexivity|]. split; [exact Hready|].
  exact (disconnect_then_Stop_detaches_twice (Ext := demoExternal)
           (demoRequest 9 "disconnect") launchedServer [inl stoppedState]
           eq_refl Hready).
Defined.

(** A next request on the launched server: the stop is a step on
    goroutine 1. *)
Lemma handleRequest_runs_to_stop_witness :
  commandOf (NextRequest (demoRequest 8 "next")) launchedServer =
    Some api.Next ∧
  debugger launchedServer = Some [inl stoppedState] ∧
  ∃ s',
    handleRequest (Ext := demoExternal) (NextRequest (demoRequest 8 "next"))
      launchedServer = (Ok (), s') ∧
    trace s' = trace launchedServer ++
      [Send (dap.NextResponse (newResponse (demoRequest 8 "next")));
       OnDebugger (CallCommand api.Next);
       ResetHandles StackFrameHandles;
       ResetHandles VariableHandles;
       Send (stoppedEvent "step" 1 "")].
Proof.
  split; [reflexivity|]. split; [reflexivity|].
  destruct (handleRequest_runs_to_stop (Ext := demoExternal)
              (NextRequest (demoRequest 8 "next")) launchedServer api.Next
              [inl stoppedState] stoppedState (api.mkGoroutine 1)
              eq_refl eq_refl eq_refl eq_refl eq_refl)
    as (response & s' & Hresponse & _ & Hrun & Htrace).
  injection Hresponse as <-.
  exists s'. split; [exact Hrun|exact Htrace].
Defined.

(** A continue request when the state after the command has no selected
    goroutine: two responses. *)
Lemma handleRequest_no_selected_goroutine_witness :
  commandOf (ContinueRequest (demoRequest 8 "continue")) noGoroutineServer =
    Some api.Continue ∧
  debugger noGoroutineServer = Some [inl (api.mkDebuggerState false None None)] ∧
  ∃ s',
    handleRequest (Ext := demoExternal)
      (ContinueRequest (demoRequest 8 "continue")) noGoroutineServer =
      (Ok (), s') ∧
    trace s' = trace noGoroutineServer ++
      [Send (dap.ContinueResponse (newResponse (demoRequest 8 "continue")) true);
       OnDebugger (CallCommand api.Continue);
       ResetHandles StackFrameHandles;
       ResetHandles VariableHandles;
       Send (internalErrorResponse 8 nilDereference)].
Proof.
  split; [reflexivity|]. split; [reflexivity|].
  destruct (handleRequest_no_selected_goroutine (Ext := demoExternal)
              (ContinueRequest (demoRequest 8 "continue")) noGoroutineServer
              api.Continue [inl (api.mkDebuggerState false None None)]
              (api.mkDebuggerState false None None)
              eq_refl eq_refl eq_refl eq_refl eq_refl)
    as (response & s' & Hresponse & Hrun & Htrace).
  injection Hresponse as <-.
  exists s'. split; [exact Hrun|exact Htrace].
Defined.

(** A continue request whose command fails with "bad access"; the state
    of the first debugger cannot be read, so the stop is on thread 0. *)
Lemma handleRequest_command_error_witness :
  commandOf (ContinueRequest (demoRequest 8 "continue")) badAccessServer =
    Some api.Continue ∧
  debugger badAccessServer = Some [inr (mkError OtherError "bad access")] ∧
  errorText (mkError OtherError "bad access") = BetterBadAccessError ∧
  ∃ s',
    handleRequest (Ext := demoExternal)
      (ContinueRequest (demoRequest 8 "continue")) badAccessServer =
      (Ok (), s') ∧
    trace s' = trace badAccessServer ++
      [Send (dap.ContinueResponse (newResponse (demoRequest 8 "continue")) true);
       OnDebugger (CallCommand api.Continue);
       ResetHandles StackFrameHandles;
       ResetHandles VariableHandles;
       OnDebugger (CallState true);
       Send (stoppedEvent "runtime error" 0
               (errorText (mkError OtherError "bad access")));
       Send (dap.OutputEvent (newEvent "output")
               ("ERROR: " +:+ errorText (mkError OtherError "bad access") +:+ "
") "stderr")].
Proof.
  split; [reflexivity|]. split; [reflexivity|]. split; [reflexivity|].
  destruct (handleRequest_command_error (Ext := demoExternal)
              (ContinueRequest (demoRequest 8 "continue")) badAccessServer
              api.Continue [inr (mkError OtherError "bad access")]
              (mkError OtherError "bad access") 0
              eq_refl eq_refl eq_refl ltac:(discriminate) eq_refl)
    as (response & s' & Hresponse & Hrun & Htrace).
  injection Hresponse as <-.
  exists s'. split; [exact Hrun|exact Htrace].
Defined.

(** A continue request when the process has exited. *)
Lemma handleRequest_process_exited_witness :
  commandOf (ContinueRequest (demoRequest 8 "continue")) exitedServer =
    Some api.Continue ∧
  debugger exitedServer = Some [] ∧
  ∃ s',
    handleRequest (Ext := demoExternal)
      (ContinueRequest (demoRequest 8 "continue")) exitedServer = (Ok (), s') ∧
    trace s' = trace exitedServer ++
      [Send (dap.ContinueResponse (newResponse (demoRequest 8 "continue")) true);
       OnDebugger (CallCommand api.Continue);
       Send (dap.TerminatedEvent (newEvent "terminated"))] ∧
    variableHandles s' = variableHandles exitedServer.
Proof.
  split; [reflexivity|]. split; [reflexivity|].
  destruct (handleRequest_process_exited (Ext := demoExternal)
              (ContinueRequest (demoRequest 8 "continue")) exitedServer
              api.Continue [] eq_refl eq_refl eq_refl)
    as (response & s' & Hresponse & Hrun & Htrace & _ & Hvars).
  injection Hresponse as <-.
  exists s'. split; [exact Hrun|]. split; [exact Htrace|exact Hvars].
Defined.
